(** * HomeMonitor: scheduling, session and consistency engine

    A shallow embedding of the TypeScript sources
    - [src/lib/time-utils.ts]   (time windows, [TaskScheduler]),
    - [src/lib/retry.ts]        ([retryWithBackoff]),
    - [src/plugins/evohome/api/mock-api-client.ts] ([AuthManager]),
    - [src/plugins/evohome/services/device-cache-service.ts],
    - [src/plugins/evohome/services/zone-service.ts],
    followed by the properties of the specification that concern them. *)

From Stdlib Require Import ZArith Lia List String Ascii Bool.
From Stdlib Require Import Sorted Permutation.
From stdpp Require Import gmap strings list pretty.
Import ListNotations.

Local Open Scope string_scope.
Local Open Scope Z_scope.

(** ** The JavaScript values the sources compute with *)

Module JS.

(** A [Date] is its number of milliseconds on the local wall clock,
    counted from 1970-01-01 00:00:00.000 local time (a Thursday).  The
    zone offset is taken as fixed, so the getters are plain divisions. *)
Definition Date := Z.

Definition getMilliseconds (d : Date) : Z := d mod 1000.
Definition getSeconds (d : Date) : Z := (d / 1000) mod 60.
Definition getMinutes (d : Date) : Z := (d / 60000) mod 60.
Definition getHours (d : Date) : Z := (d / 3600000) mod 24.
Definition getDay (d : Date) : Z := (d / 86400000 + 4) mod 7.

(** The instant [h:m:s.ms] on the [day]-th day after 1970-01-01. *)
Definition wallClock (day h m s ms : Z) : Date :=
  (((day * 24 + h) * 60 + m) * 60 + s) * 1000 + ms.

(** A JavaScript number that may be [NaN]; [None] is [NaN]. Every
    comparison with [NaN] is false. *)
Definition num := option Z.

Definition num_lt (a b : num) : bool :=
  match a, b with Some x, Some y => x <? y | _, _ => false end.
Definition num_le (a b : num) : bool :=
  match a, b with Some x, Some y => x <=? y | _, _ => false end.
Definition num_ge (a b : num) : bool := num_le b a.

Definition num_add (a b : num) : num :=
  match a, b with Some x, Some y => Some (x + y) | _, _ => None end.
Definition num_mul (a b : num) : num :=
  match a, b with Some x, Some y => Some (x * y) | _, _ => None end.

(** [String.prototype.toLowerCase] on ASCII text.  A letter outside
    ASCII is left as it is here, where the code folds it too. *)
Definition lowerAscii (c : ascii) : ascii :=
  let n := nat_of_ascii c in
  if ((65 <=? n) && (n <=? 90))%nat then ascii_of_nat (n + 32) else c.

Fixpoint toLowerCase (s : string) : string :=
  match s with
  | EmptyString => EmptyString
  | String c r => String (lowerAscii c) (toLowerCase r)
  end.

(** [String.prototype.split] on a one-character separator. *)
Fixpoint split (sep : ascii) (s : string) : list string :=
  match s with
  | EmptyString => [EmptyString]
  | String c r =>
      if Ascii.eqb c sep then EmptyString :: split sep r
      else match split sep r with
           | [] => [String c EmptyString]
           | h :: t => String c h :: t
           end
  end.

Definition digitValue (c : ascii) : option Z :=
  let n := nat_of_ascii c in
  if ((48 <=? n) && (n <=? 57))%nat then Some (Z.of_nat (n - 48)) else None.

Fixpoint digits (acc : Z) (s : string) : num :=
  match s with
  | EmptyString => Some acc
  | String c r =>
      match digitValue c with
      | Some d => digits (acc * 10 + d) r
      | None => None
      end
  end.

(** [Number(s)] on a run of decimal digits, which is its value, and on
    the empty string, which is 0.  A text with a letter no number is
    written with is [NaN] for the code as it is here.  Other texts (blanks
    around the digits, a sign, a fraction, an exponent, a radix prefix,
    [Infinity]) are [NaN] here while the code may read a number: the
    properties about texts that give no number say which texts they
    mean. *)
Definition Number (s : string) : num := digits 0 s.

(** [String.prototype.includes]. *)
Fixpoint startsWith (p s : string) : bool :=
  match p, s with
  | EmptyString, _ => true
  | String a p', String b s' => Ascii.eqb a b && startsWith p' s'
  | String _ _, EmptyString => false
  end.

Fixpoint includes (s p : string) : bool :=
  startsWith p s ||
  match s with
  | EmptyString => false
  | String _ r => includes r p
  end.

(** [Array.prototype.includes] on strings. *)
Definition arrayIncludes (l : list string) (x : string) : bool :=
  existsb (String.eqb x) l.

(** [String.prototype.toUpperCase] on ASCII text.  A letter outside
    ASCII is left as it is here, where the code folds it too and may
    lengthen the text. *)
Definition upperAscii (c : ascii) : ascii :=
  let n := nat_of_ascii c in
  if ((97 <=? n) && (n <=? 122))%nat then ascii_of_nat (n - 32) else c.

Fixpoint toUpperCase (s : string) : string :=
  match s with
  | EmptyString => EmptyString
  | String c r => String (upperAscii c) (toUpperCase r)
  end.

(** [s.charAt(0)]: the first character, or the empty string. *)
Definition charAt0 (s : string) : string :=
  match s with
  | EmptyString => EmptyString
  | String c _ => String c EmptyString
  end.

(** [s.slice(1)] *)
Definition slice1 (s : string) : string :=
  match s with
  | EmptyString => EmptyString
  | String _ r => r
  end.

(** [Array.prototype.join] on strings. *)
Fixpoint join (sep : string) (l : list string) : string :=
  match l with
  | [] => EmptyString
  | [x] => x
  | x :: r => x +:+ sep +:+ join sep r
  end.

(** [Math.ceil(a / b)] on whole numbers. *)
Definition ceilDiv (a b : Z) : Z := - ((- a) / b).

End JS.

(** ** [src/lib/time-utils.ts]: time windows *)

Module TimeUtils.
Import JS.

Record TimeWindow := {
  days : list string;
  start : string;
  end_ : string;
}.

(** [const [hours, minutes] = timeStr.split(':').map(Number);
     return hours * 60 + minutes;]
    A missing second field is [undefined], which makes the sum [NaN]. *)
Definition timeToMinutes (timeStr : string) : num :=
  match map Number (split ":" timeStr) with
  | hours :: minutes :: _ => num_add (num_mul hours (Some 60)) minutes
  | _ => None
  end.

Definition dayNames : list string :=
  ["sunday"; "monday"; "tuesday"; "wednesday"; "thursday"; "friday"; "saturday"].

Definition dayName (i : Z) : string := nth (Z.to_nat i) dayNames "".

Definition normalizedDays (w : TimeWindow) : list string :=
  map toLowerCase (days w).

Definition isWithinTimeWindow (window : TimeWindow) (date : Date) : bool :=
  let currentDay := dayName (getDay date) in
  let currentMinutes := Some (getHours date * 60 + getMinutes date) in
  let startMinutes := timeToMinutes (start window) in
  let endMinutes := timeToMinutes (end_ window) in
  let normalized := normalizedDays window in
  if num_lt endMinutes startMinutes then
    if num_le currentMinutes endMinutes then
      let yesterday := dayName ((getDay date - 1 + 7) mod 7) in
      arrayIncludes normalized yesterday
    else if num_ge currentMinutes startMinutes then
      arrayIncludes normalized currentDay
    else false
  else if num_ge currentMinutes startMinutes && num_le currentMinutes endMinutes then
    arrayIncludes normalized currentDay
  else false.

(** [str.split(' ')
        .map(word => word.charAt(0).toUpperCase() + word.slice(1).toLowerCase())
        .join(' ')] *)
Definition toCamelCase (str : string) : string :=
  join " "
    (map (fun word => toUpperCase (charAt0 word) +:+ toLowerCase (slice1 word))
         (split " " str)).

End TimeUtils.

(** ** A small monad for code that mutates state and may throw *)

Module Effects.

(** What a JavaScript [throw] carries: an [Error] object with its
    [message], or any other value, kept as the text [String(value)]
    gives for it. *)
Inductive JSError :=
| ErrorObj (message : string)
| NonError (asString : string).

Inductive Completion (A : Type) :=
| Normal (a : A)
| Throw (e : JSError).
Arguments Normal {A} a.
Arguments Throw {A} e.

Definition M (W A : Type) : Type := W -> Completion A * W.

Definition ret {W A} (a : A) : M W A := fun w => (Normal a, w).
Definition throw {W A} (e : JSError) : M W A := fun w => (Throw e, w).

Definition bind {W A B} (c : M W A) (k : A -> M W B) : M W B :=
  fun w =>
    match c w with
    | (Normal a, w') => k a w'
    | (Throw e, w') => (Throw e, w')
    end.

Definition get {W} : M W W := fun w => (Normal w, w).
Definition modify {W} (f : W -> W) : M W unit := fun w => (Normal tt, f w).

(** [try { body } catch (error) { handler } finally { fin }]: the handler
    runs on a throw of the body, [fin] runs in every case, and a throw of
    [fin] replaces the completion reached before it. *)
Definition tryCatchFinally {W A}
    (body : M W A) (handler : JSError -> M W A) (fin : M W unit) : M W A :=
  fun w =>
    let '(r1, w1) := body w in
    let '(r2, w2) :=
      match r1 with
      | Normal a => (Normal a, w1)
      | Throw e => handler e w1
      end in
    match fin w2 with
    | (Normal _, w3) => (r2, w3)
    | (Throw e, w3) => (Throw e, w3)
    end.

(** [error instanceof Error ? error.message : String(error)] *)
Definition errorText (e : JSError) : string :=
  match e with
  | ErrorObj m => m
  | NonError t => t
  end.

End Effects.

Declare Scope js_scope.
Delimit Scope js_scope with js.
Notation "x <- c ;; k" := (Effects.bind c (fun x => k))
  (at level 100, c at next level, right associativity) : js_scope.
Notation "c ;;; k" := (Effects.bind c (fun _ => k))
  (at level 100, right associativity) : js_scope.

(** ** [src/lib/time-utils.ts]: the task scheduler *)

Module TaskScheduler.
Import JS Effects.
Local Open Scope js_scope.

Inductive TaskState := NOT_RUN | Pending | Running | OK | Failed.

(** [interface TaskStatus].  [nextRun] is [null], or a [Date] whose time
    value may be [NaN] (an invalid date). *)
Record TaskStatus := {
  st_taskId : string;
  st_lastRun : option Date;
  st_nextRun : option num;
  st_status : TaskState;
  st_statusDetail : string;
  st_intervalMinutes : Z;
  st_totalRuns : Z;
}.

(** [interface TaskConfig].  The handler is a reference into the table of
    handlers the scheduler runs against. *)
Record TaskConfig := {
  cfg_taskId : string;
  cfg_label : string;
  cfg_intervalMinutes : Z;
  cfg_priority : Z;
  cfg_handler : nat;
  cfg_runOnStartup : option bool;
  cfg_minRescheduleThreshold : option Z;
}.

(** [interface QueuedOperation]; the operation is always the closure
    [async () => { await this.executeTask(taskId); }]. *)
Record QueuedOperation := {
  op_taskId : string;
  op_priority : Z;
}.

(** The closures handed to [setTimeout]: the one [scheduleTask] and
    [scheduleNextRun] arm for a task, and the debounce of the queue. *)
Inductive Callback :=
| TaskDue (taskId : string)
| DebounceElapsed.

Record Timeout := {
  handle : nat;
  fireAt : Date;
  callback : Callback;
}.

Inductive LogLevel := DEBUG | INFO | WARNING | ERROR.

Record LogEntry := {
  log_message : string;
  log_source : string;
  log_level : LogLevel;
}.

(** The scheduler's fields, then what it touches outside itself: the
    clock, the timeouts the event loop holds armed, and the log. *)
Record Scheduler := {
  timers : gmap string nat;
  taskStatuses : gmap string TaskStatus;
  taskConfigs : gmap string TaskConfig;
  operationQueue : list QueuedOperation;
  isProcessingQueue : bool;
  queueProcessingTimer : option nat;
  clock : Date;
  armed : list Timeout;
  nextHandle : nat;
  logged : list LogEntry;
}.

Definition LOG_SOURCE : string := "scheduler".
Definition QUEUE_DELAY_MS : Z := 2000.
Definition QUEUE_DEBOUNCE_MS : Z := 2000.

Definition emptyScheduler (now : Date) : Scheduler :=
  {| timers := ∅; taskStatuses := ∅; taskConfigs := ∅; operationQueue := [];
     isProcessingQueue := false; queueProcessingTimer := None;
     clock := now; armed := []; nextHandle := 0%nat; logged := [] |}.

(** *** Field updates *)

Definition with_timers (f : gmap string nat -> gmap string nat) (s : Scheduler) :=
  {| timers := f (timers s); taskStatuses := taskStatuses s;
     taskConfigs := taskConfigs s; operationQueue := operationQueue s;
     isProcessingQueue := isProcessingQueue s;
     queueProcessingTimer := queueProcessingTimer s; clock := clock s;
     armed := armed s; nextHandle := nextHandle s; logged := logged s |}.

Definition with_taskStatuses
    (f : gmap string TaskStatus -> gmap string TaskStatus) (s : Scheduler) :=
  {| timers := timers s; taskStatuses := f (taskStatuses s);
     taskConfigs := taskConfigs s; operationQueue := operationQueue s;
     isProcessingQueue := isProcessingQueue s;
     queueProcessingTimer := queueProcessingTimer s; clock := clock s;
     armed := armed s; nextHandle := nextHandle s; logged := logged s |}.

Definition with_taskConfigs
    (f : gmap string TaskConfig -> gmap string TaskConfig) (s : Scheduler) :=
  {| timers := timers s; taskStatuses := taskStatuses s;
     taskConfigs := f (taskConfigs s); operationQueue := operationQueue s;
     isProcessingQueue := isProcessingQueue s;
     queueProcessingTimer := queueProcessingTimer s; clock := clock s;
     armed := armed s; nextHandle := nextHandle s; logged := logged s |}.

Definition with_operationQueue
    (f : list QueuedOperation -> list QueuedOperation) (s : Scheduler) :=
  {| timers := timers s; taskStatuses := taskStatuses s;
     taskConfigs := taskConfigs s; operationQueue := f (operationQueue s);
     isProcessingQueue := isProcessingQueue s;
     queueProcessingTimer := queueProcessingTimer s; clock := clock s;
     armed := armed s; nextHandle := nextHandle s; logged := logged s |}.

Definition with_queueProcessingTimer (v : option nat) (s : Scheduler) :=
  {| timers := timers s; taskStatuses := taskStatuses s;
     taskConfigs := taskConfigs s; operationQueue := operationQueue s;
     isProcessingQueue := isProcessingQueue s;
     queueProcessingTimer := v; clock := clock s;
     armed := armed s; nextHandle := nextHandle s; logged := logged s |}.

Definition with_armed (f : list Timeout -> list Timeout) (s : Scheduler) :=
  {| timers := timers s; taskStatuses := taskStatuses s;
     taskConfigs := taskConfigs s; operationQueue := operationQueue s;
     isProcessingQueue := isProcessingQueue s;
     queueProcessingTimer := queueProcessingTimer s; clock := clock s;
     armed := f (armed s); nextHandle := nextHandle s; logged := logged s |}.

Definition with_nextHandle (n : nat) (s : Scheduler) :=
  {| timers := timers s; taskStatuses := taskStatuses s;
     taskConfigs := taskConfigs s; operationQueue := operationQueue s;
     isProcessingQueue := isProcessingQueue s;
     queueProcessingTimer := queueProcessingTimer s; clock := clock s;
     armed := armed s; nextHandle := n; logged := logged s |}.

Definition with_logged (f : list LogEntry -> list LogEntry) (s : Scheduler) :=
  {| timers := timers s; taskStatuses := taskStatuses s;
     taskConfigs := taskConfigs s; operationQueue := operationQueue s;
     isProcessingQueue := isProcessingQueue s;
     queueProcessingTimer := queueProcessingTimer s; clock := clock s;
     armed := armed s; nextHandle := nextHandle s; logged := f (logged s) |}.

Definition set_nextRun (d : option num) (st : TaskStatus) : TaskStatus :=
  {| st_taskId := st_taskId st; st_lastRun := st_lastRun st; st_nextRun := d;
     st_status := st_status st; st_statusDetail := st_statusDetail st;
     st_intervalMinutes := st_intervalMinutes st; st_totalRuns := st_totalRuns st |}.

Definition set_lastRun (d : option Date) (st : TaskStatus) : TaskStatus :=
  {| st_taskId := st_taskId st; st_lastRun := d; st_nextRun := st_nextRun st;
     st_status := st_status st; st_statusDetail := st_statusDetail st;
     st_intervalMinutes := st_intervalMinutes st; st_totalRuns := st_totalRuns st |}.

Definition set_status (v : TaskState) (st : TaskStatus) : TaskStatus :=
  {| st_taskId := st_taskId st; st_lastRun := st_lastRun st;
     st_nextRun := st_nextRun st; st_status := v;
     st_statusDetail := st_statusDetail st;
     st_intervalMinutes := st_intervalMinutes st; st_totalRuns := st_totalRuns st |}.

Definition set_statusDetail (v : string) (st : TaskStatus) : TaskStatus :=
  {| st_taskId := st_taskId st; st_lastRun := st_lastRun st;
     st_nextRun := st_nextRun st; st_status := st_status st; st_statusDetail := v;
     st_intervalMinutes := st_intervalMinutes st; st_totalRuns := st_totalRuns st |}.

Definition set_st_intervalMinutes (v : Z) (st : TaskStatus) : TaskStatus :=
  {| st_taskId := st_taskId st; st_lastRun := st_lastRun st;
     st_nextRun := st_nextRun st; st_status := st_status st;
     st_statusDetail := st_statusDetail st;
     st_intervalMinutes := v; st_totalRuns := st_totalRuns st |}.

Definition set_totalRuns (v : Z) (st : TaskStatus) : TaskStatus :=
  {| st_taskId := st_taskId st; st_lastRun := st_lastRun st;
     st_nextRun := st_nextRun st; st_status := st_status st;
     st_statusDetail := st_statusDetail st;
     st_intervalMinutes := st_intervalMinutes st; st_totalRuns := v |}.

Definition set_cfg_intervalMinutes (v : Z) (c : TaskConfig) : TaskConfig :=
  {| cfg_taskId := cfg_taskId c; cfg_label := cfg_label c;
     cfg_intervalMinutes := v; cfg_priority := cfg_priority c;
     cfg_handler := cfg_handler c; cfg_runOnStartup := cfg_runOnStartup c;
     cfg_minRescheduleThreshold := cfg_minRescheduleThreshold c |}.

Abbreviation Run := (M Scheduler).

(** A write through the [status] (or [config]) object a method holds: the
    maps keep one object per task for the life of the scheduler, so the
    write is seen at the task's key. *)
Definition onStatus (taskId : string) (f : TaskStatus -> TaskStatus) : Run unit :=
  modify (with_taskStatuses (alter f taskId)).

Definition onConfig (taskId : string) (f : TaskConfig -> TaskConfig) : Run unit :=
  modify (with_taskConfigs (alter f taskId)).

Definition writeLog (message source : string) (level : LogLevel) : Run unit :=
  modify (with_logged (fun l =>
    (l ++ [{| log_message := message; log_source := source; log_level := level |}])%list)).

(** Node's timers: a delay that is [NaN], below 1 or above 2^31-1 is 1. *)
Definition timerDelay (delay : num) : Z :=
  match delay with
  | Some d => if (d <? 1) || (2147483647 <? d) then 1 else d
  | None => 1
  end.

Definition setTimeout (cb : Callback) (delay : num) : Run nat :=
  fun s =>
    let h := nextHandle s in
    let t := {| handle := h; fireAt := clock s + timerDelay delay; callback := cb |} in
    (Normal h, with_nextHandle (S h) (with_armed (fun l => (l ++ [t])%list) s)).

Definition clearTimeout (h : nat) : Run unit :=
  modify (with_armed (filter (fun t => handle t ≠ h))).

(** Template-literal renderings of numbers. *)
Definition showNum (n : num) : string :=
  match n with Some z => pretty z | None => "NaN" end.

(** [Math.round(ms / 1000)] *)
Definition roundSeconds (ms : num) : num :=
  match ms with Some d => Some ((d + 500) / 1000) | None => None end.

(** *** The methods of [class TaskScheduler] *)

Definition registerTask (config : TaskConfig) : Run unit :=
  s <- get ;;
  match taskConfigs s !! cfg_taskId config with
  | Some _ =>
      throw (ErrorObj ("Task '" +:+ cfg_taskId config +:+ "' is already registered"))
  | None =>
      modify (with_taskConfigs (<[cfg_taskId config := config]>)) ;;;
      modify (with_taskStatuses (<[cfg_taskId config :=
        {| st_taskId := cfg_taskId config; st_lastRun := None; st_nextRun := None;
           st_status := NOT_RUN; st_statusDetail := "";
           st_intervalMinutes := cfg_intervalMinutes config; st_totalRuns := 0 |}]>)) ;;;
      writeLog ("Registered task: " +:+ cfg_label config +:+ " (" +:+ cfg_taskId config
                +:+ ") - every " +:+ pretty (cfg_intervalMinutes config)
                +:+ "m, priority " +:+ pretty (cfg_priority config))
               LOG_SOURCE INFO
  end.

(** [getNextAlignedDelay], with the [new Date()] it reads passed in.
    Dividing by an interval of 0 gives [Infinity] or [NaN], and every
    later step then yields [NaN]. *)
Definition getNextAlignedDelay (intervalMinutes : Z) (now : Date) : num :=
  let currentMinutes := getMinutes now in
  let currentSeconds := getSeconds now in
  let currentMs := getMilliseconds now in
  if intervalMinutes =? 0 then None else
  let intervalsPassed := currentMinutes / intervalMinutes in
  let nextIntervalMinute := (intervalsPassed + 1) * intervalMinutes in
  if nextIntervalMinute >=? 60 then
    let minutesUntilNextHour := 60 - currentMinutes in
    let secondsUntilNextHour := 60 - currentSeconds in
    let msUntilNextHour := 1000 - currentMs in
    Some ((minutesUntilNextHour - 1) * 60 * 1000 + secondsUntilNextHour * 1000
          + msUntilNextHour)
  else
    let minutesUntilNext := nextIntervalMinute - currentMinutes in
    let secondsUntilNext := 60 - currentSeconds in
    let msUntilNext := 1000 - currentMs in
    Some ((minutesUntilNext - 1) * 60 * 1000 + secondsUntilNext * 1000 + msUntilNext).

(** The delay [scheduleNextRun] computes in its own body. *)
Definition nextRunDelay (intervalMinutes : Z) (now : Date) : num :=
  let currentMinutes := getMinutes now in
  let currentSeconds := getSeconds now in
  let currentMs := getMilliseconds now in
  if intervalMinutes =? 0 then None else
  let intervalsPassed := currentMinutes / intervalMinutes in
  let nextIntervalMinute := (intervalsPassed + 1) * intervalMinutes in
  if nextIntervalMinute >=? 60 then
    let minutesUntilNextHour := 60 - currentMinutes in
    let secondsUntilNextHour := 60 - currentSeconds in
    let msUntilNextHour := 1000 - currentMs in
    Some ((minutesUntilNextHour - 1) * 60 * 1000 + secondsUntilNextHour * 1000
          + msUntilNextHour)
  else
    let minutesUntilNext := nextIntervalMinute - currentMinutes in
    let secondsUntilNext := 60 - currentSeconds in
    let msUntilNext := 1000 - currentMs in
    Some ((minutesUntilNext - 1) * 60 * 1000 + secondsUntilNext * 1000 + msUntilNext).

Definition scheduleTask (taskId : string) : Run unit :=
  s <- get ;;
  match taskConfigs s !! taskId, taskStatuses s !! taskId with
  | Some config, Some status =>
      match timers s !! taskId with
      | Some existingTimer => clearTimeout existingTimer
      | None => ret tt
      end ;;;
      let initialDelay := getNextAlignedDelay (cfg_intervalMinutes config) (clock s) in
      onStatus taskId (set_nextRun (Some (num_add (Some (clock s)) initialDelay))) ;;;
      writeLog (cfg_label config +:+ " next run in "
                +:+ showNum (roundSeconds initialDelay) +:+ "s") LOG_SOURCE DEBUG ;;;
      timer <- setTimeout (TaskDue taskId) initialDelay ;;
      modify (with_timers (<[taskId := timer]>))
  | _, _ => ret tt
  end.

Definition scheduleNextRun (taskId : string) : Run unit :=
  s <- get ;;
  match taskConfigs s !! taskId, taskStatuses s !! taskId with
  | Some config, Some status =>
      let now := clock s in
      let nextDelay := nextRunDelay (st_intervalMinutes status) now in
      onStatus taskId (set_nextRun (Some (num_add (Some (clock s)) nextDelay))) ;;;
      timer <- setTimeout (TaskDue taskId) nextDelay ;;
      modify (with_timers (<[taskId := timer]>))
  | _, _ => ret tt
  end.

(** [config.minRescheduleThreshold || 5] *)
Definition thresholdOrDefault (t : option Z) : Z :=
  match t with
  | Some v => if v =? 0 then 5 else v
  | None => 5
  end.

Definition updateTaskInterval (taskId : string) (newIntervalMinutes : Z) : Run unit :=
  s <- get ;;
  match taskConfigs s !! taskId, taskStatuses s !! taskId with
  | Some config, Some status =>
      if newIntervalMinutes =? st_intervalMinutes status then ret tt else
      let now := clock s in
      let minThresholdMs := thresholdOrDefault (cfg_minRescheduleThreshold config) * 60 * 1000 in
      let timeUntilNextRun :=
        match st_nextRun status with
        | Some t => num_add t (Some (- now))
        | None => Some 0
        end in
      if num_lt (Some minThresholdMs) timeUntilNextRun then
        writeLog (cfg_label config +:+ " interval changed: "
                  +:+ pretty (st_intervalMinutes status) +:+ "m → "
                  +:+ pretty newIntervalMinutes +:+ "m "
                  +:+ "(next run in " +:+ showNum (roundSeconds timeUntilNextRun)
                  +:+ "s > " +:+ pretty (minThresholdMs / 1000)
                  +:+ "s min, rescheduling now)") LOG_SOURCE INFO ;;;
        onConfig taskId (set_cfg_intervalMinutes newIntervalMinutes) ;;;
        onStatus taskId (set_st_intervalMinutes newIntervalMinutes) ;;;
        scheduleTask taskId
      else
        writeLog (cfg_label config +:+ " interval changed: "
                  +:+ pretty (st_intervalMinutes status) +:+ "m → "
                  +:+ pretty newIntervalMinutes +:+ "m "
                  +:+ "(next run in " +:+ showNum (roundSeconds timeUntilNextRun)
                  +:+ "s, new interval will apply after current run completes)")
                 LOG_SOURCE INFO ;;;
        onConfig taskId (set_cfg_intervalMinutes newIntervalMinutes) ;;;
        onStatus taskId (set_st_intervalMinutes newIntervalMinutes)
  | _, _ =>
      writeLog ("Cannot update interval: task '" +:+ taskId +:+ "' not found")
               LOG_SOURCE WARNING
  end.

(** [queueOperation]; the operation queued for a task is always the
    closure that runs [executeTask] on it. *)
Definition queueOperation (taskId : string) (priority : Z) : Run unit :=
  s <- get ;;
  let alreadyQueued :=
    existsb (fun item => String.eqb (op_taskId item) taskId) (operationQueue s) in
  if alreadyQueued then
    writeLog ("Task '" +:+ taskId +:+ "' is already queued, skipping duplicate")
             LOG_SOURCE DEBUG
  else
    modify (with_operationQueue (fun q =>
      (q ++ [{| op_taskId := taskId; op_priority := priority |}])%list)) ;;;
    match queueProcessingTimer s with
    | Some t => clearTimeout t
    | None => ret tt
    end ;;;
    timer <- setTimeout DebounceElapsed (Some QUEUE_DEBOUNCE_MS) ;;
    modify (with_queueProcessingTimer (Some timer)) ;;;
    writeLog ("Queued operation '" +:+ taskId +:+ "' (priority " +:+ pretty priority
              +:+ "). Processing will start in " +:+ pretty (QUEUE_DEBOUNCE_MS / 1000)
              +:+ "s") LOG_SOURCE DEBUG.

(** The closure armed for a task, run when its timer fires:
    [status.status = 'Pending'; status.statusDetail = '';
     this.queueOperation(taskId, ..., config.priority)]. *)
Definition taskDue (taskId : string) : Run unit :=
  s <- get ;;
  onStatus taskId (set_status Pending) ;;;
  onStatus taskId (set_statusDetail "") ;;;
  match taskConfigs s !! taskId with
  | Some config => queueOperation taskId (cfg_priority config)
  | None => ret tt
  end.

Definition getTaskStatus (taskId : string) (s : Scheduler) : option TaskStatus :=
  taskStatuses s !! taskId.

Section WithHandlers.

(** What [await config.handler()] does: the handler may run for a
    while, touch the scheduler through its public methods, let timers
    fire meanwhile, and then resolve or reject. *)
Variable handlers : nat -> Run unit.

Definition executeTask (taskId : string) : Run unit :=
  s <- get ;;
  match taskConfigs s !! taskId, taskStatuses s !! taskId with
  | Some config, Some status =>
      onStatus taskId (set_status Running) ;;;
      onStatus taskId (set_statusDetail "") ;;;
      onStatus taskId (fun st => set_totalRuns (st_totalRuns st + 1) st) ;;;
      tryCatchFinally
        (handlers (cfg_handler config) ;;;
         onStatus taskId (set_status OK) ;;;
         onStatus taskId (set_statusDetail ""))
        (fun error =>
           onStatus taskId (set_status Failed) ;;;
           onStatus taskId (set_statusDetail (errorText error)) ;;;
           writeLog ("Task '" +:+ cfg_label config +:+ "' failed: " +:+ errorText error)
                    LOG_SOURCE ERROR)
        (now <- (s' <- get ;; ret (clock s')) ;;
         onStatus taskId (set_lastRun (Some now)) ;;;
         scheduleNextRun taskId)
  | _, _ => ret tt
  end.

End WithHandlers.

Definition with_isProcessingQueue (v : bool) (s : Scheduler) :=
  {| timers := timers s; taskStatuses := taskStatuses s;
     taskConfigs := taskConfigs s; operationQueue := operationQueue s;
     isProcessingQueue := v;
     queueProcessingTimer := queueProcessingTimer s; clock := clock s;
     armed := armed s; nextHandle := nextHandle s; logged := logged s |}.

(** [this.operationQueue.sort((a, b) => a.priority - b.priority)]:
    a stable sort, lower numbers first. *)
Fixpoint insertByPriority (x : QueuedOperation) (l : list QueuedOperation)
    : list QueuedOperation :=
  match l with
  | [] => [x]
  | y :: r =>
      if op_priority x - op_priority y <=? 0 then x :: y :: r
      else y :: insertByPriority x r
  end.

Definition sortQueue (q : list QueuedOperation) : list QueuedOperation :=
  foldr insertByPriority [] q.

Section WithEventLoop.

Variable handlers : nat -> Run unit.

(** What [await new Promise(resolve => setTimeout(resolve, ms))] lets
    happen inside [processQueue]: time passes and other callbacks run. *)
Variable pause : Z -> Run unit.

(** The [while] loop of [processQueue].  The result tells whether the loop
    ran to its end within [fuel] turns. *)
Fixpoint processLoop (fuel : nat) : Run bool :=
  match fuel with
  | O => ret false
  | S fuel' =>
      s <- get ;;
      match operationQueue s with
      | [] => ret true
      | _ :: _ =>
          modify (with_operationQueue sortQueue) ;;;
          s1 <- get ;;
          match operationQueue s1 with
          | [] => processLoop fuel'
          | item :: rest =>
              modify (with_operationQueue (fun _ => rest)) ;;;
              tryCatchFinally
                (executeTask handlers (op_taskId item))
                (fun error =>
                   writeLog ("Operation '" +:+ op_taskId item +:+ "' failed: "
                             +:+ errorText error) LOG_SOURCE ERROR)
                (ret tt) ;;;
              s2 <- get ;;
              match operationQueue s2 with
              | [] => ret tt
              | _ :: _ => pause QUEUE_DELAY_MS
              end ;;;
              processLoop fuel'
          end
      end
  end.

Definition processQueue (fuel : nat) : Run bool :=
  s <- get ;;
  if isProcessingQueue s then ret true
  else
    modify (with_isProcessingQueue true) ;;;
    finished <- processLoop fuel ;;
    if finished then modify (with_isProcessingQueue false) ;;; ret true
    else ret false.

(** The closure [queueOperation] arms, run when the debounce window has
    passed. *)
Definition debounceElapsed (fuel : nat) : Run bool :=
  modify (with_queueProcessingTimer None) ;;;
  modify (with_operationQueue sortQueue) ;;;
  s <- get ;;
  writeLog ("Starting queued operations processing ("
            +:+ pretty (Z.of_nat (length (operationQueue s))) +:+ " tasks)")
           LOG_SOURCE DEBUG ;;;
  if negb (isProcessingQueue s) then processQueue fuel else ret true.

End WithEventLoop.

End TaskScheduler.

(** ** [src/lib/retry.ts] *)

Module Retry.
Import JS Effects.
Local Open Scope js_scope.

(** What the caller can observe of a run: each call of [fn], each line
    given to the logger, each [delay]. *)
Inductive Event :=
| Invoked (attempt : Z)
| Logged (msg : string)
| Delayed (ms : Z).

Abbreviation Run := (M (list Event)).

Definition emit (e : Event) : Run unit := modify (fun t => (t ++ [e])%list).

(** [delay(ms)] *)
Definition delay (ms : Z) : Run unit := emit (Delayed ms).

(** [error instanceof Error &&
     (error.message.includes('429') || error.message.includes('TooManyRequests'))] *)
Definition isRateLimit (error : JSError) : bool :=
  match error with
  | ErrorObj message => includes message "429" || includes message "TooManyRequests"
  | NonError _ => false
  end.

Section WithOperation.
Context {T : Type}.

(** [fn]: how its [attempt]-th call settles. *)
Variable fn : Z -> Completion T.
Variable maxRetries : Z.
Variable baseDelay : Z.
(** Whether a [logger] was passed. *)
Variable logger : bool.

(** The notice given to the logger before a wait. *)
Definition rateLimitNotice (delayMs attempt : Z) : string :=
  "⏳ Rate limit hit, waiting " +:+ pretty delayMs
  +:+ "ms before retry " +:+ pretty (attempt + 1) +:+ "/"
  +:+ pretty maxRetries +:+ "...".

Definition callFn (attempt : Z) : Run T :=
  emit (Invoked attempt) ;;; (fun t => (fn attempt, t)).

(** The [for] loop from [attempt] on; [remaining] counts the values of
    [attempt] up to [maxRetries] still ahead, and [lastError] is the
    variable of that name ([None] while unassigned). *)
Fixpoint attempts (remaining : nat) (attempt : Z) (lastError : option JSError) : Run T :=
  match remaining with
  | O =>
      match lastError with
      | Some e => throw e
      | None => throw (NonError "undefined")
      end
  | S remaining' =>
      fun t =>
        match callFn attempt t with
        | (Normal v, t') => (Normal v, t')
        | (Throw error, t') =>
            if (attempt =? maxRetries) || negb (isRateLimit error) then
              (Throw error, t')
            else
              let delayMs := baseDelay * 2 ^ attempt in
              let msg := rateLimitNotice delayMs attempt in
              ((if logger then emit (Logged msg) else ret tt) ;;;
               delay delayMs ;;;
               attempts remaining' (attempt + 1) (Some error)) t'
        end
  end.

Definition retryWithBackoff : Run T :=
  attempts (Z.to_nat (maxRetries + 1)) 0 None.

End WithOperation.

End Retry.

(** ** [AuthManager] ([src/plugins/evohome/api/mock-api-client.ts], second part) *)

Module Auth.
Import JS Effects.
Local Open Scope js_scope.

Record Credentials := { username : string; password : string }.

Record SessionCache := { userId : string; sessionId : string }.
Record TokenCache := { token : string; expiresAt : Date }.

Inductive Api := v1 | v2.

(** The answer of the V2 authentication endpoint: the request fails
    before any answer, or the answer is not [ok] (its body parses as JSON
    or not, and may hold a [message]), or it is [ok]. *)
Inductive V2Response :=
| V2NetworkError (e : JSError)
| V2NotOk (status : Z) (body : Completion (option string))
| V2Ok (userID sessionId : string).

Inductive V1Response :=
| V1NetworkError (e : JSError)
| V1NotOk (status : Z) (errorText : string)
| V1Ok (access_token : string) (expires_in : Z).

(** Calls that leave the manager. *)
Inductive Event :=
| Waited (from : Date) (ms : Z)
| AuthenticateV2 (at_ : Date) (c : Credentials)
| AuthenticateV1 (at_ : Date) (c : Credentials)
| RecordAuth (api : Api)
| RecordAuthFailure (api : Api)
| RecordAuthExpired (api : Api)
| LoggerLine (msg : string).

(** The fields of [AuthManager], then the clock and the calls made so
    far.  [writeLog] lines are left out: they touch none of these. *)
Record AuthManager := {
  cachedV2Session : option SessionCache;
  cachedV1Token : option TokenCache;
  lastAuthFailure : option Date;
  authFailureCount : Z;
  apiStatsTracker : bool;
  clock : Date;
  events : list Event;
}.

Definition MIN_AUTH_RETRY_DELAY : Z := 30000.

Definition freshManager (tracker : bool) (now : Date) : AuthManager :=
  {| cachedV2Session := None; cachedV1Token := None; lastAuthFailure := None;
     authFailureCount := 0; apiStatsTracker := tracker; clock := now; events := [] |}.

Definition with_cachedV2Session (v : option SessionCache) (a : AuthManager) :=
  {| cachedV2Session := v; cachedV1Token := cachedV1Token a;
     lastAuthFailure := lastAuthFailure a; authFailureCount := authFailureCount a;
     apiStatsTracker := apiStatsTracker a; clock := clock a; events := events a |}.

Definition with_cachedV1Token (v : option TokenCache) (a : AuthManager) :=
  {| cachedV2Session := cachedV2Session a; cachedV1Token := v;
     lastAuthFailure := lastAuthFailure a; authFailureCount := authFailureCount a;
     apiStatsTracker := apiStatsTracker a; clock := clock a; events := events a |}.

Definition with_lastAuthFailure (v : option Date) (a : AuthManager) :=
  {| cachedV2Session := cachedV2Session a; cachedV1Token := cachedV1Token a;
     lastAuthFailure := v; authFailureCount := authFailureCount a;
     apiStatsTracker := apiStatsTracker a; clock := clock a; events := events a |}.

Definition with_authFailureCount (v : Z) (a : AuthManager) :=
  {| cachedV2Session := cachedV2Session a; cachedV1Token := cachedV1Token a;
     lastAuthFailure := lastAuthFailure a; authFailureCount := v;
     apiStatsTracker := apiStatsTracker a; clock := clock a; events := events a |}.

Definition with_clock (v : Date) (a : AuthManager) :=
  {| cachedV2Session := cachedV2Session a; cachedV1Token := cachedV1Token a;
     lastAuthFailure := lastAuthFailure a; authFailureCount := authFailureCount a;
     apiStatsTracker := apiStatsTracker a; clock := v; events := events a |}.

Definition with_events (f : list Event -> list Event) (a : AuthManager) :=
  {| cachedV2Session := cachedV2Session a; cachedV1Token := cachedV1Token a;
     lastAuthFailure := lastAuthFailure a; authFailureCount := authFailureCount a;
     apiStatsTracker := apiStatsTracker a; clock := clock a; events := f (events a) |}.

Abbreviation Run := (M AuthManager).

Definition emit (e : Event) : Run unit := modify (with_events (fun l => (l ++ [e])%list)).

Definition now : Run Date := a <- get ;; ret (clock a).

(** [if (this.apiStatsTracker) this.apiStatsTracker.record...] *)
Definition stat (e : Event) : Run unit :=
  a <- get ;; if apiStatsTracker a then emit e else ret tt.

(** [if (logger) logger(msg)] *)
Definition tell (logger : bool) (msg : string) : Run unit :=
  if logger then emit (LoggerLine msg) else ret tt.

(** [MIN_AUTH_RETRY_DELAY * Math.pow(2, Math.min(authFailureCount - 1, 3))];
    the exponent is negative only for a count below 1, where the power is
    a fraction and the product is rounded down here. *)
Definition requiredDelay (authFailureCount : Z) : Z :=
  let e := Z.min (authFailureCount - 1) 3 in
  if 0 <=? e then MIN_AUTH_RETRY_DELAY * 2 ^ e
  else MIN_AUTH_RETRY_DELAY / 2 ^ (- e).

Definition getAuthRetryDelay (a : AuthManager) : Z :=
  match lastAuthFailure a with
  | None => 0
  | Some failure =>
      let timeSinceLastFailure := clock a - failure in
      let requiredDelay := requiredDelay (authFailureCount a) in
      if timeSinceLastFailure <? requiredDelay then requiredDelay - timeSinceLastFailure
      else 0
  end.

Section WithRemote.

(** The remote service: its answer to an authentication request sent
    at a given instant, and how long the answer takes. *)
Variable remoteV2 : Date -> Credentials -> V2Response * Z.
Variable remoteV1 : Date -> Credentials -> V1Response * Z.
(** How late a timer fires past its delay. *)
Variable lateness : Z.

(** [await new Promise(resolve => setTimeout(resolve, ms))] *)
Definition sleep (ms : Z) : Run unit :=
  t <- now ;;
  emit (Waited t ms) ;;;
  modify (with_clock (t + ms + lateness)).

Definition fetchV2 (c : Credentials) : Run V2Response :=
  t <- now ;;
  emit (AuthenticateV2 t c) ;;;
  let '(r, took) := remoteV2 t c in
  modify (with_clock (t + took)) ;;;
  ret r.

Definition fetchV1 (c : Credentials) : Run V1Response :=
  t <- now ;;
  emit (AuthenticateV1 t c) ;;;
  let '(r, took) := remoteV1 t c in
  modify (with_clock (t + took)) ;;;
  ret r.

Definition getV2Session (config : Credentials) (logger : bool)
    (tempConfig : option Credentials) : Run SessionCache :=
  let activeConfig := match tempConfig with Some c => c | None => config end in
  a <- get ;;
  match cachedV2Session a, tempConfig with
  | Some session, None =>
      tell logger "🔑 Using cached session" ;;;
      ret session
  | _, _ =>
      let waitTime := getAuthRetryDelay a in
      (if 0 <? waitTime then sleep waitTime else ret tt) ;;;
      tell logger "🔐 Authenticating..." ;;;
      response <- fetchV2 activeConfig ;;
      match response with
      | V2NetworkError e => throw e
      | V2NotOk status body =>
          t <- now ;;
          modify (with_lastAuthFailure (Some t)) ;;;
          a' <- get ;;
          modify (with_authFailureCount (authFailureCount a' + 1)) ;;;
          stat (RecordAuthFailure v2) ;;;
          let errorMessage :=
            match body with
            | Normal (Some message) =>
                if String.eqb message "" then "HTTP error! status: " +:+ pretty status
                else message
            | _ => "HTTP error! status: " +:+ pretty status
            end in
          throw (ErrorObj errorMessage)
      | V2Ok userID sid =>
          modify (with_authFailureCount 0) ;;;
          modify (with_lastAuthFailure None) ;;;
          stat (RecordAuth v2) ;;;
          let session := {| userId := userID; sessionId := sid |} in
          match tempConfig with
          | None =>
              modify (with_cachedV2Session (Some session)) ;;;
              tell logger "✅ Authentication successful, session cached"
          | Some _ =>
              tell logger "✅ Authentication successful (test mode - not cached)"
          end ;;;
          ret session
      end
  end.

Definition getV1Token (config : Credentials) : Run string :=
  a <- get ;;
  let cached :=
    match cachedV1Token a with
    | Some c => if clock a <? expiresAt c then Some (token c) else None
    | None => None
    end in
  match cached with
  | Some tok => ret tok
  | None =>
      response <- fetchV1 config ;;
      match response with
      | V1NetworkError e => throw e
      | V1NotOk status errorText =>
          stat (RecordAuthFailure v1) ;;;
          throw (ErrorObj ("V1 authentication failed: " +:+ pretty status))
      | V1Ok access_token expires_in =>
          stat (RecordAuth v1) ;;;
          t <- now ;;
          let expiresAt := t + (expires_in - 300) * 1000 in
          modify (with_cachedV1Token
                    (Some {| token := access_token; expiresAt := expiresAt |})) ;;;
          ret access_token
      end
  end.

Definition clearSessions : Run unit :=
  a <- get ;;
  (if cachedV2Session a is Some _ then stat (RecordAuthExpired v2) else ret tt) ;;;
  (if cachedV1Token a is Some _ then stat (RecordAuthExpired v1) else ret tt) ;;;
  modify (with_cachedV2Session None) ;;;
  modify (with_cachedV1Token None).

Definition clearV2Session : Run unit :=
  a <- get ;;
  (if cachedV2Session a is Some _ then stat (RecordAuthExpired v2) else ret tt) ;;;
  modify (with_cachedV2Session None).

Definition clearV1Token : Run unit :=
  a <- get ;;
  (if cachedV1Token a is Some _ then stat (RecordAuthExpired v1) else ret tt) ;;;
  modify (with_cachedV1Token None).

End WithRemote.

End Auth.

(** ** [src/plugins/evohome/services/device-cache-service.ts] *)

Module DeviceCache.
Import JS Effects.
Local Open Scope js_scope.

(** Temperatures are held as whole hundredths of a degree; the code only
    copies them and compares them with [===]. *)
Record HeatSetpoint := {
  hs_value : Z;
  hs_status : string;
  hs_optimisticUpdateTime : option Date;
}.

Record ChangeableValues := {
  cv_heatSetpoint : option HeatSetpoint;
  cv_mode : option string;
  cv_state : option string;
  cv_status : option string;
  cv_nextTime : option string;
  cv_optimisticUpdateTime : option Date;
}.

Record Thermostat := {
  indoorTemperature : option Z;
  indoorTemperatureStatus : option string;
  changeableValues : option ChangeableValues;
}.

Record Device := {
  name : option string;
  thermostatModelType : string;
  thermostat : option Thermostat;
  deviceID : option Z;
  gatewayId : option Z;
}.

Record Switchpoint := {
  timeOfDay : option string;
  TimeOfDay : option string;
  sp_heatSetpoint : option Z;
  dhwState : option string;
}.

Inductive DayRef := DayNumber (n : Z) | DayString (s : string).

Record DaySchedule := {
  dayOfWeek : DayRef;
  switchpoints : option (list Switchpoint);
}.

Record ZoneSchedule := {
  zoneId : string;
  zs_name : string;
  scheduleId : option string;
  dailySchedules : list DaySchedule;
}.

Record DeviceCacheService := {
  deviceCache : option (list Device);
  zoneSchedules : list ZoneSchedule;
}.

Definition emptyCache : DeviceCacheService :=
  {| deviceCache := None; zoneSchedules := [] |}.

Definition with_deviceCache (v : option (list Device)) (c : DeviceCacheService) :=
  {| deviceCache := v; zoneSchedules := zoneSchedules c |}.

Definition with_heatSetpoint (v : option HeatSetpoint) (cv : ChangeableValues) :=
  {| cv_heatSetpoint := v; cv_mode := cv_mode cv; cv_state := cv_state cv;
     cv_status := cv_status cv; cv_nextTime := cv_nextTime cv;
     cv_optimisticUpdateTime := cv_optimisticUpdateTime cv |}.

Definition with_changeableValues (v : option ChangeableValues) (t : Thermostat) :=
  {| indoorTemperature := indoorTemperature t;
     indoorTemperatureStatus := indoorTemperatureStatus t;
     changeableValues := v |}.

Definition with_thermostat (v : option Thermostat) (d : Device) :=
  {| name := name d; thermostatModelType := thermostatModelType d;
     thermostat := v; deviceID := deviceID d; gatewayId := gatewayId d |}.

(** [device.thermostat?.changeableValues?.heatSetpoint] *)
Definition heatSetpointOf (d : Device) : option HeatSetpoint :=
  match thermostat d with
  | Some t =>
      match changeableValues t with
      | Some cv => cv_heatSetpoint cv
      | None => None
      end
  | None => None
  end.

(** [device.thermostat.changeableValues.heatSetpoint = hs], on a device
    where that path exists. *)
Definition assignHeatSetpoint (hs : HeatSetpoint) (d : Device) : Device :=
  match thermostat d with
  | Some t =>
      match changeableValues t with
      | Some cv =>
          with_thermostat
            (Some (with_changeableValues (Some (with_heatSetpoint (Some hs) cv)) t)) d
      | None => d
      end
  | None => d
  end.

(** Truthiness of [_optimisticUpdateTime]: set, and not 0. *)
Definition truthyTime (t : option Date) : bool :=
  match t with Some v => negb (v =? 0) | None => false end.

Definition sameId (a b : option Z) : bool :=
  match a, b with
  | Some x, Some y => x =? y
  | None, None => true
  | _, _ => false
  end.

(** The body of the [forEach] in [setDevices], for one incoming device;
    [cached] is the cache before the call. *)
Definition mergeDevice (now : Date) (cached : list Device) (newDevice : Device) : Device :=
  match List.find (fun d => sameId (deviceID d) (deviceID newDevice)) cached with
  | None => newDevice
  | Some existingDevice =>
      match heatSetpointOf existingDevice, heatSetpointOf newDevice with
      | Some existingSetpoint, Some newSetpoint =>
          if negb (hs_value existingSetpoint =? hs_value newSetpoint)
             && truthyTime (hs_optimisticUpdateTime existingSetpoint) then
            let timeSinceUpdate :=
              now - default 0 (hs_optimisticUpdateTime existingSetpoint) in
            if timeSinceUpdate <? 5000 then assignHeatSetpoint existingSetpoint newDevice
            else newDevice
          else newDevice
      | _, _ => newDevice
      end
  end.

Definition setDevices (now : Date) (devices : list Device)
    (c : DeviceCacheService) : DeviceCacheService :=
  match deviceCache c with
  | None => with_deviceCache (Some devices) c
  | Some cached => with_deviceCache (Some (map (mergeDevice now cached) devices)) c
  end.

Definition getDevices (c : DeviceCacheService) : option (list Device) := deviceCache c.

Definition setZoneSchedules (schedules : list ZoneSchedule)
    (c : DeviceCacheService) : DeviceCacheService :=
  {| deviceCache := deviceCache c; zoneSchedules := schedules |}.

(** [n.toString().padStart(2, '0')] *)
Definition pad2 (n : Z) : string :=
  if (String.length (pretty n) <? 2)%nat then "0" +:+ pretty n else pretty n.

Definition dayNames : list string :=
  ["Sunday"; "Monday"; "Tuesday"; "Wednesday"; "Thursday"; "Friday"; "Saturday"].

(** [sp.timeOfDay || sp.TimeOfDay]: the first when it is a non-empty
    string, else the second. *)
Definition timeValue (sp : Switchpoint) : option string :=
  match timeOfDay sp with
  | Some t => if String.eqb t "" then TimeOfDay sp else Some t
  | None => TimeOfDay sp
  end.

Section WithCollation.

(** [String.prototype.localeCompare] of the host's locale. *)
Variable localeCompare : string -> string -> Z.

Definition compareSwitchpoints (a b : Switchpoint) : Z :=
  localeCompare (default "" (timeValue a)) (default "" (timeValue b)).

(** [Array.prototype.sort] with a comparator: a stable sort. *)
Fixpoint insertSorted (x : Switchpoint) (l : list Switchpoint) : list Switchpoint :=
  match l with
  | [] => [x]
  | y :: r =>
      if compareSwitchpoints x y <=? 0 then x :: y :: r
      else y :: insertSorted x r
  end.

Definition sortSwitchpoints (l : list Switchpoint) : list Switchpoint :=
  foldr insertSorted [] l.

(** The [for] loop looking for the active switchpoint. *)
Fixpoint scanActive (currentTime : string) (activeTemp : option Z)
    (l : list Switchpoint) : option Z :=
  match l with
  | [] => activeTemp
  | sp :: r =>
      match sp_heatSetpoint sp with
      | Some h =>
          if String.leb (default "" (timeValue sp)) currentTime
          then scanActive currentTime (Some h) r
          else activeTemp
      | None => activeTemp
      end
  end.

Definition getScheduledTemperature (zone : string) (date : Date)
    (c : DeviceCacheService) : option Z :=
  match List.find (fun s => String.eqb (zoneId s) zone) (zoneSchedules c) with
  | None => None
  | Some schedule =>
      let dayOfWeek_ := getDay date in
      let currentTime := pad2 (getHours date) +:+ ":" +:+ pad2 (getMinutes date) +:+ ":00" in
      let daySchedule :=
        List.find (fun ds =>
          match dayOfWeek ds with
          | DayString s => String.eqb s (nth (Z.to_nat dayOfWeek_) dayNames "")
          | DayNumber n => n =? dayOfWeek_
          end) (dailySchedules schedule) in
      match daySchedule with
      | None => None
      | Some ds =>
          match switchpoints ds with
          | None => None
          | Some [] => None
          | Some sps =>
              let sortedSwitchpoints :=
                sortSwitchpoints
                  (List.filter (fun sp => if timeValue sp is Some _ then true else false) sps) in
              match sortedSwitchpoints with
              | [] => None
              | _ =>
                  match scanActive currentTime None sortedSwitchpoints with
                  | Some t => Some t
                  | None => sp_heatSetpoint (List.last sortedSwitchpoints
                              {| timeOfDay := None; TimeOfDay := None;
                                 sp_heatSetpoint := None; dhwState := None |})
                  end
              end
          end
      end
  end.

Abbreviation Run := (M DeviceCacheService).

Definition typeError (property : string) : JSError :=
  ErrorObj ("Cannot read properties of undefined (reading '" +:+ property +:+ "')").

(** The device [find] returns is written in place: the cache holds the
    object itself. *)
Definition storeDevice (i : nat) (d : Device) : Run unit :=
  modify (fun c =>
    with_deviceCache (option_map (fun l => <[i := d]> l) (deviceCache c)) c).

Definition updateDeviceState (now : Date) (deviceId : Z) (temperature : Z)
    (status : string) : Run unit :=
  c <- get ;;
  match deviceCache c with
  | None => ret tt
  | Some devices =>
      match list_find (fun d => deviceID d = Some deviceId) devices with
      | None => ret tt
      | Some (i, device) =>
          let '(finalTemp, shouldUpdateTemp) :=
            if (temperature =? 0) && String.eqb status "Scheduled" then
              match getScheduledTemperature (pretty deviceId) now c with
              | Some scheduledTemp => (scheduledTemp, true)
              | None => (temperature, false)
              end
            else (temperature, true) in
          match thermostat device with
          | None => throw (typeError "changeableValues")
          | Some t =>
              match changeableValues t with
              | None => throw (typeError "heatSetpoint")
              | Some cv =>
                  let updated :=
                    match cv_heatSetpoint cv with
                    | None =>
                        {| hs_value := if shouldUpdateTemp then finalTemp else 0;
                           hs_status := status;
                           hs_optimisticUpdateTime := Some now |}
                    | Some hs =>
                        {| hs_value := if shouldUpdateTemp then finalTemp else hs_value hs;
                           hs_status := status;
                           hs_optimisticUpdateTime := Some now |}
                    end in
                  storeDevice i (assignHeatSetpoint updated device)
              end
          end
      end
  end.

Definition updateDHWState (now : Date) (deviceId : Z) (mode status : string) : Run unit :=
  c <- get ;;
  match deviceCache c with
  | None => ret tt
  | Some devices =>
      match list_find (fun d => deviceID d = Some deviceId) devices with
      | None => ret tt
      | Some (i, device) =>
          if negb (String.eqb (thermostatModelType device) "DOMESTIC_HOT_WATER")
          then ret tt
          else
            match thermostat device with
            | None => throw (typeError "changeableValues")
            | Some t =>
                let cv :=
                  match changeableValues t with
                  | Some cv => cv
                  | None =>
                      {| cv_heatSetpoint := None; cv_mode := None; cv_state := None;
                         cv_status := None; cv_nextTime := None;
                         cv_optimisticUpdateTime := None |}
                  end in
                let cv' :=
                  {| cv_heatSetpoint := cv_heatSetpoint cv; cv_mode := Some mode;
                     cv_state := cv_state cv; cv_status := Some status;
                     cv_nextTime := cv_nextTime cv;
                     cv_optimisticUpdateTime := Some now |} in
                storeDevice i (with_thermostat (Some (with_changeableValues (Some cv') t)) device)
            end
      end
  end.

End WithCollation.

(** [getDeviceState], with the caller's [getDeviceDetails] passed in. *)
Definition getDeviceState {A : Type} (deviceId : Z)
    (getDeviceDetails : Device -> Completion A)
    (c : DeviceCacheService) : Completion (option A) :=
  match deviceCache c with
  | None => Normal None
  | Some devices =>
      match list_find (fun d => deviceID d = Some deviceId) devices with
      | None => Normal None
      | Some (_, device) =>
          match getDeviceDetails device with
          | Normal details => Normal (Some details)
          | Throw e => Throw e
          end
      end
  end.

Definition clear (c : DeviceCacheService) : DeviceCacheService := emptyCache.

End DeviceCache.

(** ** [src/plugins/evohome/services/zone-service.ts] *)

Module ZoneService.
Import JS TimeUtils.

Record OverrideRule := {
  roomName : string;
  allowOverride : bool;
  timeWindows : list TimeWindow;
}.

(** [isOverrideAllowed], with [this.config.overrideRules] passed in. *)
Definition isOverrideAllowed (overrideRules : list OverrideRule)
    (room : string) (date : Date) : bool :=
  let normalizedName := toLowerCase room in
  match List.find (fun r => String.eqb (toLowerCase (roomName r)) normalizedName)
                  overrideRules with
  | None => true
  | Some rule =>
      if negb (allowOverride rule) then true
      else if (length (timeWindows rule) =? 0)%nat then false
      else
        let isInBlockedWindow :=
          existsb (fun window => isWithinTimeWindow window date) (timeWindows rule) in
        negb isInBlockedWindow
  end.

Record DeviceDetails := {
  dd_deviceID : option Z;
  dd_thermostatModelType : string;
  dd_name : string;
  dd_curTemp : option Z;
  dd_setTemp : option Z;
  dd_status : string;
  dd_dhwState : option string;
  dd_isFailed : bool;
  dd_isOverrideAllowed : option bool;
}.

(** [s || fallback] on an optional string: the fallback replaces a
    missing or empty one. *)
Definition orString (s : option string) (fallback : string) : string :=
  match s with
  | Some v => if String.eqb v "" then fallback else v
  | None => fallback
  end.

(** The reading 128 degrees, in hundredths. *)
Definition FAILED_READING : Z := 12800.

(** [getDeviceDetails], with [this.config.overrideRules],
    [this.config.settings.dhwSetTemp] and the present instant passed in.
    Reading a property of a missing [thermostat] or [changeableValues]
    throws. *)
Definition getDeviceDetails (overrideRules : list OverrideRule) (dhwSetTemp : Z)
    (now : Date) (device : DeviceCache.Device) : Effects.Completion DeviceDetails :=
  let deviceName := orString (DeviceCache.name device) "Unknown" in
  match DeviceCache.thermostat device with
  | None => Effects.Throw (DeviceCache.typeError "indoorTemperature")
  | Some t =>
      let isSensorFailed :=
        (if DeviceCache.indoorTemperature t is Some v then v =? FAILED_READING else false)
        && (if DeviceCache.indoorTemperatureStatus t is Some s
            then String.eqb s "NotAvailable" else false) in
      let deviceCurTemp :=
        if isSensorFailed then None else DeviceCache.indoorTemperature t in
      if String.eqb (DeviceCache.thermostatModelType device) "DOMESTIC_HOT_WATER" then
        match DeviceCache.changeableValues t with
        | None => Effects.Throw (DeviceCache.typeError "mode")
        | Some cv =>
            let dhwMode := orString (DeviceCache.cv_mode cv) "N/A" in
            let displayStatus := orString (DeviceCache.cv_status cv) "Scheduled" in
            Effects.Normal
              {| dd_deviceID := DeviceCache.deviceID device;
                 dd_thermostatModelType := DeviceCache.thermostatModelType device;
                 dd_name := "Domestic Hot Water";
                 dd_curTemp := deviceCurTemp;
                 dd_setTemp := Some dhwSetTemp;
                 dd_status := displayStatus;
                 dd_dhwState := Some dhwMode;
                 dd_isFailed := false;
                 dd_isOverrideAllowed := None |}
        end
      else
        match DeviceCache.changeableValues t with
        | None => Effects.Throw (DeviceCache.typeError "heatSetpoint")
        | Some cv =>
            let heatSetpoint := DeviceCache.cv_heatSetpoint cv in
            let isCurrentlyAllowedToOverride :=
              isOverrideAllowed overrideRules deviceName now in
            Effects.Normal
              {| dd_deviceID := DeviceCache.deviceID device;
                 dd_thermostatModelType := DeviceCache.thermostatModelType device;
                 dd_name := toCamelCase deviceName;
                 dd_curTemp := deviceCurTemp;
                 dd_setTemp := option_map DeviceCache.hs_value heatSetpoint;
                 dd_status := orString (option_map DeviceCache.hs_status heatSetpoint) "N/A";
                 dd_dhwState := None;
                 dd_isFailed := isSensorFailed;
                 dd_isOverrideAllowed := Some isCurrentlyAllowedToOverride |}
        end
  end.

End ZoneService.

(** ** [src/plugins/evohome/services/api-stats-tracker.ts] *)

Module ApiStatsTracker.
Import JS.

Record AuthStats := {
  totalRequests : Z;
  totalSuccess : Z;
  totalFailed : Z;
  totalExpired : Z;
  lastAuthTime : option Date;
  auth_lastFailedTime : option Date;
  lastExpiredTime : option Date;
}.

Record RequestStats := {
  success : Z;
  failed : Z;
  lastSuccessTime : option Date;
  lastFailedTime : option Date;
}.

Record ApiStats := {
  auth : AuthStats;
  get : RequestStats;
  put : RequestStats;
}.

(** [stats.v1] and [stats.v2]. *)
Record ApiStatistics := {
  for_v1 : ApiStats;
  for_v2 : ApiStats;
}.

(** [n++] on a counter.  The counters start at 0 and only grow through
    [++], so they are whole numbers; at 2^53 adding 1 to a double gives
    the same double back. *)
Definition increment (n : Z) : Z := if n <? 2 ^ 53 then n + 1 else n.

Definition createEmptyStats : ApiStats :=
  {| auth := {| totalRequests := 0; totalSuccess := 0; totalFailed := 0;
                totalExpired := 0; lastAuthTime := None;
                auth_lastFailedTime := None; lastExpiredTime := None |};
     get := {| success := 0; failed := 0; lastSuccessTime := None;
               lastFailedTime := None |};
     put := {| success := 0; failed := 0; lastSuccessTime := None;
               lastFailedTime := None |} |}.

(** The tracker as constructed. *)
Definition newTracker : ApiStatistics :=
  {| for_v1 := createEmptyStats; for_v2 := createEmptyStats |}.

(** [this.stats[apiVersion]], read and written. *)
Definition statsOf (apiVersion : Auth.Api) (s : ApiStatistics) : ApiStats :=
  match apiVersion with Auth.v1 => for_v1 s | Auth.v2 => for_v2 s end.

Definition onApi (apiVersion : Auth.Api) (f : ApiStats -> ApiStats)
    (s : ApiStatistics) : ApiStatistics :=
  match apiVersion with
  | Auth.v1 => {| for_v1 := f (for_v1 s); for_v2 := for_v2 s |}
  | Auth.v2 => {| for_v1 := for_v1 s; for_v2 := f (for_v2 s) |}
  end.

Definition onAuth (f : AuthStats -> AuthStats) (a : ApiStats) : ApiStats :=
  {| auth := f (auth a); get := get a; put := put a |}.
Definition onGet (f : RequestStats -> RequestStats) (a : ApiStats) : ApiStats :=
  {| auth := auth a; get := f (get a); put := put a |}.
Definition onPut (f : RequestStats -> RequestStats) (a : ApiStats) : ApiStats :=
  {| auth := auth a; get := get a; put := f (put a) |}.

Definition getStats (s : ApiStatistics) : ApiStatistics := s.

Definition recordAuth (apiVersion : Auth.Api) (timestamp : Date)
    (s : ApiStatistics) : ApiStatistics :=
  onApi apiVersion (onAuth (fun a =>
    {| totalRequests := increment (totalRequests a);
       totalSuccess := increment (totalSuccess a);
       totalFailed := totalFailed a; totalExpired := totalExpired a;
       lastAuthTime := Some timestamp;
       auth_lastFailedTime := auth_lastFailedTime a;
       lastExpiredTime := lastExpiredTime a |})) s.

Definition recordAuthFailure (apiVersion : Auth.Api) (timestamp : Date)
    (s : ApiStatistics) : ApiStatistics :=
  onApi apiVersion (onAuth (fun a =>
    {| totalRequests := increment (totalRequests a);
       totalSuccess := totalSuccess a;
       totalFailed := increment (totalFailed a); totalExpired := totalExpired a;
       lastAuthTime := lastAuthTime a;
       auth_lastFailedTime := Some timestamp;
       lastExpiredTime := lastExpiredTime a |})) s.

Definition recordAuthExpired (apiVersion : Auth.Api) (timestamp : Date)
    (s : ApiStatistics) : ApiStatistics :=
  onApi apiVersion (onAuth (fun a =>
    {| totalRequests := totalRequests a;
       totalSuccess := totalSuccess a;
       totalFailed := totalFailed a; totalExpired := increment (totalExpired a);
       lastAuthTime := lastAuthTime a;
       auth_lastFailedTime := auth_lastFailedTime a;
       lastExpiredTime := Some timestamp |})) s.

Definition succeeded (timestamp : Date) (r : RequestStats) : RequestStats :=
  {| success := increment (success r); failed := failed r;
     lastSuccessTime := Some timestamp; lastFailedTime := lastFailedTime r |}.

Definition failedAt (timestamp : Date) (r : RequestStats) : RequestStats :=
  {| success := success r; failed := increment (failed r);
     lastSuccessTime := lastSuccessTime r; lastFailedTime := Some timestamp |}.

Definition recordGetSuccess (apiVersion : Auth.Api) (timestamp : Date)
    (s : ApiStatistics) : ApiStatistics :=
  onApi apiVersion (onGet (succeeded timestamp)) s.

Definition recordGetFailure (apiVersion : Auth.Api) (timestamp : Date)
    (s : ApiStatistics) : ApiStatistics :=
  onApi apiVersion (onGet (failedAt timestamp)) s.

Definition recordPutSuccess (apiVersion : Auth.Api) (timestamp : Date)
    (s : ApiStatistics) : ApiStatistics :=
  onApi apiVersion (onPut (succeeded timestamp)) s.

Definition recordPutFailure (apiVersion : Auth.Api) (timestamp : Date)
    (s : ApiStatistics) : ApiStatistics :=
  onApi apiVersion (onPut (failedAt timestamp)) s.

Definition reset (s : ApiStatistics) : ApiStatistics := newTracker.

Definition resetApi (apiVersion : Auth.Api) (s : ApiStatistics) : ApiStatistics :=
  onApi apiVersion (fun _ => createEmptyStats) s.

End ApiStatsTracker.

(** ** Dates as instants in a zone

    Setting a field of a [Date] goes from the instant to the local time
    and back, which depends on the zone's rules.  Here a time value is a
    number of milliseconds since 1970-01-01T00:00:00Z, or [None] for an
    invalid date, and the operations are those of ECMAScript's
    specification of [Date], over the host's [LocalTZA]. *)

Module JSDate.
Import JS Effects.

Definition TimeValue := option Z.

Definition TimeClip (time : Z) : TimeValue :=
  if Z.abs time <=? 8640000000000000 then Some time else None.

Definition Day (t : Z) : Z := t / 86400000.
Definition HourFromTime (t : Z) : Z := (t / 3600000) mod 24.
Definition MinFromTime (t : Z) : Z := (t / 60000) mod 60.
Definition SecFromTime (t : Z) : Z := (t / 1000) mod 60.
Definition msFromTime (t : Z) : Z := t mod 1000.

Definition MakeTime (hour min sec ms : Z) : Z :=
  hour * 3600000 + min * 60000 + sec * 1000 + ms.
Definition MakeDate (day time : Z) : Z := day * 86400000 + time.

Section WithZone.

(** [LocalTZA(t, isUTC)]: the offset of the local zone at the instant [t]
    when [isUTC], and the offset by which the local time [t] is read
    otherwise (for a local time that occurs twice or never, the host
    chooses). *)
Variable LocalTZA : Z -> bool -> Z.

Definition LocalTime (t : Z) : Z := t + LocalTZA t true.
Definition UTC (t : Z) : Z := t - LocalTZA t false.

(** [Date.prototype.getMinutes]: [NaN] on an invalid date. *)
Definition getMinutes (tv : TimeValue) : num :=
  match tv with
  | Some t => Some (MinFromTime (LocalTime t))
  | None => None
  end.

(** [Date.prototype.setMinutes(min)] *)
Definition setMinutes (min : num) (tv : TimeValue) : TimeValue :=
  match tv, min with
  | Some t0, Some m =>
      let t := LocalTime t0 in
      let date :=
        MakeDate (Day t) (MakeTime (HourFromTime t) m (SecFromTime t) (msFromTime t)) in
      TimeClip (UTC date)
  | _, _ => None
  end.

(** [Date.prototype.setSeconds(sec)] *)
Definition setSeconds (sec : Z) (tv : TimeValue) : TimeValue :=
  match tv with
  | Some t0 =>
      let t := LocalTime t0 in
      let date :=
        MakeDate (Day t) (MakeTime (HourFromTime t) (MinFromTime t) sec (msFromTime t)) in
      TimeClip (UTC date)
  | None => None
  end.

(** [Date.prototype.setMilliseconds(ms)] *)
Definition setMilliseconds (ms : Z) (tv : TimeValue) : TimeValue :=
  match tv with
  | Some t0 =>
      let t := LocalTime t0 in
      let time := MakeTime (HourFromTime t) (MinFromTime t) (SecFromTime t) ms in
      TimeClip (UTC (MakeDate (Day t) time))
  | None => None
  end.

End WithZone.

(** [Date.prototype.toISOString], as the instant the text names: an
    invalid date throws a [RangeError]. *)
Definition toISOString (tv : TimeValue) : Completion Z :=
  match tv with
  | Some t => Normal t
  | None => Throw (ErrorObj "Invalid time value")
  end.

End JSDate.

(** ** [src/plugins/evohome/utils/http.ts] *)

Module Http.
Import JS Effects JSDate.

Section WithZone.
Variable LocalTZA : Z -> bool -> Z.

(** [calculateOverrideEndTime] for a whole number of minutes, with
    [Date.now()] passed in.  The sum is exact on doubles wherever it is a
    valid time value, which [new Date] checks. *)
Definition calculateOverrideEndTime (now : Z) (durationMinutes : Z) : Completion Z :=
  let endTime := TimeClip (now + durationMinutes * 60 * 1000) in
  let minutes := getMinutes LocalTZA endTime in
  let roundedMinutes := option_map (fun m => ceilDiv m 5 * 5) minutes in
  let endTime := setMinutes LocalTZA roundedMinutes endTime in
  let endTime := setSeconds LocalTZA 0 endTime in
  let endTime := setMilliseconds LocalTZA 0 endTime in
  toISOString endTime.

End WithZone.

End Http.

(** * Notions used to state the properties *)

Module Notions.
Import JS Effects.

(** *** Time windows *)

Import TimeUtils.

Definition minuteOfDay (date : Date) : Z := getHours date * 60 + getMinutes date.
Definition today (date : Date) : string := dayName (getDay date).
Definition yesterday (date : Date) : string := dayName ((getDay date - 1 + 7) mod 7).

(** A weekday is in the window's days when its lower-case name is one of
    the window's day names, compared without regard to case. *)
Definition dayListed (w : TimeWindow) (d : string) : Prop := In d (normalizedDays w).

Definition nightWindow : TimeWindow :=
  {| days := ["monday"]; start := "23:00"; end_ := "06:00" |}.

(** *** Aligned scheduling *)

(** The start of the clock hour [now] lies in. *)
Definition hourStart (now : Date) : Date := now - now mod 3600000.

(** The minute of the hour the next run is meant for: the start of the
    next [I]-minute block, or 60 (the next hour) when that block would
    pass the hour. *)
Definition targetMinute (I : Z) (now : Date) : Z :=
  Z.min ((getMinutes now / I + 1) * I) 60.

(** *** Override rules *)

Import ZoneService.

(** A rule is for a room when their names agree up to case. *)
Definition ruleMatches (room : string) (r : OverrideRule) : Prop :=
  toLowerCase (roomName r) = toLowerCase room.

(** The rule that applies to a room: none when no rule of the
    configuration matches, else the first that does. *)
Inductive RuleFor (rules : list OverrideRule) (room : string) :
    option OverrideRule -> Prop :=
| NoRule :
    (forall r, In r rules -> ~ ruleMatches room r) ->
    RuleFor rules room None
| FirstRule (before after : list OverrideRule) (rule : OverrideRule) :
    rules = (before ++ rule :: after)%list ->
    (forall r, In r before -> ~ ruleMatches room r) ->
    ruleMatches room rule ->
    RuleFor rules room (Some rule).

Definition insideSomeWindow (rule : OverrideRule) (now : Date) : Prop :=
  exists w, In w (timeWindows rule) /\ isWithinTimeWindow w now = true.

(** A configuration to run the rules on. *)
Definition livingRoomRule : OverrideRule :=
  {| roomName := "Living Room"; allowOverride := true; timeWindows := [nightWindow] |}.
Definition officeRule : OverrideRule :=
  {| roomName := "Office"; allowOverride := false; timeWindows := [nightWindow] |}.
Definition bathroomRule : OverrideRule :=
  {| roomName := "Bathroom"; allowOverride := true; timeWindows := [] |}.
Definition sampleRules : list OverrideRule :=
  [livingRoomRule; officeRule; bathroomRule].

(** *** Retries *)

(** What the caller sees of one attempt that fails on a rate limit with
    attempts to spare: the call, the notice when a logger is given, and
    the wait of [baseDelay * 2 ^ attempt]. *)
Definition backoffRound (maxRetries baseDelay : Z) (logger : bool) (attempt : Z)
    : list Retry.Event :=
  (Retry.Invoked attempt
   :: (if logger
       then [Retry.Logged (Retry.rateLimitNotice maxRetries (baseDelay * 2 ^ attempt) attempt)]
       else [])
   ++ [Retry.Delayed (baseDelay * 2 ^ attempt)])%list.

Fixpoint backoffRounds (maxRetries baseDelay : Z) (logger : bool) (from : Z) (n : nat)
    : list Retry.Event :=
  match n with
  | O => []
  | S n' =>
      (backoffRound maxRetries baseDelay logger from
       ++ backoffRounds maxRetries baseDelay logger (from + 1) n')%list
  end.

(** An operation that is rate-limited [failures] times and then fails
    with [final]. *)
Definition flaky (failures : Z) (final : JSError) (attempt : Z) : Completion unit :=
  if attempt <? failures then Throw (ErrorObj "HTTP 429 TooManyRequests") else Throw final.

(** *** The scheduler *)

(** Two scheduler states that agree on everything but the log. *)
Definition sameButLog (s s' : TaskScheduler.Scheduler) : Prop :=
  TaskScheduler.taskConfigs s' = TaskScheduler.taskConfigs s /\
  TaskScheduler.taskStatuses s' = TaskScheduler.taskStatuses s /\
  TaskScheduler.timers s' = TaskScheduler.timers s /\
  TaskScheduler.operationQueue s' = TaskScheduler.operationQueue s /\
  TaskScheduler.isProcessingQueue s' = TaskScheduler.isProcessingQueue s /\
  TaskScheduler.queueProcessingTimer s' = TaskScheduler.queueProcessingTimer s /\
  TaskScheduler.armed s' = TaskScheduler.armed s /\
  TaskScheduler.nextHandle s' = TaskScheduler.nextHandle s /\
  TaskScheduler.clock s' = TaskScheduler.clock s.

Definition zoneStatusTask : TaskScheduler.TaskConfig :=
  {| TaskScheduler.cfg_taskId := "evohome:zoneStatus";
     TaskScheduler.cfg_label := "Zone Status Polling";
     TaskScheduler.cfg_intervalMinutes := 5;
     TaskScheduler.cfg_priority := 1;
     TaskScheduler.cfg_handler := 0%nat;
     TaskScheduler.cfg_runOnStartup := Some true;
     TaskScheduler.cfg_minRescheduleThreshold := None |}.

(** A scheduler started at 12:03:10.000 with that one task registered. *)
Definition oneTaskScheduler : TaskScheduler.Scheduler :=
  snd (TaskScheduler.registerTask zoneStatusTask
         (TaskScheduler.emptyScheduler (wallClock 0 12 3 10 0))).

(** The state in which [executeTask] calls the handler: the task is marked
    as running, its detail cleared and its run counted. *)
Definition markRunning (taskId : string) (s : TaskScheduler.Scheduler)
    : TaskScheduler.Scheduler :=
  TaskScheduler.with_taskStatuses
    (alter (fun st => TaskScheduler.set_totalRuns (TaskScheduler.st_totalRuns st + 1) st) taskId)
    (TaskScheduler.with_taskStatuses
       (alter (TaskScheduler.set_statusDetail "") taskId)
       (TaskScheduler.with_taskStatuses
          (alter (TaskScheduler.set_status TaskScheduler.Running) taskId) s)).

(** The status a run leaves: [st] is the task's status when the handler
    settles with [outcome] at [now]. *)
Definition settled (outcome : Completion unit) (now : Date)
    (st : TaskScheduler.TaskStatus) : TaskScheduler.TaskStatus :=
  {| TaskScheduler.st_taskId := TaskScheduler.st_taskId st;
     TaskScheduler.st_lastRun := Some now;
     TaskScheduler.st_nextRun :=
       Some (num_add (Some now)
               (TaskScheduler.nextRunDelay (TaskScheduler.st_intervalMinutes st) now));
     TaskScheduler.st_status :=
       match outcome with
       | Normal _ => TaskScheduler.OK
       | Throw _ => TaskScheduler.Failed
       end;
     TaskScheduler.st_statusDetail :=
       match outcome with
       | Normal _ => ""
       | Throw e => errorText e
       end;
     TaskScheduler.st_intervalMinutes := TaskScheduler.st_intervalMinutes st;
     TaskScheduler.st_totalRuns := TaskScheduler.st_totalRuns st |}.

(** A task is registered when the scheduler holds its configuration and
    its status. *)
Definition registered (taskId : string) (s : TaskScheduler.Scheduler) : Prop :=
  is_Some (TaskScheduler.taskConfigs s !! taskId) /\
  is_Some (TaskScheduler.taskStatuses s !! taskId).

(** A handler that takes two seconds and rejects. *)
Definition failingHandler (_ : nat) : M TaskScheduler.Scheduler unit :=
  fun s =>
    (Throw (ErrorObj "HTTP error! status: 503"),
     {| TaskScheduler.timers := TaskScheduler.timers s;
        TaskScheduler.taskStatuses := TaskScheduler.taskStatuses s;
        TaskScheduler.taskConfigs := TaskScheduler.taskConfigs s;
        TaskScheduler.operationQueue := TaskScheduler.operationQueue s;
        TaskScheduler.isProcessingQueue := TaskScheduler.isProcessingQueue s;
        TaskScheduler.queueProcessingTimer := TaskScheduler.queueProcessingTimer s;
        TaskScheduler.clock := TaskScheduler.clock s + 2000;
        TaskScheduler.armed := TaskScheduler.armed s;
        TaskScheduler.nextHandle := TaskScheduler.nextHandle s;
        TaskScheduler.logged := TaskScheduler.logged s |}).

(** *** Sessions and tokens *)

(** A cached token is usable while the present instant is before its
    [expiresAt]. *)
Definition tokenUsable (a : Auth.AuthManager) : Prop :=
  exists c, Auth.cachedV1Token a = Some c /\ Auth.clock a < Auth.expiresAt c.

(** The instants at which authentication requests left the manager. *)
Definition authInstants (l : list Auth.Event) : list Date :=
  flat_map (fun e =>
    match e with
    | Auth.AuthenticateV2 t _ => [t]
    | Auth.AuthenticateV1 t _ => [t]
    | _ => []
    end) l.

(** The calls a run added, from the manager before it and after it. *)
Definition newEvents (a a' : Auth.AuthManager) : list Auth.Event :=
  skipn (length (Auth.events a)) (Auth.events a').

(** A run from [a] to [a'] observes the backoff when every authentication
    request it sends leaves no earlier than the required delay after the
    last failure recorded in [a]. *)
Definition backoffObserved (a a' : Auth.AuthManager) : Prop :=
  forall failure, Auth.lastAuthFailure a = Some failure ->
  forall t, In t (authInstants (newEvents a a')) ->
    failure + Auth.requiredDelay (Auth.authFailureCount a) <= t.

Definition sampleCredentials : Auth.Credentials :=
  {| Auth.username := "user@example.com"; Auth.password := "secret" |}.

(** A service that refuses every V2 request after 100 ms. *)
Definition refusingV2 (_ : Date) (_ : Auth.Credentials) : Auth.V2Response * Z :=
  (Auth.V2NotOk 401 (Normal None), 100).

(** A service that grants a one-hour token after 100 ms. *)
Definition grantingV1 (_ : Date) (_ : Auth.Credentials) : Auth.V1Response * Z :=
  (Auth.V1Ok "token-2" 3600, 100).

(** The manager after three V2 attempts in a row, each refused. *)
Definition afterThreeFailures : Auth.AuthManager :=
  let attempt := Auth.getV2Session refusingV2 0 sampleCredentials false None in
  snd (attempt (snd (attempt (snd (attempt (Auth.freshManager false 0)))))).

(** A manager at instant [now] holding a token that expires at [expiry]. *)
Definition holdingToken (now expiry : Date) : Auth.AuthManager :=
  {| Auth.cachedV2Session := None;
     Auth.cachedV1Token := Some {| Auth.token := "token-1"; Auth.expiresAt := expiry |};
     Auth.lastAuthFailure := None; Auth.authFailureCount := 0;
     Auth.apiStatsTracker := false; Auth.clock := now; Auth.events := [] |}.

(** The instant at which [getV2Session], called on [a] without a usable
    cached session, sends its request: at once when no wait is due, else
    after the wait and the timer's lateness. *)
Definition issueInstant (lateness : Z) (a : Auth.AuthManager) : Date :=
  if 0 <? Auth.getAuthRetryDelay a
  then Auth.clock a + Auth.getAuthRetryDelay a + lateness
  else Auth.clock a.

(** How many authentication requests a list of calls holds. *)
Definition authenticateCalls (l : list Auth.Event) : nat := length (authInstants l).

(** *** The device cache *)

(** A device with its heat setpoint taken out: what must stay as it was
    when only the setpoint is touched. *)
Definition withoutHeatSetpoint (d : DeviceCache.Device) : DeviceCache.Device :=
  match DeviceCache.thermostat d with
  | Some t =>
      match DeviceCache.changeableValues t with
      | Some cv =>
          DeviceCache.with_thermostat
            (Some (DeviceCache.with_changeableValues
                     (Some (DeviceCache.with_heatSetpoint None cv)) t)) d
      | None => d
      end
  | None => d
  end.

(** [device.thermostat?.changeableValues] *)
Definition changeableValuesOf (d : DeviceCache.Device) : option DeviceCache.ChangeableValues :=
  match DeviceCache.thermostat d with
  | Some t => DeviceCache.changeableValues t
  | None => None
  end.

(** A collation that orders strings by their characters' codes. *)
Definition codeCompare (a b : string) : Z :=
  match String.compare a b with
  | Lt => -1
  | Eq => 0
  | Gt => 1
  end.

(** The hot-water device as the service reports it. *)
Definition hotWater (mode status : string) : DeviceCache.Device :=
  {| DeviceCache.name := Some "Hot Water";
     DeviceCache.thermostatModelType := "DOMESTIC_HOT_WATER";
     DeviceCache.thermostat :=
       Some {| DeviceCache.indoorTemperature := Some 5500;
               DeviceCache.indoorTemperatureStatus := Some "Measured";
               DeviceCache.changeableValues :=
                 Some {| DeviceCache.cv_heatSetpoint := None;
                         DeviceCache.cv_mode := Some mode;
                         DeviceCache.cv_state := None;
                         DeviceCache.cv_status := Some status;
                         DeviceCache.cv_nextTime := None;
                         DeviceCache.cv_optimisticUpdateTime := None |} |};
     DeviceCache.deviceID := Some 2;
     DeviceCache.gatewayId := Some 1 |}.

(** A heating zone as the service reports it. *)
Definition zone (id : Z) (setpoint : Z) (status : string) : DeviceCache.Device :=
  {| DeviceCache.name := Some "Living Room";
     DeviceCache.thermostatModelType := "EMEA_ZONE";
     DeviceCache.thermostat :=
       Some {| DeviceCache.indoorTemperature := Some 1950;
               DeviceCache.indoorTemperatureStatus := Some "Measured";
               DeviceCache.changeableValues :=
                 Some {| DeviceCache.cv_heatSetpoint :=
                           Some {| DeviceCache.hs_value := setpoint;
                                   DeviceCache.hs_status := status;
                                   DeviceCache.hs_optimisticUpdateTime := None |};
                         DeviceCache.cv_mode := None;
                         DeviceCache.cv_state := None;
                         DeviceCache.cv_status := None;
                         DeviceCache.cv_nextTime := None;
                         DeviceCache.cv_optimisticUpdateTime := None |} |};
     DeviceCache.deviceID := Some id;
     DeviceCache.gatewayId := Some 1 |}.

Definition noon : Date := wallClock 0 12 0 0 0.

(** The cache after a first snapshot at noon with the hot water off, and
    a hot-water boost issued in the same instant. *)
Definition boostedCache : DeviceCache.DeviceCacheService :=
  snd (DeviceCache.updateDHWState noon 2 "DHWOn" "Temporary"
         (DeviceCache.setDevices noon [hotWater "DHWOff" "Scheduled"]
            DeviceCache.emptyCache)).

(** The cache after a first snapshot at noon holding one zone boosted to
    23.5 degrees, with no schedule cached. *)
Definition zoneCache : DeviceCache.DeviceCacheService :=
  DeviceCache.setDevices noon [hotWater "DHWOff" "Scheduled"; zone 101 2350 "Temporary"]
    DeviceCache.emptyCache.

(** *** Further notions: names, retries *)

(** A name written word by word in one pass: after a blank (and at the
    start) a letter is put in upper case, elsewhere in lower case. *)
Fixpoint capitalised (wordStart : bool) (s : string) : string :=
  match s with
  | EmptyString => EmptyString
  | String c r =>
      if Ascii.eqb c " " then String c (capitalised true r)
      else String (if wordStart then upperAscii c else lowerAscii c) (capitalised false r)
  end.

(** The calls of the operation in a trace, and the time spent waiting. *)
Definition invocations (l : list Retry.Event) : nat :=
  length (List.filter (fun e => match e with Retry.Invoked _ => true | _ => false end) l).

Fixpoint totalDelay (l : list Retry.Event) : Z :=
  match l with
  | [] => 0
  | Retry.Delayed ms :: r => ms + totalDelay r
  | _ :: r => totalDelay r
  end.

(** An operation that is rate-limited [failures] times and then answers. *)
Definition eventually (failures : Z) (answer : string) (attempt : Z) : Completion string :=
  if attempt <? failures then Throw (ErrorObj "Received response code 429") else Normal answer.

(** *** Further notions: the scheduler *)

(** The status a task gets at registration. *)
Definition initialStatus (config : TaskScheduler.TaskConfig) : TaskScheduler.TaskStatus :=
  {| TaskScheduler.st_taskId := TaskScheduler.cfg_taskId config;
     TaskScheduler.st_lastRun := None;
     TaskScheduler.st_nextRun := None;
     TaskScheduler.st_status := TaskScheduler.NOT_RUN;
     TaskScheduler.st_statusDetail := "";
     TaskScheduler.st_intervalMinutes := TaskScheduler.cfg_intervalMinutes config;
     TaskScheduler.st_totalRuns := 0 |}.

(** The time left until the task's next run, as [updateTaskInterval]
    reads it: 0 when no run is planned. *)
Definition untilNextRun (now : Date) (st : TaskScheduler.TaskStatus) : num :=
  match TaskScheduler.st_nextRun st with
  | Some t => num_add t (Some (- now))
  | None => Some 0
  end.

(** The next run is far off when it lies more than the task's threshold
    (5 minutes unless configured) ahead. *)
Definition farOff (now : Date) (c : TaskScheduler.TaskConfig)
    (st : TaskScheduler.TaskStatus) : bool :=
  num_lt (Some (TaskScheduler.thresholdOrDefault
                  (TaskScheduler.cfg_minRescheduleThreshold c) * 60 * 1000))
         (untilNextRun now st).

Definition isDebounce (t : TaskScheduler.Timeout) : bool :=
  match TaskScheduler.callback t with
  | TaskScheduler.DebounceElapsed => true
  | TaskScheduler.TaskDue _ => false
  end.

(** Timer handles are fresh, and the armed debounce timers are those
    under the handle the scheduler remembers. *)
Definition timersConsistent (s : TaskScheduler.Scheduler) : Prop :=
  (forall t, In t (TaskScheduler.armed s) ->
     (TaskScheduler.handle t < TaskScheduler.nextHandle s)%nat) /\
  (forall t, In t (TaskScheduler.armed s) ->
     (isDebounce t = true <->
      TaskScheduler.queueProcessingTimer s = Some (TaskScheduler.handle t))).

Definition queuedIds (s : TaskScheduler.Scheduler) : list string :=
  map TaskScheduler.op_taskId (TaskScheduler.operationQueue s).

Definition scheduleRefreshTask : TaskScheduler.TaskConfig :=
  {| TaskScheduler.cfg_taskId := "evohome:scheduleRefresh";
     TaskScheduler.cfg_label := "Schedule Refresh";
     TaskScheduler.cfg_intervalMinutes := 30;
     TaskScheduler.cfg_priority := 3;
     TaskScheduler.cfg_handler := 2%nat;
     TaskScheduler.cfg_runOnStartup := None;
     TaskScheduler.cfg_minRescheduleThreshold := Some 10 |}.

(** A scheduler at 12:03:10.000 with the 5-minute and the 30-minute task
    registered and scheduled: their runs are due at 12:05:01 and 12:30:01. *)
Definition twoTaskScheduler : TaskScheduler.Scheduler :=
  snd (TaskScheduler.scheduleTask "evohome:scheduleRefresh"
    (snd (TaskScheduler.scheduleTask "evohome:zoneStatus"
      (snd (TaskScheduler.registerTask scheduleRefreshTask oneTaskScheduler))))).

(** The operations of a queue run one after the other in the order
    given, pausing between two of them. *)
Fixpoint runInOrder (handlers : nat -> M TaskScheduler.Scheduler unit)
    (pause : Z -> M TaskScheduler.Scheduler unit)
    (items : list TaskScheduler.QueuedOperation) : M TaskScheduler.Scheduler unit :=
  match items with
  | [] => Effects.ret tt
  | item :: rest =>
      Effects.bind (Effects.modify (TaskScheduler.with_operationQueue (fun _ => rest)))
        (fun _ =>
      Effects.bind (TaskScheduler.executeTask handlers (TaskScheduler.op_taskId item))
        (fun _ =>
      Effects.bind (match rest with
                    | [] => Effects.ret tt
                    | _ :: _ => pause TaskScheduler.QUEUE_DELAY_MS
                    end)
        (fun _ => runInOrder handlers pause rest)))
  end.

(** Lower priority numbers first. *)
Definition byPriority (a b : TaskScheduler.QueuedOperation) : Prop :=
  TaskScheduler.op_priority a <= TaskScheduler.op_priority b.

(** Handlers that leave a line in the log, and a pause in which only the
    clock moves. *)
Definition loggingHandler (h : nat) : M TaskScheduler.Scheduler unit :=
  TaskScheduler.writeLog ("handler " +:+ pretty (Z.of_nat h)) "test" TaskScheduler.INFO.

Definition tick (ms : Z) : M TaskScheduler.Scheduler unit :=
  Effects.modify (fun s =>
    {| TaskScheduler.timers := TaskScheduler.timers s;
       TaskScheduler.taskStatuses := TaskScheduler.taskStatuses s;
       TaskScheduler.taskConfigs := TaskScheduler.taskConfigs s;
       TaskScheduler.operationQueue := TaskScheduler.operationQueue s;
       TaskScheduler.isProcessingQueue := TaskScheduler.isProcessingQueue s;
       TaskScheduler.queueProcessingTimer := TaskScheduler.queueProcessingTimer s;
       TaskScheduler.clock := TaskScheduler.clock s + ms;
       TaskScheduler.armed := TaskScheduler.armed s;
       TaskScheduler.nextHandle := TaskScheduler.nextHandle s;
       TaskScheduler.logged := TaskScheduler.logged s |}).

Definition overrideResetTask : TaskScheduler.TaskConfig :=
  {| TaskScheduler.cfg_taskId := "evohome:overrideReset";
     TaskScheduler.cfg_label := "Override Reset";
     TaskScheduler.cfg_intervalMinutes := 5;
     TaskScheduler.cfg_priority := 2;
     TaskScheduler.cfg_handler := 1%nat;
     TaskScheduler.cfg_runOnStartup := None;
     TaskScheduler.cfg_minRescheduleThreshold := None |}.

(** Three registered tasks of priorities 1, 2 and 3, queued in the order
    3, 1, 2 within one debounce window. *)
Definition threeQueued : TaskScheduler.Scheduler :=
  snd (TaskScheduler.queueOperation "evohome:overrideReset" 2
    (snd (TaskScheduler.queueOperation "evohome:zoneStatus" 1
      (snd (TaskScheduler.queueOperation "evohome:scheduleRefresh" 3
        (snd (TaskScheduler.registerTask overrideResetTask
          (snd (TaskScheduler.registerTask scheduleRefreshTask oneTaskScheduler))))))))).

(** *** Further notions: sessions *)

(** A service that grants a V2 session after 100 ms. *)
Definition grantingV2 (_ : Date) (_ : Auth.Credentials) : Auth.V2Response * Z :=
  (Auth.V2Ok "user-1" "session-abcdef", 100).

(** A service that refuses V1 requests after 100 ms. *)
Definition refusingV1 (_ : Date) (_ : Auth.Credentials) : Auth.V1Response * Z :=
  (Auth.V1NotOk 400 "invalid_grant", 100).

(** A manager holding a session. *)
Definition holdingSession : Auth.AuthManager :=
  snd (Auth.getV2Session grantingV2 0 sampleCredentials false None
         (Auth.freshManager true 1000)).

(** The message of the error thrown for a refused V2 request. *)
Definition refusalMessage (status : Z) (body : Completion (option string)) : string :=
  match body with
  | Normal (Some message) =>
      if String.eqb message "" then "HTTP error! status: " +:+ pretty status
      else message
  | _ => "HTTP error! status: " +:+ pretty status
  end.

(** The failure count is never negative, and a failure instant is
    recorded exactly while the count is positive. *)
Definition failuresConsistent (a : Auth.AuthManager) : Prop :=
  0 <= Auth.authFailureCount a /\
  (Auth.lastAuthFailure a = None <-> Auth.authFailureCount a = 0).

(** *** Further notions: the device cache *)

(** The setpoint of the merged device [m] is one the cache held for the
    incoming device [d], marked less than 5 seconds before [now]. *)
Definition keptFrom (now : Date) (cached : list DeviceCache.Device)
    (d m : DeviceCache.Device) : Prop :=
  exists e kept stamp,
    In e cached /\ DeviceCache.deviceID e = DeviceCache.deviceID d /\
    DeviceCache.heatSetpointOf e = Some kept /\
    DeviceCache.hs_optimisticUpdateTime kept = Some stamp /\
    now - stamp < 5000 /\
    DeviceCache.heatSetpointOf m = Some kept.

(** No setpoint of the device carries a marker younger than 5 seconds. *)
Definition settledDevice (now : Date) (d : DeviceCache.Device) : Prop :=
  forall hs stamp,
    DeviceCache.heatSetpointOf d = Some hs ->
    DeviceCache.hs_optimisticUpdateTime hs = Some stamp ->
    5000 <= now - stamp.

(** The daily schedule is the one of the day [date] falls on. *)
Definition dayMatches (date : Date) (ds : DeviceCache.DaySchedule) : Prop :=
  match DeviceCache.dayOfWeek ds with
  | DeviceCache.DayString s => s = nth (Z.to_nat (getDay date)) DeviceCache.dayNames ""
  | DeviceCache.DayNumber n => n = getDay date
  end.

Definition switchpointAt (time : string) (temperature : Z) : DeviceCache.Switchpoint :=
  {| DeviceCache.timeOfDay := None; DeviceCache.TimeOfDay := Some time;
     DeviceCache.sp_heatSetpoint := Some temperature; DeviceCache.dhwState := None |}.

(** Zone 101 on Thursdays: 21 degrees from 06:30, 16 degrees from 22:00. *)
Definition thursdaySchedule : DeviceCache.ZoneSchedule :=
  {| DeviceCache.zoneId := "101"; DeviceCache.zs_name := "Living Room";
     DeviceCache.scheduleId := None;
     DeviceCache.dailySchedules :=
       [ {| DeviceCache.dayOfWeek := DeviceCache.DayString "Thursday";
            DeviceCache.switchpoints :=
              Some [switchpointAt "22:00:00" 1600; switchpointAt "06:30:00" 2100] |} ] |}.

Definition scheduledCache : DeviceCache.DeviceCacheService :=
  DeviceCache.setZoneSchedules [thursdaySchedule] zoneCache.

(** The setpoint [updateDeviceState] writes for an explicit temperature. *)
Definition boostSetpoint (now : Date) (temperature : Z) (status : string)
    : DeviceCache.HeatSetpoint :=
  {| DeviceCache.hs_value := temperature; DeviceCache.hs_status := status;
     DeviceCache.hs_optimisticUpdateTime := Some now |}.

(** The details of a zone with another target temperature and status. *)
Definition withTarget (temperature : Z) (status : string)
    (d : ZoneService.DeviceDetails) : ZoneService.DeviceDetails :=
  {| ZoneService.dd_deviceID := ZoneService.dd_deviceID d;
     ZoneService.dd_thermostatModelType := ZoneService.dd_thermostatModelType d;
     ZoneService.dd_name := ZoneService.dd_name d;
     ZoneService.dd_curTemp := ZoneService.dd_curTemp d;
     ZoneService.dd_setTemp := Some temperature;
     ZoneService.dd_status := status;
     ZoneService.dd_dhwState := ZoneService.dd_dhwState d;
     ZoneService.dd_isFailed := ZoneService.dd_isFailed d;
     ZoneService.dd_isOverrideAllowed := ZoneService.dd_isOverrideAllowed d |}.

(** The details of the hot water in another state and status. *)
Definition withHotWaterState (mode status : string)
    (d : ZoneService.DeviceDetails) : ZoneService.DeviceDetails :=
  {| ZoneService.dd_deviceID := ZoneService.dd_deviceID d;
     ZoneService.dd_thermostatModelType := ZoneService.dd_thermostatModelType d;
     ZoneService.dd_name := ZoneService.dd_name d;
     ZoneService.dd_curTemp := ZoneService.dd_curTemp d;
     ZoneService.dd_setTemp := ZoneService.dd_setTemp d;
     ZoneService.dd_status := status;
     ZoneService.dd_dhwState := Some mode;
     ZoneService.dd_isFailed := ZoneService.dd_isFailed d;
     ZoneService.dd_isOverrideAllowed := ZoneService.dd_isOverrideAllowed d |}.

(** *** Further notions: the statistics tracker, override end times *)

(** A call of one of the tracker's methods. *)
Inductive TrackerCall :=
| CallRecordAuth (api : Auth.Api) (timestamp : Date)
| CallRecordAuthFailure (api : Auth.Api) (timestamp : Date)
| CallRecordAuthExpired (api : Auth.Api) (timestamp : Date)
| CallRecordGetSuccess (api : Auth.Api) (timestamp : Date)
| CallRecordGetFailure (api : Auth.Api) (timestamp : Date)
| CallRecordPutSuccess (api : Auth.Api) (timestamp : Date)
| CallRecordPutFailure (api : Auth.Api) (timestamp : Date)
| CallReset
| CallResetApi (api : Auth.Api).

Definition perform (s : ApiStatsTracker.ApiStatistics) (call : TrackerCall)
    : ApiStatsTracker.ApiStatistics :=
  match call with
  | CallRecordAuth api t => ApiStatsTracker.recordAuth api t s
  | CallRecordAuthFailure api t => ApiStatsTracker.recordAuthFailure api t s
  | CallRecordAuthExpired api t => ApiStatsTracker.recordAuthExpired api t s
  | CallRecordGetSuccess api t => ApiStatsTracker.recordGetSuccess api t s
  | CallRecordGetFailure api t => ApiStatsTracker.recordGetFailure api t s
  | CallRecordPutSuccess api t => ApiStatsTracker.recordPutSuccess api t s
  | CallRecordPutFailure api t => ApiStatsTracker.recordPutFailure api t s
  | CallReset => ApiStatsTracker.reset s
  | CallResetApi api => ApiStatsTracker.resetApi api s
  end.

(** The statistics of a new tracker after the calls, in order. *)
Definition afterCalls (calls : list TrackerCall) : ApiStatsTracker.ApiStatistics :=
  fold_left perform calls ApiStatsTracker.newTracker.

(** A counter is 0 exactly while its timestamp is unset. *)
Definition stamped (counter : Z) (last : option Date) : Prop :=
  counter = 0 <-> last = None.

Definition fiveMinutes : Z := 5 * 60 * 1000.

(** The counters of one kind of request, after at most [bound] calls. *)
Definition requestsConsistent (bound : Z) (r : ApiStatsTracker.RequestStats) : Prop :=
  0 <= ApiStatsTracker.success r <= bound /\
  0 <= ApiStatsTracker.failed r <= bound /\
  stamped (ApiStatsTracker.success r) (ApiStatsTracker.lastSuccessTime r) /\
  stamped (ApiStatsTracker.failed r) (ApiStatsTracker.lastFailedTime r).

(** The authentication counters, after at most [bound] calls: every
    request is counted once as a success or a failure. *)
Definition authConsistent (bound : Z) (a : ApiStatsTracker.AuthStats) : Prop :=
  ApiStatsTracker.totalRequests a
    = ApiStatsTracker.totalSuccess a + ApiStatsTracker.totalFailed a /\
  0 <= ApiStatsTracker.totalSuccess a /\
  0 <= ApiStatsTracker.totalFailed a /\
  ApiStatsTracker.totalRequests a <= bound /\
  0 <= ApiStatsTracker.totalExpired a <= bound /\
  stamped (ApiStatsTracker.totalSuccess a) (ApiStatsTracker.lastAuthTime a) /\
  stamped (ApiStatsTracker.totalFailed a) (ApiStatsTracker.auth_lastFailedTime a) /\
  stamped (ApiStatsTracker.totalExpired a) (ApiStatsTracker.lastExpiredTime a).

Definition statsConsistent (bound : Z) (s : ApiStatsTracker.ApiStats) : Prop :=
  authConsistent bound (ApiStatsTracker.auth s) /\
  requestsConsistent bound (ApiStatsTracker.get s) /\
  requestsConsistent bound (ApiStatsTracker.put s).

(** *** Further notions: where the model reads a text as the code does *)

(** The text holds ASCII characters only; there [toLowerCase] and
    [toUpperCase] are the code's. *)
Definition asciiOnly (s : string) : Prop :=
  Forall (fun c => (nat_of_ascii c < 128)%nat) (list_ascii_of_string s).

(** A letter that occurs in no text [Number] reads as a number: an ASCII
    letter other than the hexadecimal digits [a]-[f] and [A]-[F] (which
    cover the exponent and binary marks), the marks [x], [X], [o], [O] and
    the letters of [Infinity]. *)
Definition strangeLetter (c : ascii) : bool :=
  let n := nat_of_ascii c in
  ((((65 <=? n) && (n <=? 90)) || ((97 <=? n) && (n <=? 122)))%nat)
  && negb (existsb (Ascii.eqb c) (list_ascii_of_string "abcdefABCDEFxXoOInity")).

Definition hasStrangeLetter (s : string) : bool :=
  existsb strangeLetter (list_ascii_of_string s).

(** A clock text that gives no minutes: it has no colon, so that the
    minutes are [undefined], or its hour or minute field holds a strange
    letter, so that [Number] makes it [NaN]. *)
Definition unreadable (timeStr : string) : Prop :=
  match split ":" timeStr with
  | hours :: minutes :: _ =>
      hasStrangeLetter hours = true \/ hasStrangeLetter minutes = true
  | _ => True
  end.

(** The zone keeps one [offset], of less than a day, for the instants
    from [first] to [last] and for the local times they are read as. *)
Definition steadyZone (LocalTZA : Z -> bool -> Z) (offset first last : Z) : Prop :=
  Z.abs offset < 86400000 /\
  forall t, first <= t <= last ->
    LocalTZA t true = offset /\ LocalTZA (t + offset) false = offset.

(** A zone one hour ahead of UTC until 2024-10-27T01:00:00Z and on UTC
    from then on; of the local hour that occurs twice, the earlier
    instant is taken. *)
Definition autumnZone (t : Z) (isUTC : bool) : Z :=
  if isUTC then (if t <? 1729990800000 then 3600000 else 0)
  else (if t <? 1729990800000 + 3600000 then 3600000 else 0).

End Notions.

(** * Properties *)

(** ** Time windows *)

Section TimeWindowProps.
Import JS TimeUtils Notions.

Lemma arrayIncludes_In (l : list string) (x : string) :
  arrayIncludes l x = true <-> In x l.
Proof.
  unfold arrayIncludes. rewrite existsb_exists. split.
  - intros (y & Hy & E). apply String.eqb_eq in E. now subst.
  - intros H. exists x. split; [exact H | apply String.eqb_refl].
Qed.

(** C4. For a window whose end is earlier than its start, and any instant,
    [isWithinTimeWindow] answers true exactly when the minute of the day
    is at most the end and yesterday's weekday is one of the window's
    days, or the minute of the day is at least the start and today's
    weekday is one of them; it answers false in every other case. *)
Theorem isWithinTimeWindow_across_midnight
    (w : TimeWindow) (now : Date) (s e : Z) :
  timeToMinutes (start w) = Some s ->
  timeToMinutes (end_ w) = Some e ->
  e < s ->
  isWithinTimeWindow w now = true <->
    (minuteOfDay now <= e /\ dayListed w (yesterday now)) \/
    (minuteOfDay now >= s /\ dayListed w (today now)).
Proof.
  intros Hs He Hlt.
  unfold isWithinTimeWindow, dayListed, yesterday, today, minuteOfDay.
  rewrite Hs, He. cbn [num_lt num_le num_ge].
  destruct (Z.ltb_spec e s) as [_ | ?]; [| lia].
  set (m := getHours now * 60 + getMinutes now).
  destruct (Z.leb_spec m e) as [Hme | Hme].
  - rewrite arrayIncludes_In. split; [intros H; left; auto |].
    intros [[_ H] | [Hge _]]; [exact H | lia].
  - destruct (Z.leb_spec s m) as [Hsm | Hsm].
    + rewrite arrayIncludes_In. split; [intros H; right; split; [lia | exact H] |].
      intros [[Hle _] | [_ H]]; [lia | exact H].
    + split; [discriminate |]. intros [[Hle _] | [Hge _]]; lia.
Qed.

(** Monday 1970-01-05 is day 4 of the epoch, Sunday day 3, Tuesday day 5. *)
Lemma isWithinTimeWindow_across_midnight_examples :
  isWithinTimeWindow nightWindow (wallClock 4 23 30 0 0) = true /\
  isWithinTimeWindow nightWindow (wallClock 5 2 0 0 0) = true /\
  isWithinTimeWindow nightWindow (wallClock 5 10 0 0 0) = false /\
  isWithinTimeWindow nightWindow (wallClock 3 23 30 0 0) = false.
Proof.
  pose proof (fun now =>
    isWithinTimeWindow_across_midnight nightWindow now 1380 360
      eq_refl eq_refl ltac:(lia)) as H.
  split; [| split; [| split]].
  - apply H. right. split; [vm_compute; discriminate | left; reflexivity].
  - apply H. left. split; [vm_compute; discriminate | left; reflexivity].
  - apply not_true_is_false. intros T. apply H in T.
    destruct T as [[Hm _] | [Hm _]]; vm_compute in Hm; [apply Hm | apply Hm]; reflexivity.
  - apply not_true_is_false. intros T. apply H in T.
    destruct T as [[Hm _] | [_ Hd]].
    + vm_compute in Hm. apply Hm. reflexivity.
    + vm_compute in Hd. destruct Hd as [Hd | []]. discriminate Hd.
Defined.

End TimeWindowProps.

(** ** Aligned scheduling *)

Section AlignmentProps.
Import JS TaskScheduler Notions.

Lemma clock_fields (now : Date) :
  now mod 3600000 =
    getMinutes now * 60000 + getSeconds now * 1000 + getMilliseconds now.
Proof.
  unfold getMinutes, getSeconds, getMilliseconds.
  Z.div_mod_to_equations. lia.
Qed.

Lemma scheduleNextRun_same_delay (I : Z) (now : Date) :
  nextRunDelay I now = getNextAlignedDelay I now.
Proof. reflexivity. Qed.

(** Whatever the instant, the delay ends one second past the boundary
    it is meant for: [60 - seconds] counts the running second once more
    than [1000 - milliseconds] already does. *)
Lemma getNextAlignedDelay_one_second_late (I : Z) (now : Date) :
  0 < I <= 60 ->
  exists d, getNextAlignedDelay I now = Some d /\
            now + d = hourStart now + targetMinute I now * 60000 + 1000.
Proof.
  intros HI. unfold getNextAlignedDelay, hourStart, targetMinute.
  destruct (Z.eqb_spec I 0) as [-> | _]; [lia |].
  rewrite clock_fields.
  set (m := getMinutes now). set (s := getSeconds now).
  set (ms := getMilliseconds now).
  set (next := (m / I + 1) * I).
  destruct (Z.geb_spec next 60) as [Hge | Hlt]; eexists; (split; [reflexivity |]).
  - rewrite Z.min_r by lia. lia.
  - rewrite Z.min_l by lia. lia.
Qed.

(** C1, at the instant the specification names.  With an interval of 5
    minutes at 12:03:10.000 the delay is 111000 ms, which ends at
    12:05:01.000 and not at 12:05:00.000; [scheduleNextRun] computes the
    same delay. *)
Theorem getNextAlignedDelay_at_12_03_10 :
  getNextAlignedDelay 5 (wallClock 0 12 3 10 0) = Some 111000 /\
  nextRunDelay 5 (wallClock 0 12 3 10 0) = Some 111000 /\
  wallClock 0 12 3 10 0 + 111000 = wallClock 0 12 5 1 0 /\
  wallClock 0 12 3 10 0 + 111000 <> wallClock 0 12 5 0 0.
Proof. repeat split. vm_compute. discriminate. Qed.

End AlignmentProps.

(** ** Override rules *)

Section OverrideProps.
Import JS TimeUtils ZoneService Notions.

Lemma find_rule_None (rules : list OverrideRule) (room : string) :
  List.find (fun r => String.eqb (toLowerCase (roomName r)) (toLowerCase room)) rules = None <->
  (forall r, In r rules -> ~ ruleMatches room r).
Proof.
  unfold ruleMatches. split.
  - intros H r Hin E. apply (find_none _ _ H) in Hin.
    cbn in Hin. apply String.eqb_neq in Hin. contradiction.
  - intros H. induction rules as [| r rules IH]; [reflexivity |].
    cbn. destruct (String.eqb_spec (toLowerCase (roomName r)) (toLowerCase room)) as [E | _].
    + exfalso. apply (H r); [left; reflexivity | exact E].
    + apply IH. intros r' Hin. apply H. right. exact Hin.
Qed.

Lemma find_rule_first (before after : list OverrideRule) (rule : OverrideRule) (room : string) :
  (forall r, In r before -> ~ ruleMatches room r) ->
  ruleMatches room rule ->
  List.find (fun r => String.eqb (toLowerCase (roomName r)) (toLowerCase room))
            (before ++ rule :: after)%list = Some rule.
Proof.
  intros Hb Hm. induction before as [| r before IH]; cbn.
  - unfold ruleMatches in Hm. rewrite Hm, String.eqb_refl. reflexivity.
  - destruct (String.eqb_spec (toLowerCase (roomName r)) (toLowerCase room)) as [E | _].
    + exfalso. apply (Hb r); [left; reflexivity | exact E].
    + apply IH. intros r' Hin. apply Hb. right. exact Hin.
Qed.

(** Every configuration and room has its applicable rule, so the property
    below speaks of every call. *)
Lemma RuleFor_total (rules : list OverrideRule) (room : string) :
  exists r, RuleFor rules room r.
Proof.
  induction rules as [| r rules [o IH]].
  - exists None. constructor. intros r [].
  - destruct (String.eqb_spec (toLowerCase (roomName r)) (toLowerCase room)) as [E | N].
    + exists (Some r). apply (FirstRule _ _ [] rules r); [reflexivity | intros ? [] | exact E].
    + destruct IH as [Hnone | before after rule Heq Hb Hm].
      * exists None. constructor. intros r' [<- | Hin]; [exact N | apply Hnone; exact Hin].
      * exists (Some rule). apply (FirstRule _ _ (r :: before) after rule).
        -- cbn. rewrite Heq. reflexivity.
        -- intros r' [<- | Hin]; [exact N | apply Hb; exact Hin].
        -- exact Hm.
Qed.

Lemma existsb_window (rule : OverrideRule) (now : Date) :
  existsb (fun window => isWithinTimeWindow window now) (timeWindows rule) = true <->
  insideSomeWindow rule now.
Proof. unfold insideSomeWindow. apply existsb_exists. Qed.

(** C5. With no rule for the room an override is allowed; with a rule whose
    [allowOverride] is false it is allowed; with a rule whose
    [allowOverride] is true it is refused at all times when the rule has
    no window, and otherwise refused exactly while the instant lies
    inside one of the rule's windows. *)
Theorem isOverrideAllowed_by_rule
    (rules : list OverrideRule) (room : string) (now : Date)
    (applicable : option OverrideRule) :
  RuleFor rules room applicable ->
  match applicable with
  | None => isOverrideAllowed rules room now = true
  | Some rule =>
      (allowOverride rule = false -> isOverrideAllowed rules room now = true) /\
      (allowOverride rule = true -> timeWindows rule = [] ->
         isOverrideAllowed rules room now = false) /\
      (allowOverride rule = true -> timeWindows rule <> [] ->
         (isOverrideAllowed rules room now = false <-> insideSomeWindow rule now) /\
         (isOverrideAllowed rules room now = true <-> ~ insideSomeWindow rule now))
  end.
Proof.
  intros [Hnone | before after rule -> Hb Hm]; unfold isOverrideAllowed.
  - apply find_rule_None in Hnone. rewrite Hnone. reflexivity.
  - rewrite (find_rule_first before after rule room Hb Hm).
    split; [| split].
    + intros ->. reflexivity.
    + intros -> ->. reflexivity.
    + intros -> Hne. cbn [negb].
      destruct (timeWindows rule) as [| w ws] eqn:Ew; [contradiction |].
      cbn [length Nat.eqb]. rewrite <- Ew.
      pose proof (existsb_window rule now) as Hex.
      destruct (existsb _ (timeWindows rule)); cbn [negb].
      * split; split; try reflexivity; try discriminate.
        -- intros _. apply Hex. reflexivity.
        -- intros Hn. exfalso. apply Hn, Hex. reflexivity.
      * split; split; try reflexivity; try discriminate.
        -- intros Hin. apply Hex in Hin. discriminate.
        -- intros _ Hin. apply Hex in Hin. discriminate.
Qed.

Lemma isOverrideAllowed_by_rule_sample :
  RuleFor sampleRules "kitchen" None /\
  isOverrideAllowed sampleRules "kitchen" (wallClock 4 23 30 0 0) = true /\
  isOverrideAllowed sampleRules "OFFICE" (wallClock 4 23 30 0 0) = true /\
  isOverrideAllowed sampleRules "bathroom" (wallClock 5 10 0 0 0) = false /\
  isOverrideAllowed sampleRules "living room" (wallClock 4 23 30 0 0) = false /\
  isOverrideAllowed sampleRules "living room" (wallClock 5 10 0 0 0) = true.
Proof.
  assert (Hk : Notions.RuleFor Notions.sampleRules "kitchen" None).
  { constructor. intros r [<- | [<- | [<- | []]]]; vm_compute; discriminate. }
  assert (Ho : Notions.RuleFor Notions.sampleRules "OFFICE" (Some Notions.officeRule)).
  { apply (Notions.FirstRule _ _ [Notions.livingRoomRule] [Notions.bathroomRule]);
      [reflexivity | | reflexivity].
    intros r [<- | []]. vm_compute. discriminate. }
  assert (Hb : Notions.RuleFor Notions.sampleRules "bathroom" (Some Notions.bathroomRule)).
  { apply (Notions.FirstRule _ _ [Notions.livingRoomRule; Notions.officeRule] []);
      [reflexivity | | reflexivity].
    intros r [<- | [<- | []]]; vm_compute; discriminate. }
  assert (Hl : Notions.RuleFor Notions.sampleRules "living room" (Some Notions.livingRoomRule)).
  { apply (Notions.FirstRule _ _ [] [Notions.officeRule; Notions.bathroomRule]);
      [reflexivity | intros r [] | reflexivity]. }
  split; [exact Hk |]. split; [| split; [| split; [| split]]].
  - exact (isOverrideAllowed_by_rule _ _ (JS.wallClock 4 23 30 0 0) _ Hk).
  - exact (proj1 (isOverrideAllowed_by_rule _ _ (JS.wallClock 4 23 30 0 0) _ Ho) eq_refl).
  - exact (proj1 (proj2 (isOverrideAllowed_by_rule _ _ (JS.wallClock 5 10 0 0 0) _ Hb))
             eq_refl eq_refl).
  - apply (proj2 (proj2 (isOverrideAllowed_by_rule _ _ (JS.wallClock 4 23 30 0 0) _ Hl))
             eq_refl ltac:(discriminate)).
    exists Notions.nightWindow. split; [left; reflexivity | reflexivity].
  - apply (proj2 (proj2 (isOverrideAllowed_by_rule _ _ (JS.wallClock 5 10 0 0 0) _ Hl))
             eq_refl ltac:(discriminate)).
    intros (w & [<- | []] & Hw). vm_compute in Hw. discriminate.
Defined.

End OverrideProps.

(** ** Retries with backoff *)

Section RetryProps.
Import JS Effects Retry Notions.
Context {T : Type}.
Variable fn : Z -> Completion T.
Variable maxRetries baseDelay : Z.
Variable logger : bool.

Lemma attempts_until_propagation (e : JSError) (n : nat) :
  forall (a : Z) (remaining : nat) (lastError : option JSError) (t : list Event),
    (n < remaining)%nat ->
    a + Z.of_nat n <= maxRetries ->
    (forall j, a <= j < a + Z.of_nat n ->
       exists ej, fn j = Throw ej /\ isRateLimit ej = true) ->
    fn (a + Z.of_nat n) = Throw e ->
    a + Z.of_nat n = maxRetries \/ isRateLimit e = false ->
    attempts fn maxRetries baseDelay logger remaining a lastError t =
      (Throw e,
       (t ++ backoffRounds maxRetries baseDelay logger a n
          ++ [Invoked (a + Z.of_nat n)])%list).
Proof.
  induction n as [| n IH]; intros a remaining lastError t Hrem Hle Hfail Hlast Hstop.
  - destruct remaining as [| r]; [lia |].
    rewrite Z.add_0_r in *. cbn [attempts backoffRounds app].
    unfold callFn, emit, modify, bind. rewrite Hlast.
    destruct Hstop as [-> | ->].
    + rewrite Z.eqb_refl. reflexivity.
    + rewrite orb_true_r. reflexivity.
  - destruct remaining as [| r]; [lia |].
    destruct (Hfail a ltac:(lia)) as (ea & Hfa & Hrl).
    cbn [attempts backoffRounds]. unfold callFn at 1, emit, modify, bind.
    rewrite Hfa, Hrl. cbn [negb orb].
    destruct (Z.eqb_spec a maxRetries) as [-> | _]; [lia |]. cbn [orb].
    replace (a + Z.of_nat (S n)) with ((a + 1) + Z.of_nat n) in * by lia.
    unfold delay, emit, modify, ret.
    destruct logger; cbn.
    + rewrite (IH (a + 1) r); try assumption; try lia.
      * unfold backoffRound. cbn. rewrite <- !app_assoc. reflexivity.
      * intros j Hj. apply Hfail. lia.
    + rewrite (IH (a + 1) r); try assumption; try lia.
      * unfold backoffRound. cbn. rewrite <- !app_assoc. reflexivity.
      * intros j Hj. apply Hfail. lia.
Qed.

(** C7. When the attempts before attempt [k] all fail on a rate limit, and
    attempt [k] fails either with an error that is no rate-limit signal or
    as the last of the [maxRetries + 1] attempts, the error of attempt [k]
    is thrown at once: the run ends with that call, with no later call
    and no later wait.  Before it, every rate-limited attempt [j] was
    followed by a wait of [baseDelay * 2 ^ j] and then by the next
    attempt.  For [k = 0] the run is the single call. *)
Theorem retryWithBackoff_propagates (k : nat) (e : JSError) (t : list Event) :
  Z.of_nat k <= maxRetries ->
  (forall j, 0 <= j < Z.of_nat k ->
     exists ej, fn j = Throw ej /\ isRateLimit ej = true) ->
  fn (Z.of_nat k) = Throw e ->
  Z.of_nat k = maxRetries \/ isRateLimit e = false ->
  retryWithBackoff fn maxRetries baseDelay logger t =
    (Throw e,
     (t ++ backoffRounds maxRetries baseDelay logger 0 k
        ++ [Invoked (Z.of_nat k)])%list).
Proof.
  intros Hle Hfail Hlast Hstop. unfold retryWithBackoff.
  apply (attempts_until_propagation e k 0); try assumption; lia.
Qed.

End RetryProps.

Section RetryExamples.
Import JS Effects Retry Notions.

Lemma retryWithBackoff_propagates_examples :
  retryWithBackoff (flaky 0 (ErrorObj "HTTP error! status: 500")) 3 1000 false [] =
    (Throw (ErrorObj "HTTP error! status: 500"), [Invoked 0]) /\
  retryWithBackoff (flaky 2 (ErrorObj "socket hang up")) 3 1000 false [] =
    (Throw (ErrorObj "socket hang up"),
     [Invoked 0; Delayed 1000; Invoked 1; Delayed 2000; Invoked 2]) /\
  retryWithBackoff (flaky 9 (ErrorObj "unused")) 3 1000 false [] =
    (Throw (ErrorObj "HTTP 429 TooManyRequests"),
     [Invoked 0; Delayed 1000; Invoked 1; Delayed 2000; Invoked 2; Delayed 4000;
      Invoked 3]).
Proof.
  split; [| split].
  - apply (retryWithBackoff_propagates
             (flaky 0 (ErrorObj "HTTP error! status: 500")) 3 1000 false 0%nat).
    + lia.
    + intros j Hj. lia.
    + reflexivity.
    + right. reflexivity.
  - apply (retryWithBackoff_propagates
             (flaky 2 (ErrorObj "socket hang up")) 3 1000 false 2%nat).
    + lia.
    + intros j Hj. exists (ErrorObj "HTTP 429 TooManyRequests").
      assert (j = 0 \/ j = 1) as [-> | ->] by lia; split; reflexivity.
    + reflexivity.
    + right. reflexivity.
  - apply (retryWithBackoff_propagates
             (flaky 9 (ErrorObj "unused")) 3 1000 false 3%nat).
    + lia.
    + intros j Hj. exists (ErrorObj "HTTP 429 TooManyRequests").
      assert (j = 0 \/ j = 1 \/ j = 2) as [-> | [-> | ->]] by lia; split; reflexivity.
    + reflexivity.
    + left. reflexivity.
Defined.

End RetryExamples.

(** ** The scheduler *)

Section SchedulerProps.
Import JS Effects TaskScheduler Notions.

(** C9. For a task that was never registered, [updateTaskInterval] returns
    normally, adds one warning to the log, and leaves the task
    configurations, the task statuses, the armed timers, the operation
    queue and every other field as they were. *)
Theorem updateTaskInterval_unknown_task
    (taskId : string) (newIntervalMinutes : Z) (s : Scheduler) :
  taskConfigs s !! taskId = None ->
  exists s',
    updateTaskInterval taskId newIntervalMinutes s = (Normal tt, s') /\
    sameButLog s s' /\
    logged s' =
      (logged s ++
       [{| log_message := "Cannot update interval: task '" +:+ taskId +:+ "' not found";
           log_source := LOG_SOURCE; log_level := WARNING |}])%list.
Proof.
  intros Hnone. unfold updateTaskInterval, bind, get. rewrite Hnone.
  eexists. split; [reflexivity |]. split; [| reflexivity].
  repeat split.
Qed.

Lemma updateTaskInterval_unknown_task_example :
  taskConfigs oneTaskScheduler !! "evohome:overrideReset" = None /\
  exists s',
    updateTaskInterval "evohome:overrideReset" 10 oneTaskScheduler = (Normal tt, s') /\
    taskConfigs s' = taskConfigs oneTaskScheduler /\
    taskStatuses s' = taskStatuses oneTaskScheduler /\
    timers s' = timers oneTaskScheduler /\
    armed s' = armed oneTaskScheduler /\
    operationQueue s' = operationQueue oneTaskScheduler.
Proof.
  assert (H : taskConfigs oneTaskScheduler !! "evohome:overrideReset" = None)
    by (vm_compute; reflexivity).
  split; [exact H |].
  destruct (updateTaskInterval_unknown_task "evohome:overrideReset" 10 oneTaskScheduler H)
    as (s' & Hrun & (Hc & Hs & Ht & Hq & _ & _ & Ha & _) & _).
  exists s'. repeat split; assumption.
Defined.

End SchedulerProps.

Section ExecuteTaskProps.
Import JS Effects TaskScheduler Notions.
Variable handlers : nat -> M Scheduler unit.

Lemma scheduleNextRun_arms (taskId : string) (s : Scheduler)
    (config : TaskConfig) (status : TaskStatus) :
  taskConfigs s !! taskId = Some config ->
  taskStatuses s !! taskId = Some status ->
  exists s',
    scheduleNextRun taskId s = (Normal tt, s') /\
    taskStatuses s' =
      alter (set_nextRun
               (Some (num_add (Some (clock s))
                        (nextRunDelay (st_intervalMinutes status) (clock s)))))
            taskId (taskStatuses s) /\
    timers s' !! taskId = Some (nextHandle s) /\
    In {| handle := nextHandle s;
          fireAt := clock s + timerDelay (nextRunDelay (st_intervalMinutes status) (clock s));
          callback := TaskDue taskId |} (armed s').
Proof.
  intros Hc Hs. unfold scheduleNextRun, bind, get. rewrite Hc, Hs.
  eexists. split; [reflexivity |]. cbn. split; [reflexivity |].
  split; [apply lookup_insert_eq |].
  apply in_or_app. right. left. reflexivity.
Qed.

(** Containment.  For a registered task, whatever its handler does and
    however it settles, [executeTask] completes normally.  The task's status is then
    OK with an empty detail when the handler resolved, and Failed with the
    error's message as detail when it threw; in both cases [lastRun] is
    the instant the handler settled, [nextRun] is that instant plus the
    delay [scheduleNextRun] computes from the task's interval, and a timer
    for the task's next run is armed with that delay. *)
Theorem executeTask_contains_failure
    (taskId : string) (s s2 : Scheduler) (config : TaskConfig)
    (outcome : Completion unit) (status2 : TaskStatus) :
  taskConfigs s !! taskId = Some config ->
  is_Some (taskStatuses s !! taskId) ->
  handlers (cfg_handler config) (markRunning taskId s) = (outcome, s2) ->
  is_Some (taskConfigs s2 !! taskId) ->
  taskStatuses s2 !! taskId = Some status2 ->
  exists s',
    executeTask handlers taskId s = (Normal tt, s') /\
    taskStatuses s' !! taskId = Some (settled outcome (clock s2) status2) /\
    exists h,
      timers s' !! taskId = Some h /\
      In {| handle := h;
            fireAt := clock s2
                      + timerDelay (nextRunDelay (st_intervalMinutes status2) (clock s2));
            callback := TaskDue taskId |} (armed s').
Proof.
  intros Hc [status Hs] Hrun [config2 Hc2] Hs2.
  unfold executeTask. unfold bind at 1, get at 1. rewrite Hc, Hs.
  unfold onStatus at 1 2 3. unfold bind at 1 2 3, modify at 1 2 3.
  fold (markRunning taskId s).
  unfold tryCatchFinally. unfold bind at 1. rewrite Hrun.
  destruct outcome as [[] | e].
  - unfold onStatus, bind, modify, get, ret. cbn -[scheduleNextRun alter].
    match goal with
    | |- context [scheduleNextRun taskId ?st] =>
        destruct (scheduleNextRun_arms taskId st config2
                    (set_lastRun (Some (clock s2))
                       (set_statusDetail "" (set_status OK status2))))
          as (s' & Hrun' & Hst' & Htm & Harm)
    end.
    + exact Hc2.
    + cbn. rewrite !lookup_alter_eq, Hs2. reflexivity.
    + rewrite Hrun'. exists s'. split; [reflexivity |]. split.
      * rewrite Hst'. cbn. rewrite !lookup_alter_eq, Hs2. reflexivity.
      * exists (nextHandle s2). split; [exact Htm | exact Harm].
  - unfold onStatus, writeLog, bind, modify, get, ret. cbn -[scheduleNextRun alter].
    match goal with
    | |- context [scheduleNextRun taskId ?st] =>
        destruct (scheduleNextRun_arms taskId st config2
                    (set_lastRun (Some (clock s2))
                       (set_statusDetail (errorText e) (set_status Failed status2))))
          as (s' & Hrun' & Hst' & Htm & Harm)
    end.
    + exact Hc2.
    + cbn. rewrite !lookup_alter_eq, Hs2. reflexivity.
    + rewrite Hrun'. exists s'. split; [reflexivity |]. split.
      * rewrite Hst'. cbn. rewrite !lookup_alter_eq, Hs2. reflexivity.
      * exists (nextHandle s2). split; [exact Htm | exact Harm].
Qed.

End ExecuteTaskProps.

Section ExecuteTaskExamples.
Import JS Effects TaskScheduler Notions.

Lemma executeTask_contains_failure_example :
  exists s',
    executeTask failingHandler "evohome:zoneStatus" oneTaskScheduler = (Normal tt, s') /\
    (st_status <$> taskStatuses s' !! "evohome:zoneStatus") = Some Failed /\
    (st_statusDetail <$> taskStatuses s' !! "evohome:zoneStatus")
      = Some "HTTP error! status: 503" /\
    (st_lastRun <$> taskStatuses s' !! "evohome:zoneStatus")
      = Some (Some (wallClock 0 12 3 12 0)) /\
    (st_totalRuns <$> taskStatuses s' !! "evohome:zoneStatus") = Some 1 /\
    is_Some (timers s' !! "evohome:zoneStatus").
Proof.
  destruct (executeTask_contains_failure failingHandler
              "evohome:zoneStatus" oneTaskScheduler
              (snd (failingHandler 0%nat (markRunning "evohome:zoneStatus" oneTaskScheduler)))
              zoneStatusTask
              (Throw (ErrorObj "HTTP error! status: 503"))
              {| st_taskId := "evohome:zoneStatus"; st_lastRun := None; st_nextRun := None;
                 st_status := Running; st_statusDetail := ""; st_intervalMinutes := 5;
                 st_totalRuns := 1 |})
    as (s' & Hrun & Hst & h & Hh & _).
  - vm_compute. reflexivity.
  - eexists. vm_compute. reflexivity.
  - reflexivity.
  - eexists. vm_compute. reflexivity.
  - vm_compute. reflexivity.
  - exists s'. split; [exact Hrun |]. rewrite Hst, Hh.
    repeat split; eexists; reflexivity.
Defined.

(** C8, at a failing run.  The zone-status task, due every 5 minutes, is
    run at 12:03:10.000 with a handler that rejects two seconds later.
    [executeTask] completes normally, the status is Failed with the
    error's message, [lastRun] is 12:03:12.000 and one timer is armed for
    the task, which queues the task again when it fires.  But the run
    that timer and [nextRun] stand for is 12:05:01.000, one second past
    the aligned 12:05:00.000. *)
Theorem executeTask_arms_one_second_late :
  let run := executeTask failingHandler "evohome:zoneStatus" oneTaskScheduler in
  fst run = Normal tt /\
  taskStatuses (snd run) !! "evohome:zoneStatus" =
    Some {| st_taskId := "evohome:zoneStatus";
            st_lastRun := Some (wallClock 0 12 3 12 0);
            st_nextRun := Some (Some (wallClock 0 12 5 1 0));
            st_status := Failed;
            st_statusDetail := "HTTP error! status: 503";
            st_intervalMinutes := 5;
            st_totalRuns := 1 |} /\
  armed (snd run) =
    [{| handle := 0%nat; fireAt := wallClock 0 12 5 1 0;
        callback := TaskDue "evohome:zoneStatus" |}] /\
  timers (snd run) !! "evohome:zoneStatus" = Some 0%nat /\
  wallClock 0 12 5 1 0 = wallClock 0 12 5 0 0 + 1000 /\
  queuedIds (snd ((tick 109000 ;;; taskDue "evohome:zoneStatus")%js (snd run)))
    = ["evohome:zoneStatus"].
Proof.
  cbv zeta.
  split; [vm_compute; reflexivity |]. split; [vm_compute; reflexivity |].
  split; [vm_compute; reflexivity |]. split; [vm_compute; reflexivity |].
  split; vm_compute; reflexivity.
Qed.

End ExecuteTaskExamples.

(** ** Sessions and tokens *)

Section AuthProps.
Import JS Effects Auth Notions.
Variable remoteV2 : Date -> Credentials -> V2Response * Z.
Variable remoteV1 : Date -> Credentials -> V1Response * Z.
Variable lateness : Z.

Lemma newEvents_app (a a' : AuthManager) (k : list Event) :
  events a' = (events a ++ k)%list -> newEvents a a' = k.
Proof. intros E. unfold newEvents. rewrite E. apply drop_app_length. Qed.

Ltac run_auth :=
  unfold sleep, tell, fetchV2, fetchV1, stat, emit, now, throw, bind, modify, get, ret;
  cbn [fst snd events with_events with_clock with_lastAuthFailure
       with_authFailureCount with_cachedV2Session with_cachedV1Token
       clock apiStatsTracker lastAuthFailure authFailureCount
       cachedV2Session cachedV1Token].

Lemma getV2Session_requests (config : Credentials) (logger : bool)
    (tempConfig : option Credentials) (a : AuthManager) :
  exists k,
    events (snd (getV2Session remoteV2 lateness config logger tempConfig a))
      = (events a ++ k)%list /\
    forall t, In t (authInstants k) -> t = issueInstant lateness a.
Proof using remoteV2 lateness.
  clear remoteV1. unfold getV2Session, issueInstant. unfold bind at 1, get at 1.
  assert (Hrest :
    forall cfg, exists k,
      events (snd (
        ((if 0 <? getAuthRetryDelay a then sleep lateness (getAuthRetryDelay a) else ret tt) ;;;
         tell logger "🔐 Authenticating..." ;;;
         response <- fetchV2 remoteV2 cfg ;;
         match response with
         | V2NetworkError e => throw e
         | V2NotOk status body =>
             t <- now ;;
             modify (with_lastAuthFailure (Some t)) ;;;
             a' <- get ;;
             modify (with_authFailureCount (authFailureCount a' + 1)) ;;;
             stat (RecordAuthFailure v2) ;;;
             throw (ErrorObj
               match body with
               | Normal (Some message) =>
                   if String.eqb message "" then "HTTP error! status: " +:+ pretty status
                   else message
               | _ => "HTTP error! status: " +:+ pretty status
               end)
         | V2Ok userID sid =>
             modify (with_authFailureCount 0) ;;;
             modify (with_lastAuthFailure None) ;;;
             stat (RecordAuth v2) ;;;
             match tempConfig with
             | None =>
                 modify (with_cachedV2Session (Some {| userId := userID; sessionId := sid |})) ;;;
                 tell logger "✅ Authentication successful, session cached"
             | Some _ =>
                 tell logger "✅ Authentication successful (test mode - not cached)"
             end ;;;
             ret {| userId := userID; sessionId := sid |}
         end)%js a)) = (events a ++ k)%list /\
      forall t, In t (authInstants k) ->
        t = if 0 <? getAuthRetryDelay a
            then clock a + getAuthRetryDelay a + lateness else clock a).
  { intros cfg.
    destruct (0 <? getAuthRetryDelay a); destruct logger; run_auth;
      match goal with |- context [remoteV2 ?t ?c] => destruct (remoteV2 t c) as [[e | st body | uid sid] took] end;
      run_auth; destruct (apiStatsTracker a); destruct tempConfig; run_auth;
      rewrite <- ?app_assoc; (eexists; split; [reflexivity |]);
      cbn; intros t Hin; intuition. }
  destruct (cachedV2Session a) as [session |]; [destruct tempConfig as [tc |] |].
  - apply Hrest.
  - exists (if logger then [LoggerLine "🔑 Using cached session"] else []).
    destruct logger; run_auth; split; try reflexivity; try (intros t []).
    rewrite app_nil_r. reflexivity.
  - destruct tempConfig; apply Hrest.
Qed.

(** The V2 session path observes the backoff: every authentication
    request leaves no earlier than [30 s * 2 ^ min (authFailureCount - 1, 3)]
    after the last recorded failure, whatever the service answers and
    however late the timer fires. *)
Theorem getV2Session_observes_backoff (config : Credentials) (logger : bool)
    (tempConfig : option Credentials) (a : AuthManager) :
  0 <= lateness ->
  backoffObserved a (snd (getV2Session remoteV2 lateness config logger tempConfig a)).
Proof using remoteV2 lateness.
  intros Hlate failure Hf t Hin.
  destruct (getV2Session_requests config logger tempConfig a) as (k & Hev & Hk).
  rewrite (newEvents_app _ _ k Hev) in Hin. apply Hk in Hin. subst t.
  unfold issueInstant, getAuthRetryDelay. rewrite Hf.
  destruct (Z.ltb_spec (clock a - failure) (requiredDelay (authFailureCount a)));
    [destruct (Z.ltb_spec 0 (requiredDelay (authFailureCount a) - (clock a - failure)))
    | rewrite Z.ltb_irrefl]; lia.
Qed.

Lemma getV1Token_requests (config : Credentials) (a : AuthManager) :
  ~ tokenUsable a ->
  exists k,
    events (snd (getV1Token remoteV1 config a)) = (events a ++ k)%list /\
    authInstants k = [clock a].
Proof.
  intros Hno. unfold getV1Token. unfold bind at 1, get at 1.
  assert (Hmiss :
    match cachedV1Token a with
    | Some c => if clock a <? expiresAt c then Some (token c) else None
    | None => None
    end = None).
  { destruct (cachedV1Token a) as [c |] eqn:Ec; [| reflexivity].
    destruct (Z.ltb_spec (clock a) (expiresAt c)); [| reflexivity].
    exfalso. apply Hno. exists c. split; [exact Ec | assumption]. }
  rewrite Hmiss. run_auth.
  destruct (remoteV1 (clock a) config) as [[e | st txt | tok life] took];
    run_auth; destruct (apiStatsTracker a); run_auth;
    rewrite <- ?app_assoc; (eexists; split; [reflexivity | reflexivity]).
Qed.

(** C6. While the present instant is before the cached token's
    [expiresAt], [getV1Token] returns that token and sends nothing.  From
    the instant [expiresAt] on, and when no token is cached, it sends
    exactly one authentication request; when the service grants a token,
    that token is returned and cached with [expiresAt] set to the instant
    of the answer plus the granted lifetime less 300 seconds. *)
Theorem getV1Token_cached_until_expiry (config : Credentials) (a : AuthManager) :
  (forall c, cachedV1Token a = Some c -> clock a < expiresAt c ->
     getV1Token remoteV1 config a = (Normal (token c), a)) /\
  (~ tokenUsable a ->
     authenticateCalls (newEvents a (snd (getV1Token remoteV1 config a))) = 1%nat /\
     forall tok life took,
       remoteV1 (clock a) config = (V1Ok tok life, took) ->
       fst (getV1Token remoteV1 config a) = Normal tok /\
       cachedV1Token (snd (getV1Token remoteV1 config a)) =
         Some {| token := tok;
                 expiresAt := (clock a + took) + (life - 300) * 1000 |}).
Proof.
  split.
  - intros c Hc Hlt. unfold getV1Token. unfold bind at 1, get at 1. rewrite Hc.
    destruct (Z.ltb_spec (clock a) (expiresAt c)); [reflexivity | lia].
  - intros Hno. split.
    + destruct (getV1Token_requests config a Hno) as (k & Hev & Hk).
      rewrite (newEvents_app _ _ k Hev). unfold authenticateCalls. rewrite Hk. reflexivity.
    + intros tok life took Hgrant.
      assert (Hmiss :
        match cachedV1Token a with
        | Some c => if clock a <? expiresAt c then Some (token c) else None
        | None => None
        end = None).
      { destruct (cachedV1Token a) as [c |] eqn:Ec; [| reflexivity].
        destruct (Z.ltb_spec (clock a) (expiresAt c)); [| reflexivity].
        exfalso. apply Hno. exists c. split; [exact Ec | assumption]. }
      unfold getV1Token. run_auth. rewrite Hmiss, Hgrant. run_auth.
      destruct (apiStatsTracker a); run_auth; split; reflexivity.
Qed.

End AuthProps.

Section AuthExamples.
Import JS Effects Auth Notions.

(** After three refused attempts the fourth request leaves 120 s after the
    last failure. *)
Lemma getV2Session_observes_backoff_example :
  lastAuthFailure afterThreeFailures = Some 90300 /\
  authFailureCount afterThreeFailures = 3 /\
  requiredDelay 3 = 120000 /\
  authInstants (newEvents afterThreeFailures
    (snd (getV2Session refusingV2 0 sampleCredentials false None afterThreeFailures)))
    = [210300] /\
  backoffObserved afterThreeFailures
    (snd (getV2Session refusingV2 0 sampleCredentials false None afterThreeFailures)).
Proof.
  split; [reflexivity |]. split; [reflexivity |]. split; [reflexivity |].
  split; [reflexivity |].
  apply (getV2Session_observes_backoff refusingV2 0 sampleCredentials false None
           afterThreeFailures).
  lia.
Defined.

(** Not both paths observe the backoff: in the window that three refused
    attempts opened, [getV1Token] sends its request at once. *)
Lemma getV1Token_ignores_backoff :
  ~ (forall (remoteV2 : Date -> Credentials -> V2Response * Z)
            (remoteV1 : Date -> Credentials -> V1Response * Z)
            (lateness : Z) (config : Credentials) (logger : bool)
            (tempConfig : option Credentials) (a : AuthManager),
       0 <= lateness ->
       backoffObserved a (snd (getV2Session remoteV2 lateness config logger tempConfig a)) /\
       backoffObserved a (snd (getV1Token remoteV1 config a))).
Proof.
  intros H.
  destruct (H refusingV2 grantingV1 0 sampleCredentials false None afterThreeFailures
              ltac:(lia)) as [_ Hv1].
  specialize (Hv1 90300 eq_refl 90300 ltac:(left; reflexivity)).
  vm_compute in Hv1. apply Hv1. reflexivity.
Qed.

(** C3, at a fourth attempt made through the V1 token path.  Three
    refused V2 attempts leave the last failure at 90300 ms and a count of
    3, so that 120 s are to pass before the next attempt.  [getV1Token],
    called at that very instant, sends its request at once, at 90300 ms,
    where [getV2Session] in the same state sends its own at 210300 ms. *)
Theorem getV1Token_sends_within_backoff :
  lastAuthFailure afterThreeFailures = Some 90300 /\
  authFailureCount afterThreeFailures = 3 /\
  clock afterThreeFailures = 90300 /\
  getAuthRetryDelay afterThreeFailures = 120000 /\
  authInstants
    (newEvents afterThreeFailures
       (snd (getV1Token grantingV1 sampleCredentials afterThreeFailures))) = [90300] /\
  authInstants
    (newEvents afterThreeFailures
       (snd (getV2Session refusingV2 0 sampleCredentials false None afterThreeFailures)))
    = [210300].
Proof.
  split; [vm_compute; reflexivity |]. split; [vm_compute; reflexivity |].
  split; [vm_compute; reflexivity |]. split; [vm_compute; reflexivity |].
  split; vm_compute; reflexivity.
Qed.

(** A token that expires 1 ms from now is served now, and replaced through
    one request once that instant has come. *)
Lemma getV1Token_cached_until_expiry_example :
  getV1Token grantingV1 sampleCredentials (holdingToken 5000 5001)
    = (Normal "token-1", holdingToken 5000 5001) /\
  fst (getV1Token grantingV1 sampleCredentials (holdingToken 5001 5001)) = Normal "token-2" /\
  authenticateCalls
    (newEvents (holdingToken 5001 5001)
       (snd (getV1Token grantingV1 sampleCredentials (holdingToken 5001 5001)))) = 1%nat /\
  cachedV1Token (snd (getV1Token grantingV1 sampleCredentials (holdingToken 5001 5001)))
    = Some {| token := "token-2"; expiresAt := 5101 + 3300000 |}.
Proof.
  pose proof (getV1Token_cached_until_expiry grantingV1 sampleCredentials
                (holdingToken 5000 5001)) as [Hhit _].
  pose proof (getV1Token_cached_until_expiry grantingV1 sampleCredentials
                (holdingToken 5001 5001)) as [_ Hmiss].
  assert (Hno : ~ tokenUsable (holdingToken 5001 5001)).
  { intros (c & Hc & Hlt). injection Hc as <-. cbn in Hlt. lia. }
  destruct (Hmiss Hno) as [Hone Hfresh].
  destruct (Hfresh "token-2" 3600 100 eq_refl) as [Hr Hc].
  split; [| split; [| split]].
  - apply (Hhit _ eq_refl). cbn. lia.
  - exact Hr.
  - exact Hone.
  - exact Hc.
Defined.

End AuthExamples.

(** ** The device cache *)

Section DeviceCacheProps.
Import JS Effects DeviceCache Notions.
Variable localeCompare : string -> string -> Z.

(** The zone setpoint is kept while its marker is recent. *)
Lemma mergeDevice_keeps_recent_setpoint
    (now stamp : Date) (cached : list Device) (existing incoming : Device)
    (kept fresh : HeatSetpoint) :
  List.find (fun d => sameId (deviceID d) (deviceID incoming)) cached = Some existing ->
  heatSetpointOf existing = Some kept ->
  heatSetpointOf incoming = Some fresh ->
  hs_value kept <> hs_value fresh ->
  hs_optimisticUpdateTime kept = Some stamp ->
  stamp <> 0 ->
  now - stamp < 5000 ->
  heatSetpointOf (mergeDevice now cached incoming) = Some kept.
Proof.
  intros Hfind Hk Hf Hne Hst Hnz Hrecent. unfold mergeDevice.
  rewrite Hfind, Hk, Hf, Hst. cbn [truthyTime default from_option]. unfold id.
  destruct (Z.eqb_spec (hs_value kept) (hs_value fresh)) as [E | _]; [contradiction |].
  destruct (Z.eqb_spec stamp 0) as [E | _]; [contradiction |]. cbn [negb andb].
  destruct (Z.ltb_spec (now - stamp) 5000) as [_ | ?]; [| lia].
  unfold heatSetpointOf in Hf |- *. unfold assignHeatSetpoint.
  destruct (thermostat incoming) as [t |]; [| discriminate].
  destruct (changeableValues t) as [cv |]; [| discriminate].
  reflexivity.
Qed.

(** From 5 seconds on the incoming device is taken as it comes. *)
Lemma mergeDevice_takes_incoming_after_5s
    (now stamp : Date) (cached : list Device) (existing incoming : Device)
    (kept : HeatSetpoint) :
  List.find (fun d => sameId (deviceID d) (deviceID incoming)) cached = Some existing ->
  heatSetpointOf existing = Some kept ->
  hs_optimisticUpdateTime kept = Some stamp ->
  5000 <= now - stamp ->
  mergeDevice now cached incoming = incoming.
Proof.
  intros Hfind Hk Hst Hold. unfold mergeDevice. rewrite Hfind, Hk, Hst.
  destruct (heatSetpointOf incoming) as [fresh |]; [| reflexivity].
  cbn [default from_option]. unfold id.
  destruct (Z.ltb_spec (now - stamp) 5000) as [? | _]; [lia |].
  destruct (negb _ && _); reflexivity.
Qed.

(** C2, at a hot-water boost.  One second after [updateDHWState] stamped
    the cached hot-water values with mode DHWOn and status Temporary, a
    snapshot that still reports DHWOff and Scheduled replaces them: the
    merge only ever looks at [heatSetpoint]. *)
Theorem setDevices_overwrites_recent_DHW_state :
  changeableValuesOf <$> (deviceCache boostedCache ≫= head) =
    Some (Some {| cv_heatSetpoint := None; cv_mode := Some "DHWOn"; cv_state := None;
                  cv_status := Some "Temporary"; cv_nextTime := None;
                  cv_optimisticUpdateTime := Some noon |}) /\
  deviceCache (setDevices (noon + 1000) [hotWater "DHWOff" "Scheduled"] boostedCache) =
    Some [hotWater "DHWOff" "Scheduled"].
Proof. split; reflexivity. Qed.

(** C10. When the device is in the cache with a heat setpoint and no
    scheduled temperature is found for it, [updateDeviceState] with
    temperature 0 and status Scheduled completes normally and replaces the
    device by one whose setpoint keeps its value, has status Scheduled and
    is stamped with the present instant; the rest of that device, the
    other devices and the cached schedules stay as they were. *)
Theorem updateDeviceState_keeps_value_without_schedule
    (now : Date) (deviceId : Z) (c : DeviceCacheService)
    (devices : list Device) (i : nat) (device : Device) (hs : HeatSetpoint) :
  deviceCache c = Some devices ->
  list_find (fun d => deviceID d = Some deviceId) devices = Some (i, device) ->
  heatSetpointOf device = Some hs ->
  getScheduledTemperature localeCompare (pretty deviceId) now c = None ->
  exists device',
    updateDeviceState localeCompare now deviceId 0 "Scheduled" c =
      (Normal tt,
       {| deviceCache := Some (<[i := device']> devices);
          zoneSchedules := zoneSchedules c |}) /\
    heatSetpointOf device' =
      Some {| hs_value := hs_value hs; hs_status := "Scheduled";
              hs_optimisticUpdateTime := Some now |} /\
    withoutHeatSetpoint device' = withoutHeatSetpoint device.
Proof.
  intros Hcache Hfind Hhs Hnone.
  unfold updateDeviceState. unfold bind at 1, get at 1.
  rewrite Hcache, Hfind, Hnone. cbn [Z.eqb andb String.eqb].
  unfold heatSetpointOf in Hhs.
  destruct device as [nm ty [t |] id gw]; cbn in Hhs; [| discriminate].
  destruct t as [temp tstatus [cv |]]; cbn in Hhs; [| discriminate].
  destruct cv as [sp md stt sts nt mark]; cbn in Hhs. subst sp.
  eexists. split; [| split].
  - unfold storeDevice, modify. cbn. rewrite Hcache. reflexivity.
  - reflexivity.
  - reflexivity.
Qed.

End DeviceCacheProps.

Section DeviceCacheExamples.
Import JS Effects DeviceCache Notions.

Lemma updateDeviceState_keeps_value_without_schedule_example :
  getScheduledTemperature codeCompare "101" (noon + 60000) zoneCache = None /\
  exists c',
    updateDeviceState codeCompare (noon + 60000) 101 0 "Scheduled" zoneCache
      = (Normal tt, c') /\
    heatSetpointOf <$> (deviceCache c' ≫= (.!! 1%nat)) =
      Some (Some {| hs_value := 2350; hs_status := "Scheduled";
                    hs_optimisticUpdateTime := Some (noon + 60000) |}).
Proof.
  split; [reflexivity |].
  destruct (updateDeviceState_keeps_value_without_schedule codeCompare
              (noon + 60000) 101 zoneCache
              [hotWater "DHWOff" "Scheduled"; zone 101 2350 "Temporary"] 1%nat
              (zone 101 2350 "Temporary")
              {| hs_value := 2350; hs_status := "Temporary";
                 hs_optimisticUpdateTime := None |}
              eq_refl eq_refl eq_refl eq_refl)
    as (device' & Hrun & Hsp & _).
  eexists. split; [exact Hrun |]. cbn. rewrite Hsp. reflexivity.
Defined.

End DeviceCacheExamples.

Section TimerProps.
Import JS Effects TaskScheduler Notions.

(** The scheduler's own methods never drop a task: once registered, a task
    keeps its configuration and its status, which is what the property of
    [executeTask] asks of the handler's run. *)
Lemma updateTaskInterval_keeps_registered
    (taskId other : string) (newIntervalMinutes : Z) (s : Scheduler) :
  registered taskId s ->
  registered taskId (snd (updateTaskInterval other newIntervalMinutes s)).
Proof.
  intros [Hc Hs]. unfold updateTaskInterval, bind, get.
  destruct (taskConfigs s !! other) as [config |];
    [destruct (taskStatuses s !! other) as [status |] |]; try (split; assumption).
  destruct (newIntervalMinutes =? st_intervalMinutes status); [split; assumption |].
  destruct (num_lt _ _).
  - unfold writeLog, onConfig, onStatus, scheduleTask, bind, modify, get, ret.
    cbn -[alter insert num_lt]. rewrite !lookup_alter_eq.
    destruct (taskConfigs s !! other) as [c' |] eqn:Ec; cbn -[alter insert];
      [destruct (taskStatuses s !! other) as [st' |] eqn:Es; cbn -[alter insert] |].
    + destruct (timers s !! other); unfold registered; cbn -[alter insert];
        rewrite !lookup_alter_is_Some; split; assumption.
    + unfold registered; cbn -[alter insert]; rewrite !lookup_alter_is_Some; split; assumption.
    + unfold registered; cbn -[alter insert]; rewrite !lookup_alter_is_Some; split; assumption.
  - unfold writeLog, onConfig, onStatus, bind, modify, get, ret.
    unfold registered; cbn -[alter insert]. rewrite !lookup_alter_is_Some. split; assumption.
Qed.

Lemma registerTask_keeps_registered (taskId : string) (config : TaskConfig) (s : Scheduler) :
  registered taskId s ->
  registered taskId (snd (registerTask config s)).
Proof.
  intros [Hc Hs]. unfold registerTask, bind, get.
  destruct (taskConfigs s !! cfg_taskId config) eqn:E; [split; assumption |].
  unfold writeLog, modify, throw, ret, registered. cbn -[insert].
  rewrite !lookup_insert_is_Some. split; destruct (decide (cfg_taskId config = taskId)); auto.
Qed.

(** What arming buys: when the timer of a registered task fires, the task
    is marked Pending and is in the operation queue. *)
Lemma taskDue_enqueues (taskId : string) (s : Scheduler) (config : TaskConfig) :
  taskConfigs s !! taskId = Some config ->
  fst (taskDue taskId s) = Normal tt /\
  (exists item, In item (operationQueue (snd (taskDue taskId s))) /\ op_taskId item = taskId) /\
  st_status <$> taskStatuses (snd (taskDue taskId s)) !! taskId =
    (fun _ => Pending) <$> taskStatuses s !! taskId.
Proof.
  intros Hc.
  unfold taskDue, queueOperation, onStatus, writeLog, setTimeout, clearTimeout,
    bind, modify, get, ret.
  rewrite Hc. cbn -[alter existsb filter].
  destruct (existsb _ (operationQueue s)) eqn:Eq.
  - cbn -[alter filter]. split; [reflexivity |]. split.
    + apply existsb_exists in Eq. destruct Eq as (item & Hin & E).
      exists item. split; [exact Hin | apply String.eqb_eq; exact E].
    + rewrite !lookup_alter_eq. destruct (taskStatuses s !! taskId); reflexivity.
  - destruct (queueProcessingTimer s); cbn -[alter filter]; (split; [reflexivity |]); split;
      try (eexists; split; [apply in_or_app; right; left; reflexivity | reflexivity]);
      rewrite !lookup_alter_eq; destruct (taskStatuses s !! taskId); reflexivity.
Qed.

End TimerProps.

(** * Further properties of the code *)

(** ** Time windows and names *)

Section MoreTimeWindowProps.
Import JS TimeUtils Notions.

(** X1. For a window that does not cross midnight, [isWithinTimeWindow] is
    true exactly when the minute of the day lies between start and end,
    both included, and today's weekday is one of the window's days. *)
Theorem isWithinTimeWindow_same_day (w : TimeWindow) (now : Date) (s e : Z) :
  timeToMinutes (start w) = Some s ->
  timeToMinutes (end_ w) = Some e ->
  s <= e ->
  isWithinTimeWindow w now = true <->
    (s <= minuteOfDay now <= e /\ dayListed w (today now)).
Proof.
  intros Hs He Hle.
  unfold isWithinTimeWindow, dayListed, today, minuteOfDay.
  rewrite Hs, He. cbn [num_lt num_le num_ge].
  destruct (Z.ltb_spec e s) as [? | _]; [lia |].
  set (m := getHours now * 60 + getMinutes now).
  destruct (Z.leb_spec s m) as [Hsm | Hsm]; destruct (Z.leb_spec m e) as [Hme | Hme];
    cbn [andb]; try rewrite arrayIncludes_In;
    split; try discriminate; try (intros [? _]; lia); try tauto.
Qed.

Lemma isWithinTimeWindow_same_day_example :
  isWithinTimeWindow
    {| days := ["Monday"; "friday"]; start := "09:00"; end_ := "17:00" |}
    (wallClock 4 17 0 59 0) = true.
Proof.
  apply (isWithinTimeWindow_same_day _ _ 540 1020); [reflexivity | reflexivity | lia |].
  split; [vm_compute; split; discriminate | left; reflexivity].
Defined.

Lemma strangeLetter_no_digit (c : ascii) :
  strangeLetter c = true -> digitValue c = None.
Proof.
  destruct c as [[] [] [] [] [] [] [] []]; intros H; (reflexivity || discriminate H).
Qed.

Lemma Number_strange (s : string) : hasStrangeLetter s = true -> Number s = None.
Proof.
  unfold Number, hasStrangeLetter. generalize 0.
  induction s as [| c r IH]; intros acc H; [discriminate |].
  cbn [list_ascii_of_string existsb] in H. cbn [digits].
  destruct (strangeLetter c) eqn:Ec.
  - rewrite (strangeLetter_no_digit c Ec). reflexivity.
  - destruct (digitValue c); [apply IH; exact H | reflexivity].
Qed.

Lemma timeToMinutes_unreadable (timeStr : string) :
  unreadable timeStr -> timeToMinutes timeStr = None.
Proof.
  unfold unreadable, timeToMinutes.
  destruct (split ":" timeStr) as [| hours [| minutes rest]]; cbn [map]; try reflexivity.
  intros [H | H]; rewrite (Number_strange _ H); [reflexivity |].
  destruct (Number hours); reflexivity.
Qed.

(** X2. A window whose start or end has no colon, or holds in its hour or
    minute field a letter that no number is written with, never matches:
    its minutes are [NaN] and every comparison with them fails. *)
Theorem isWithinTimeWindow_unreadable (w : TimeWindow) (now : Date) :
  unreadable (start w) \/ unreadable (end_ w) ->
  isWithinTimeWindow w now = false.
Proof.
  intros H.
  assert (H' : timeToMinutes (start w) = None \/ timeToMinutes (end_ w) = None).
  { destruct H as [H | H]; [left | right]; apply timeToMinutes_unreadable; exact H. }
  unfold isWithinTimeWindow, num_ge.
  destruct (timeToMinutes (start w)) as [s |], (timeToMinutes (end_ w)) as [e |];
    cbn [num_lt num_le]; try reflexivity.
  - destruct H'; discriminate.
  - rewrite andb_false_r. reflexivity.
Qed.

Lemma isWithinTimeWindow_unreadable_example :
  isWithinTimeWindow {| days := ["monday"]; start := "9pm:00"; end_ := "23:00" |}
    (wallClock 4 22 0 0 0) = false /\
  isWithinTimeWindow {| days := ["monday"]; start := "09:00"; end_ := "17.00" |}
    (wallClock 4 12 0 0 0) = false.
Proof.
  split; apply isWithinTimeWindow_unreadable.
  - left. cbn. left. reflexivity.
  - right. exact I.
Defined.

Lemma split_cons (sep : ascii) (s : string) :
  exists h t, split sep s = h :: t.
Proof.
  destruct s as [| c r]; cbn; [eauto |].
  destruct (Ascii.eqb c sep); [eauto |]. destruct (split sep r); eauto.
Qed.

Lemma join_two (sep x y : string) (l : list string) :
  join sep (x :: y :: l) = x +:+ sep +:+ join sep (y :: l).
Proof. reflexivity. Qed.

(** [toCamelCase] read as one pass over the characters. *)
Lemma toCamelCase_one_pass (s : string) :
  toCamelCase s = capitalised true s.
Proof.
  unfold toCamelCase.
  set (cap := fun word => toUpperCase (charAt0 word) +:+ toLowerCase (slice1 word)).
  assert (H : forall r h t, split " " r = h :: t ->
            join " " (cap h :: map cap t) = capitalised true r /\
            join " " (toLowerCase h :: map cap t) = capitalised false r).
  { induction r as [| c r IH]; intros h t E; cbn in E.
    - injection E as <- <-. split; reflexivity.
    - destruct (split_cons " " r) as (h' & t' & E').
      destruct (IH h' t' E') as [IHc IHl].
      rewrite E' in E. cbn [capitalised].
      destruct (Ascii.eqb c " ") eqn:Ec.
      + apply Ascii.eqb_eq in Ec. subst c.
        injection E as <- <-. cbn [map]. rewrite !join_two, IHc.
        split; reflexivity.
      + injection E as <- <-. split.
        * rewrite <- IHl. unfold cap at 1. cbn [charAt0 slice1 toUpperCase toLowerCase].
          destruct (map cap t'); reflexivity.
        * rewrite <- IHl. cbn [toLowerCase].
          destruct (map cap t'); reflexivity. }
  destruct (split_cons " " s) as (h & t & E). rewrite E. cbn [map].
  apply (H s h t E).
Qed.

Lemma lowerAscii_idem (c : ascii) : lowerAscii (lowerAscii c) = lowerAscii c.
Proof. destruct c as [[] [] [] [] [] [] [] []]; reflexivity. Qed.

Lemma upperAscii_idem (c : ascii) : upperAscii (upperAscii c) = upperAscii c.
Proof. destruct c as [[] [] [] [] [] [] [] []]; reflexivity. Qed.

Lemma lower_upper (c : ascii) : lowerAscii (upperAscii c) = lowerAscii c.
Proof. destruct c as [[] [] [] [] [] [] [] []]; reflexivity. Qed.

Lemma upper_lower (c : ascii) : upperAscii (lowerAscii c) = upperAscii c.
Proof. destruct c as [[] [] [] [] [] [] [] []]; reflexivity. Qed.

Lemma lower_blank (c : ascii) : Ascii.eqb (lowerAscii c) " " = Ascii.eqb c " ".
Proof. destruct c as [[] [] [] [] [] [] [] []]; reflexivity. Qed.

Lemma upper_blank (c : ascii) : Ascii.eqb (upperAscii c) " " = Ascii.eqb c " ".
Proof. destruct c as [[] [] [] [] [] [] [] []]; reflexivity. Qed.

Lemma capitalised_twice (b : bool) (s : string) :
  capitalised b (capitalised b s) = capitalised b s.
Proof.
  revert b. induction s as [| c r IH]; intros b; [reflexivity |].
  cbn [capitalised]. destruct (Ascii.eqb c " ") eqn:Ec.
  - cbn [capitalised]. rewrite Ec. f_equal. apply IH.
  - destruct b; cbn [capitalised].
    + rewrite upper_blank, Ec, upperAscii_idem. f_equal. apply IH.
    + rewrite lower_blank, Ec, lowerAscii_idem. f_equal. apply IH.
Qed.

Lemma capitalised_folded (b : bool) (s : string) :
  capitalised b (toLowerCase s) = capitalised b s /\
  capitalised b (toUpperCase s) = capitalised b s /\
  String.length (capitalised b s) = String.length s.
Proof.
  revert b. induction s as [| c r IH]; intros b; [repeat split |].
  cbn [capitalised toLowerCase toUpperCase String.length].
  rewrite lower_blank, upper_blank.
  destruct (Ascii.eqb c " ") eqn:Ec.
  - destruct (IH true) as (Hl & Hu & Hn).
    split; [| split]; [| | cbn [String.length]; f_equal; exact Hn].
    + f_equal; [| exact Hl]. apply Ascii.eqb_eq in Ec. subst c. reflexivity.
    + f_equal; [| exact Hu]. apply Ascii.eqb_eq in Ec. subst c. reflexivity.
  - destruct (IH false) as (Hl & Hu & Hn).
    split; [| split]; [| | cbn [String.length]; f_equal; exact Hn].
    + f_equal; [| exact Hl]. destruct b; [apply upper_lower | apply lowerAscii_idem].
    + f_equal; [| exact Hu]. destruct b; [apply upperAscii_idem | apply lower_upper].
Qed.

(** X3. For a name of ASCII characters, the formatted name does not depend
    on the case the name came in, is left as it is by formatting it again,
    and has the length of the name. *)
Theorem toCamelCase_ascii_ignores_case (s : string) :
  asciiOnly s ->
  toCamelCase (toLowerCase s) = toCamelCase s /\
  toCamelCase (toUpperCase s) = toCamelCase s /\
  toCamelCase (toCamelCase s) = toCamelCase s /\
  String.length (toCamelCase s) = String.length s.
Proof.
  intros _. rewrite !toCamelCase_one_pass.
  destruct (capitalised_folded true s) as (Hl & Hu & Hn).
  split; [exact Hl |]. split; [exact Hu |].
  split; [apply capitalised_twice | exact Hn].
Qed.

Lemma toCamelCase_ascii_ignores_case_example :
  toCamelCase "lIVING rOOM" = "Living Room" /\
  toCamelCase (toLowerCase "lIVING rOOM") = "Living Room" /\
  toCamelCase (toUpperCase "lIVING rOOM") = "Living Room" /\
  toCamelCase "Living Room" = "Living Room" /\
  String.length (toCamelCase "lIVING rOOM") = 11%nat.
Proof.
  assert (Hascii : asciiOnly "lIVING rOOM") by (repeat constructor).
  destruct (toCamelCase_ascii_ignores_case "lIVING rOOM" Hascii) as (Hl & Hu & Ht & Hn).
  assert (E : toCamelCase "lIVING rOOM" = "Living Room") by reflexivity.
  rewrite E in Hl, Hu, Ht, Hn.
  split; [exact E |]. split; [exact Hl |]. split; [exact Hu |]. split; [exact Ht | exact Hn].
Defined.

End MoreTimeWindowProps.

(** ** Aligned delays *)

Section MoreAlignmentProps.
Import JS TaskScheduler Notions.

(** X4. For an interval of 1 to 60 minutes the delay is more than one second
    and at most the interval plus one second: a task never waits longer
    than one interval for its next run. *)
Theorem getNextAlignedDelay_within_interval (I : Z) (now : Date) :
  0 < I <= 60 ->
  exists d, getNextAlignedDelay I now = Some d /\ 1000 < d <= I * 60000 + 1000.
Proof.
  intros HI. unfold getNextAlignedDelay.
  destruct (Z.eqb_spec I 0) as [-> | _]; [lia |].
  unfold getMinutes, getSeconds, getMilliseconds.
  pose proof (Z.mod_pos_bound (now / 60000) 60 ltac:(lia)) as Hm.
  pose proof (Z.mod_pos_bound (now / 1000) 60 ltac:(lia)) as Hs.
  pose proof (Z.mod_pos_bound now 1000 ltac:(lia)) as Hms.
  set (m := (now / 60000) mod 60) in *. set (s := (now / 1000) mod 60) in *.
  set (ms := now mod 1000) in *.
  pose proof (Z.mod_pos_bound m I ltac:(lia)) as Hr.
  pose proof (Z.div_mod m I ltac:(lia)) as Hd.
  assert (Hnext : (m / I + 1) * I = m - m mod I + I) by lia.
  rewrite Hnext.
  destruct (Z.geb_spec (m - m mod I + I) 60) as [Hge | Hlt];
    eexists; (split; [reflexivity |]); lia.
Qed.

Lemma getNextAlignedDelay_within_interval_example :
  exists d, getNextAlignedDelay 7 (wallClock 0 9 58 30 250) = Some d /\
            1000 < d <= 7 * 60000 + 1000.
Proof. apply getNextAlignedDelay_within_interval. lia. Defined.

(** An interval of 60 minutes or more is run on the hour: the delay is
    the one an interval of 60 minutes gets. *)
Theorem getNextAlignedDelay_hourly_from_60 (I : Z) (now : Date) :
  60 <= I ->
  getNextAlignedDelay I now = getNextAlignedDelay 60 now.
Proof.
  intros HI. unfold getNextAlignedDelay.
  destruct (Z.eqb_spec I 0) as [-> | _]; [lia |]. cbn [Z.eqb].
  pose proof (Z.mod_pos_bound (now / 60000) 60 ltac:(lia)) as Hm.
  unfold getMinutes. set (m := (now / 60000) mod 60) in *.
  assert (H60 : m / 60 = 0) by (apply Z.div_small; lia).
  rewrite H60.
  assert (HI' : 0 <= m / I) by (apply Z.div_pos; lia).
  destruct (Z.geb_spec ((m / I + 1) * I) 60) as [_ | Hlt]; [reflexivity | nia].
Qed.

Lemma getNextAlignedDelay_hourly_from_60_example :
  getNextAlignedDelay 90 (wallClock 0 9 58 30 250) = Some 90750.
Proof.
  rewrite (getNextAlignedDelay_hourly_from_60 90 _ ltac:(lia)). reflexivity.
Defined.

End MoreAlignmentProps.

(** ** Retries *)

Section MoreRetryProps.
Import JS Effects Retry Notions.
Context {T : Type}.
Variable fn : Z -> Completion T.
Variable maxRetries baseDelay : Z.
Variable logger : bool.

Lemma attempts_until_success (v : T) (n : nat) :
  forall (a : Z) (remaining : nat) (lastError : option JSError) (t : list Event),
    (n < remaining)%nat ->
    a + Z.of_nat n <= maxRetries ->
    (forall j, a <= j < a + Z.of_nat n ->
       exists ej, fn j = Throw ej /\ isRateLimit ej = true) ->
    fn (a + Z.of_nat n) = Normal v ->
    attempts fn maxRetries baseDelay logger remaining a lastError t =
      (Normal v,
       (t ++ backoffRounds maxRetries baseDelay logger a n
          ++ [Invoked (a + Z.of_nat n)])%list).
Proof.
  induction n as [| n IH]; intros a remaining lastError t Hrem Hle Hfail Hlast.
  - destruct remaining as [| r]; [lia |].
    rewrite Z.add_0_r in *. cbn [attempts backoffRounds app].
    unfold callFn, emit, modify, bind. rewrite Hlast. reflexivity.
  - destruct remaining as [| r]; [lia |].
    destruct (Hfail a ltac:(lia)) as (ea & Hfa & Hrl).
    cbn [attempts backoffRounds]. unfold callFn at 1, emit, modify, bind.
    rewrite Hfa, Hrl. cbn [negb orb].
    destruct (Z.eqb_spec a maxRetries) as [-> | _]; [lia |]. cbn [orb].
    replace (a + Z.of_nat (S n)) with ((a + 1) + Z.of_nat n) in * by lia.
    unfold delay, emit, modify, ret.
    destruct logger; cbn.
    + rewrite (IH (a + 1) r); try assumption; try lia.
      * unfold backoffRound. cbn. rewrite <- !app_assoc. reflexivity.
      * intros j Hj. apply Hfail. lia.
    + rewrite (IH (a + 1) r); try assumption; try lia.
      * unfold backoffRound. cbn. rewrite <- !app_assoc. reflexivity.
      * intros j Hj. apply Hfail. lia.
Qed.

(** X5. When the attempts before attempt [k] fail on a rate limit and attempt
    [k], within the budget, succeeds, the run returns that result: each
    failure was followed by its wait, and nothing follows the successful
    call. *)
Theorem retryWithBackoff_returns_first_success (k : nat) (v : T) (t : list Event) :
  Z.of_nat k <= maxRetries ->
  (forall j, 0 <= j < Z.of_nat k ->
     exists ej, fn j = Throw ej /\ isRateLimit ej = true) ->
  fn (Z.of_nat k) = Normal v ->
  retryWithBackoff fn maxRetries baseDelay logger t =
    (Normal v,
     (t ++ backoffRounds maxRetries baseDelay logger 0 k
        ++ [Invoked (Z.of_nat k)])%list).
Proof.
  intros Hle Hfail Hlast. unfold retryWithBackoff.
  apply (attempts_until_success v k 0); try assumption; lia.
Qed.

Lemma invocations_app (l k : list Event) :
  invocations (l ++ k) = (invocations l + invocations k)%nat.
Proof. unfold invocations. rewrite List.filter_app, length_app. reflexivity. Qed.

Lemma totalDelay_app (l k : list Event) :
  totalDelay (l ++ k) = totalDelay l + totalDelay k.
Proof.
  induction l as [| [a | m | ms] l IH]; cbn; rewrite ?IH; lia.
Qed.

(** One turn of the loop. *)
Lemma attempts_step (r : nat) (a : Z) (lastError : option JSError) (t : list Event) :
  attempts fn maxRetries baseDelay logger (S r) a lastError t =
    match fn a with
    | Normal v => (Normal v, (t ++ [Invoked a])%list)
    | Throw error =>
        if (a =? maxRetries) || negb (isRateLimit error)
        then (Throw error, (t ++ [Invoked a])%list)
        else attempts fn maxRetries baseDelay logger r (a + 1) (Some error)
               (t ++ backoffRound maxRetries baseDelay logger a)%list
    end.
Proof.
  cbn [attempts]. unfold callFn, emit, modify, bind.
  destruct (fn a) as [v | error]; [reflexivity |].
  destruct ((a =? maxRetries) || negb (isRateLimit error)); [reflexivity |].
  unfold delay, emit, modify, ret, backoffRound.
  destruct logger; cbn; rewrite <- ?app_assoc; reflexivity.
Qed.

Lemma backoffRound_counts (a : Z) :
  invocations (backoffRound maxRetries baseDelay logger a) = 1%nat /\
  totalDelay (backoffRound maxRetries baseDelay logger a) = baseDelay * 2 ^ a.
Proof. unfold backoffRound. destruct logger; cbn; split; lia. Qed.

(** What a run adds to the trace from attempt [a] on, whatever the
    operation does. *)
Lemma attempts_budget (remaining : nat) :
  forall (a : Z) (lastError : option JSError) (t : list Event),
    0 <= a -> 0 <= baseDelay ->
    Z.of_nat remaining = maxRetries + 1 - a ->
    exists k,
      snd (attempts fn maxRetries baseDelay logger remaining a lastError t) = (t ++ k)%list /\
      (invocations k <= remaining)%nat /\
      0 <= totalDelay k /\
      (remaining <> O -> (1 <= invocations k)%nat /\
                         totalDelay k <= baseDelay * (2 ^ maxRetries - 2 ^ a)).
Proof.
  induction remaining as [| r IH]; intros a lastError t Ha Hb Hrem.
  - exists []. cbn. destruct lastError; cbn; rewrite app_nil_r;
      repeat split; try lia; congruence.
  - rewrite attempts_step.
    assert (Hpow : 0 < 2 ^ a) by (apply Z.pow_pos_nonneg; lia).
    assert (Hmono : 2 ^ a <= 2 ^ maxRetries) by (apply Z.pow_le_mono_r; lia).
    destruct (fn a) as [v | error].
    + exists [Invoked a]. cbn. repeat split; try lia. nia.
    + destruct (Z.eqb_spec a maxRetries) as [E | N]; cbn [orb].
      * exists [Invoked a]. cbn. repeat split; try lia. nia.
      * destruct (negb (isRateLimit error)).
        -- exists [Invoked a]. cbn. repeat split; try lia. nia.
        -- destruct (IH (a + 1) (Some error)
                       (t ++ backoffRound maxRetries baseDelay logger a)%list
                       ltac:(lia) Hb ltac:(lia)) as (k & Hk & Hinv & Hpos & Hdel).
           destruct (backoffRound_counts a) as [Hi Hd].
           exists (backoffRound maxRetries baseDelay logger a ++ k)%list.
           rewrite Hk, <- app_assoc, invocations_app, totalDelay_app, Hi, Hd.
           split; [reflexivity |]. split; [lia |]. split; [nia |].
           intros _. split; [lia |].
           assert (H2 : 2 ^ (a + 1) = 2 * 2 ^ a) by (rewrite Z.pow_add_r; lia).
           destruct r as [| r']; [lia |].
           destruct (Hdel ltac:(discriminate)) as [_ Hdel']. nia.
Qed.

(** X6. Whatever the operation does, a run calls it at least once and at most
    [maxRetries + 1] times, and the waits it makes sum to at most
    [baseDelay * (2 ^ maxRetries - 1)]. *)
Theorem retryWithBackoff_stays_in_budget (t : list Event) :
  0 <= maxRetries -> 0 <= baseDelay ->
  exists k,
    snd (retryWithBackoff fn maxRetries baseDelay logger t) = (t ++ k)%list /\
    (1 <= invocations k <= Z.to_nat (maxRetries + 1))%nat /\
    0 <= totalDelay k <= baseDelay * (2 ^ maxRetries - 1).
Proof.
  intros Hm Hb. unfold retryWithBackoff.
  destruct (attempts_budget (Z.to_nat (maxRetries + 1)) 0 None t ltac:(lia) Hb ltac:(lia))
    as (k & Hk & Hinv & Hpos & Hdel).
  destruct (Hdel ltac:(lia)) as [Hone Hsum].
  exists k. split; [exact Hk |]. split; [lia |]. cbn in Hsum. lia.
Qed.

(** X7. With a negative [maxRetries] the operation is never called and the
    run throws [undefined]. *)
Theorem retryWithBackoff_negative_budget (t : list Event) :
  maxRetries < 0 ->
  retryWithBackoff fn maxRetries baseDelay logger t = (Throw (NonError "undefined"), t).
Proof.
  intros Hneg. unfold retryWithBackoff.
  replace (Z.to_nat (maxRetries + 1)) with O by lia. reflexivity.
Qed.

End MoreRetryProps.

Section MoreRetryExamples.
Import JS Effects Retry Notions.

Lemma retryWithBackoff_returns_first_success_example :
  retryWithBackoff (eventually 2 "ok") 3 1000 false [] =
    (Normal "ok", [Invoked 0; Delayed 1000; Invoked 1; Delayed 2000; Invoked 2]).
Proof.
  apply (retryWithBackoff_returns_first_success (eventually 2 "ok") 3 1000 false 2%nat).
  - lia.
  - intros j Hj. exists (ErrorObj "Received response code 429").
    assert (j = 0 \/ j = 1) as [-> | ->] by lia; split; reflexivity.
  - reflexivity.
Defined.

Lemma retryWithBackoff_stays_in_budget_example :
  exists k,
    snd (retryWithBackoff (eventually 9 "never") 3 1000 false []) = k /\
    (1 <= invocations k <= 4)%nat /\ 0 <= totalDelay k <= 7000.
Proof.
  destruct (retryWithBackoff_stays_in_budget (eventually 9 "never") 3 1000 false []
              ltac:(lia) ltac:(lia)) as (k & Hk & Hinv & Hsum).
  exists k. split; [exact Hk |]. split; [exact Hinv | exact Hsum].
Defined.

Lemma retryWithBackoff_negative_budget_example :
  retryWithBackoff (eventually 0 "unused") (-1) 1000 true [] =
    (Throw (NonError "undefined"), []).
Proof. apply retryWithBackoff_negative_budget. lia. Defined.

End MoreRetryExamples.

(** ** Registration and intervals *)

Section RegistrationProps.
Import JS Effects TaskScheduler Notions.

(** X8. Registering an identifier that is taken is refused and changes
    nothing: after any [registerTask], a second one for the same
    identifier throws and leaves the scheduler as the first left it. *)
Theorem registerTask_twice_is_refused (c1 c2 : TaskConfig) (s : Scheduler) :
  cfg_taskId c2 = cfg_taskId c1 ->
  registerTask c2 (snd (registerTask c1 s)) =
    (Throw (ErrorObj ("Task '" +:+ cfg_taskId c2 +:+ "' is already registered")),
     snd (registerTask c1 s)).
Proof.
  intros E.
  assert (H : is_Some (taskConfigs (snd (registerTask c1 s)) !! cfg_taskId c2)).
  { rewrite E. unfold registerTask, bind, get.
    destruct (taskConfigs s !! cfg_taskId c1) eqn:Ec; cbn -[insert].
    - rewrite Ec. eauto.
    - rewrite lookup_insert_eq. eauto. }
  destruct H as [c H]. generalize dependent (snd (registerTask c1 s)).
  intros s1 H. unfold registerTask, bind, get. rewrite H. reflexivity.
Qed.

Lemma registerTask_twice_is_refused_example :
  fst (registerTask zoneStatusTask oneTaskScheduler) =
    Throw (ErrorObj "Task 'evohome:zoneStatus' is already registered") /\
  snd (registerTask zoneStatusTask oneTaskScheduler) = oneTaskScheduler.
Proof.
  pose proof (registerTask_twice_is_refused zoneStatusTask zoneStatusTask
                (emptyScheduler (wallClock 0 12 3 10 0)) eq_refl) as H.
  fold oneTaskScheduler in H. rewrite H. split; reflexivity.
Defined.

(** X9. A task registered under a free identifier can be looked up at once:
    its status is NOT RUN with no run recorded and the configured
    interval; the other tasks keep their status, and no timer is armed. *)
Theorem registerTask_then_getTaskStatus (config : TaskConfig) (s : Scheduler) :
  taskConfigs s !! cfg_taskId config = None ->
  fst (registerTask config s) = Normal tt /\
  getTaskStatus (cfg_taskId config) (snd (registerTask config s)) = Some (initialStatus config) /\
  taskConfigs (snd (registerTask config s)) !! cfg_taskId config = Some config /\
  (forall other, other <> cfg_taskId config ->
     getTaskStatus other (snd (registerTask config s)) = getTaskStatus other s) /\
  timers (snd (registerTask config s)) = timers s /\
  armed (snd (registerTask config s)) = armed s.
Proof.
  intros Hfree. unfold registerTask, getTaskStatus, bind, get. rewrite Hfree.
  cbn -[insert]. split; [reflexivity |].
  split; [apply lookup_insert_eq |]. split; [apply lookup_insert_eq |].
  split; [| split; reflexivity].
  intros other Hne. apply lookup_insert_ne. congruence.
Qed.

Lemma registerTask_then_getTaskStatus_example :
  getTaskStatus "evohome:zoneStatus" oneTaskScheduler = Some (initialStatus zoneStatusTask).
Proof.
  apply (registerTask_then_getTaskStatus zoneStatusTask
           (emptyScheduler (wallClock 0 12 3 10 0))).
  reflexivity.
Defined.

(** X10. For a registered task whose configuration and status agree on the
    interval, [updateTaskInterval] leaves both at the new interval, and
    the other tasks as they were. *)
Theorem updateTaskInterval_sets_both_intervals
    (taskId : string) (newIntervalMinutes : Z) (s : Scheduler)
    (config : TaskConfig) (status : TaskStatus) :
  taskConfigs s !! taskId = Some config ->
  taskStatuses s !! taskId = Some status ->
  cfg_intervalMinutes config = st_intervalMinutes status ->
  let s' := snd (updateTaskInterval taskId newIntervalMinutes s) in
  fst (updateTaskInterval taskId newIntervalMinutes s) = Normal tt /\
  (cfg_intervalMinutes <$> taskConfigs s' !! taskId) = Some newIntervalMinutes /\
  (st_intervalMinutes <$> taskStatuses s' !! taskId) = Some newIntervalMinutes /\
  (forall other, other <> taskId ->
     taskConfigs s' !! other = taskConfigs s !! other /\
     taskStatuses s' !! other = taskStatuses s !! other).
Proof.
  intros Hc Hs Hsync. cbn zeta.
  unfold updateTaskInterval, bind, get. rewrite Hc, Hs.
  destruct (Z.eqb_spec newIntervalMinutes (st_intervalMinutes status)) as [E | N].
  - cbn. rewrite Hc, Hs. cbn. repeat split; congruence.
  - destruct (num_lt _ _).
    + unfold writeLog, onConfig, onStatus, scheduleTask, bind, modify, get, ret.
      cbn -[alter insert]. rewrite !lookup_alter_eq, Hc, Hs. cbn -[alter insert].
      destruct (timers s !! taskId); cbn -[alter insert];
        rewrite !lookup_alter_eq, ?Hc, ?Hs; cbn -[alter insert];
        (split; [reflexivity |]); (split; [reflexivity |]); (split; [reflexivity |]);
        intros other Hne; rewrite !lookup_alter_ne by congruence; split; reflexivity.
    + unfold writeLog, onConfig, onStatus, bind, modify, get, ret.
      cbn -[alter insert]. rewrite !lookup_alter_eq, Hc, Hs. cbn.
      repeat split; rewrite lookup_alter_ne by congruence; reflexivity.
Qed.

Lemma updateTaskInterval_sets_both_intervals_example :
  let s' := snd (updateTaskInterval "evohome:zoneStatus" 3 oneTaskScheduler) in
  (cfg_intervalMinutes <$> taskConfigs s' !! "evohome:zoneStatus") = Some 3 /\
  (st_intervalMinutes <$> taskStatuses s' !! "evohome:zoneStatus") = Some 3.
Proof.
  destruct (updateTaskInterval_sets_both_intervals "evohome:zoneStatus" 3 oneTaskScheduler
              zoneStatusTask (initialStatus zoneStatusTask)
              ltac:(vm_compute; reflexivity) ltac:(vm_compute; reflexivity) eq_refl)
    as (_ & Hc & Hs & _).
  split; [exact Hc | exact Hs].
Defined.

End RegistrationProps.

Section IntervalUpdateProps.
Import JS Effects TaskScheduler Notions.

(** X11. When the interval changes while the next run is at most the threshold
    away (or none is planned), the armed timers are left alone and the
    planned run stays where it was: only the stored interval changes. *)
Theorem updateTaskInterval_leaves_imminent_run
    (taskId : string) (newIntervalMinutes : Z) (s : Scheduler)
    (config : TaskConfig) (status : TaskStatus) :
  taskConfigs s !! taskId = Some config ->
  taskStatuses s !! taskId = Some status ->
  newIntervalMinutes <> st_intervalMinutes status ->
  farOff (clock s) config status = false ->
  let s' := snd (updateTaskInterval taskId newIntervalMinutes s) in
  timers s' = timers s /\ armed s' = armed s /\ nextHandle s' = nextHandle s /\
  taskStatuses s' !! taskId = Some (set_st_intervalMinutes newIntervalMinutes status) /\
  taskConfigs s' !! taskId = Some (set_cfg_intervalMinutes newIntervalMinutes config).
Proof.
  intros Hc Hs Hne Hsoon. cbn zeta.
  unfold updateTaskInterval, bind, get. rewrite Hc, Hs.
  destruct (Z.eqb_spec newIntervalMinutes (st_intervalMinutes status)) as [E | _];
    [contradiction |].
  unfold farOff, untilNextRun in Hsoon. rewrite Hsoon.
  unfold writeLog, onConfig, onStatus, bind, modify, get, ret. cbn -[alter].
  rewrite !lookup_alter_eq, Hc, Hs. repeat split.
Qed.

Lemma updateTaskInterval_leaves_imminent_run_example :
  let s' := snd (updateTaskInterval "evohome:zoneStatus" 1 twoTaskScheduler) in
  timers s' = timers twoTaskScheduler /\ armed s' = armed twoTaskScheduler /\
  (st_nextRun <$> taskStatuses s' !! "evohome:zoneStatus")
    = Some (Some (Some (wallClock 0 12 5 1 0))).
Proof.
  destruct (updateTaskInterval_leaves_imminent_run "evohome:zoneStatus" 1 twoTaskScheduler
              zoneStatusTask
              (set_nextRun (Some (Some (wallClock 0 12 5 1 0))) (initialStatus zoneStatusTask))
              ltac:(vm_compute; reflexivity) ltac:(vm_compute; reflexivity)
              ltac:(cbn; lia) ltac:(vm_compute; reflexivity))
    as (Ht & Ha & _ & Hs & _).
  cbn zeta. rewrite Hs. split; [exact Ht |]. split; [exact Ha | reflexivity].
Defined.

(** X12. When the interval changes while the next run is more than the
    threshold away, the task's timer is cancelled and a new one is armed
    at once, with the aligned delay of the new interval; the planned run
    moves accordingly. *)
Theorem updateTaskInterval_reschedules_distant_run
    (taskId : string) (newIntervalMinutes : Z) (s : Scheduler)
    (config : TaskConfig) (status : TaskStatus) :
  taskConfigs s !! taskId = Some config ->
  taskStatuses s !! taskId = Some status ->
  newIntervalMinutes <> st_intervalMinutes status ->
  farOff (clock s) config status = true ->
  let s' := snd (updateTaskInterval taskId newIntervalMinutes s) in
  let delay := getNextAlignedDelay newIntervalMinutes (clock s) in
  timers s' !! taskId = Some (nextHandle s) /\
  armed s' =
    (match timers s !! taskId with
     | Some old => filter (fun t => handle t ≠ old) (armed s)
     | None => armed s
     end ++ [{| handle := nextHandle s; fireAt := clock s + timerDelay delay;
                callback := TaskDue taskId |}])%list /\
  taskStatuses s' !! taskId =
    Some (set_nextRun (Some (num_add (Some (clock s)) delay))
            (set_st_intervalMinutes newIntervalMinutes status)).
Proof.
  intros Hc Hs Hne Hfar. cbn zeta.
  unfold updateTaskInterval, bind, get. rewrite Hc, Hs.
  destruct (Z.eqb_spec newIntervalMinutes (st_intervalMinutes status)) as [E | _];
    [contradiction |].
  unfold farOff, untilNextRun in Hfar. rewrite Hfar.
  unfold writeLog, onConfig, onStatus, scheduleTask, setTimeout, clearTimeout,
    bind, modify, get, ret.
  cbn -[alter insert filter]. rewrite !lookup_alter_eq, Hc, Hs. cbn -[alter insert filter].
  destruct (timers s !! taskId) as [old |]; cbn -[alter insert filter];
    rewrite lookup_insert_eq, !lookup_alter_eq, Hs; repeat split.
Qed.

Lemma updateTaskInterval_reschedules_distant_run_example :
  let s' := snd (updateTaskInterval "evohome:scheduleRefresh" 15 twoTaskScheduler) in
  map callback (armed s') = [TaskDue "evohome:zoneStatus"; TaskDue "evohome:scheduleRefresh"] /\
  map fireAt (armed s') = [wallClock 0 12 5 1 0; wallClock 0 12 15 1 0] /\
  map handle (armed s') = [0%nat; 2%nat].
Proof.
  destruct (updateTaskInterval_reschedules_distant_run "evohome:scheduleRefresh" 15
              twoTaskScheduler scheduleRefreshTask
              (set_nextRun (Some (Some (wallClock 0 12 30 1 0)))
                 (initialStatus scheduleRefreshTask))
              ltac:(vm_compute; reflexivity) ltac:(vm_compute; reflexivity)
              ltac:(cbn; lia) ltac:(vm_compute; reflexivity))
    as (_ & Ha & _).
  cbn zeta. rewrite Ha. vm_compute. repeat split.
Defined.

End IntervalUpdateProps.

(** ** The operation queue *)

Section QueueProps.
Import JS Effects TaskScheduler Notions.

Lemma queued_existsb (taskId : string) (q : list QueuedOperation) :
  existsb (fun item => String.eqb (op_taskId item) taskId) q = true <->
  In taskId (map op_taskId q).
Proof.
  rewrite existsb_exists, in_map_iff. split.
  - intros (item & Hin & E). exists item. split; [apply String.eqb_eq; exact E | exact Hin].
  - intros (item & E & Hin). exists item. split; [exact Hin | apply String.eqb_eq; exact E].
Qed.

(** [queueOperation] for a task that is queued already. *)
Lemma queueOperation_queued (taskId : string) (priority : Z) (s : Scheduler) :
  In taskId (queuedIds s) ->
  exists s',
    queueOperation taskId priority s = (Normal tt, s') /\
    operationQueue s' = operationQueue s /\ armed s' = armed s /\
    queueProcessingTimer s' = queueProcessingTimer s /\
    nextHandle s' = nextHandle s /\ timers s' = timers s /\
    taskStatuses s' = taskStatuses s /\ taskConfigs s' = taskConfigs s /\
    clock s' = clock s /\ isProcessingQueue s' = isProcessingQueue s.
Proof.
  intros Hin. apply queued_existsb in Hin.
  unfold queueOperation, writeLog, bind, modify, get, ret. rewrite Hin.
  eexists. split; [reflexivity |]. repeat split.
Qed.

(** [queueOperation] for a task that is not queued yet. *)
Lemma queueOperation_fresh (taskId : string) (priority : Z) (s : Scheduler) :
  ~ In taskId (queuedIds s) ->
  exists s',
    queueOperation taskId priority s = (Normal tt, s') /\
    operationQueue s' =
      (operationQueue s ++ [{| op_taskId := taskId; op_priority := priority |}])%list /\
    armed s' =
      (match queueProcessingTimer s with
       | Some old => filter (fun t => handle t ≠ old) (armed s)
       | None => armed s
       end ++ [{| handle := nextHandle s; fireAt := clock s + QUEUE_DEBOUNCE_MS;
                  callback := DebounceElapsed |}])%list /\
    queueProcessingTimer s' = Some (nextHandle s) /\
    nextHandle s' = S (nextHandle s) /\ timers s' = timers s /\
    taskStatuses s' = taskStatuses s /\ taskConfigs s' = taskConfigs s /\
    clock s' = clock s /\ isProcessingQueue s' = isProcessingQueue s.
Proof.
  intros Hnot.
  assert (Hex : existsb (fun item => String.eqb (op_taskId item) taskId) (operationQueue s)
                = false).
  { apply not_true_is_false. intros H. apply Hnot, queued_existsb. exact H. }
  unfold queueOperation, writeLog, setTimeout, clearTimeout, bind, modify, get, ret.
  rewrite Hex. destruct (queueProcessingTimer s); cbn -[filter];
    (eexists; split; [reflexivity |]); repeat split.
Qed.

(** X13. A task is never queued twice: if the queued identifiers are distinct
    they stay distinct after [queueOperation], the task is queued, and a
    task that was queued already leaves the queue as it was. *)
Theorem queueOperation_keeps_ids_distinct
    (taskId : string) (priority : Z) (s : Scheduler) :
  List.NoDup (queuedIds s) ->
  let s' := snd (queueOperation taskId priority s) in
  List.NoDup (queuedIds s') /\ In taskId (queuedIds s') /\
  (In taskId (queuedIds s) -> operationQueue s' = operationQueue s).
Proof.
  intros Hnd. cbn zeta.
  destruct (in_dec string_dec taskId (queuedIds s)) as [Hin | Hnot].
  - destruct (queueOperation_queued taskId priority s Hin) as (s' & -> & Hq & _).
    cbn [snd]. unfold queuedIds in *. rewrite Hq. auto.
  - destruct (queueOperation_fresh taskId priority s Hnot) as (s' & -> & Hq & _).
    cbn [snd]. unfold queuedIds in *. rewrite Hq, map_app. cbn [map].
    split; [| split; [apply in_or_app; right; left; reflexivity | contradiction]].
    apply NoDup_ListNoDup, NoDup_app. split; [apply NoDup_ListNoDup; exact Hnd |].
    split; [| apply NoDup_singleton].
    intros x Hx Hx'. apply list_elem_of_In in Hx. apply list_elem_of_In in Hx'.
    destruct Hx' as [<- | []]. contradiction.
Qed.

Lemma queueOperation_keeps_ids_distinct_example :
  queuedIds (snd (queueOperation "evohome:zoneStatus" 1 threeQueued)) =
    ["evohome:scheduleRefresh"; "evohome:zoneStatus"; "evohome:overrideReset"].
Proof.
  assert (Hnd : List.NoDup (queuedIds threeQueued)).
  { vm_compute. repeat constructor; cbn; intuition discriminate. }
  destruct (queueOperation_keeps_ids_distinct "evohome:zoneStatus" 1 threeQueued Hnd)
    as (_ & _ & Hsame).
  unfold queuedIds at 1. rewrite Hsame; [reflexivity |].
  vm_compute. right. left. reflexivity.
Defined.

End QueueProps.

Section DebounceProps.
Import JS Effects TaskScheduler Notions.

Lemma filter_cancelled (old : nat) (l : list Timeout) :
  (forall t, In t l -> handle t = old -> isDebounce t = true) ->
  List.filter (fun t => negb (isDebounce t)) (filter (fun t => handle t ≠ old) l) =
  List.filter (fun t => negb (isDebounce t)) l.
Proof.
  induction l as [| t l IH]; intros H; [reflexivity |].
  rewrite filter_cons. destruct (decide (handle t ≠ old)) as [Hne | Heq].
  - cbn. rewrite IH by (intros t' Hin; apply H; right; exact Hin). reflexivity.
  - assert (E : handle t = old) by (destruct (decide (handle t = old)) as [e | n]; [exact e | contradiction]).
    cbn. rewrite (H t (or_introl eq_refl) E). cbn.
    apply IH. intros t' Hin. apply H. right. exact Hin.
Qed.

Lemma no_debounce_left (l : list Timeout) :
  (forall t, In t l -> isDebounce t = false) -> List.filter isDebounce l = [].
Proof.
  induction l as [| t l IH]; intros H; [reflexivity |].
  cbn. rewrite (H t (or_introl eq_refl)). apply IH. intros t' Hin. apply H. right. exact Hin.
Qed.

Lemma emptyScheduler_consistent (now : Date) : timersConsistent (emptyScheduler now).
Proof. split; intros t []. Qed.

(** X14. Each new arrival restarts the debounce window: after a task that was
    not queued is queued, exactly one debounce timer is armed, due
    [QUEUE_DEBOUNCE_MS] from now; the one armed before is cancelled, and the
    tasks' own timers are untouched. *)
Theorem queueOperation_rearms_debounce
    (taskId : string) (priority : Z) (s : Scheduler) :
  timersConsistent s ->
  ~ In taskId (queuedIds s) ->
  let s' := snd (queueOperation taskId priority s) in
  timersConsistent s' /\
  List.filter isDebounce (armed s') =
    [{| handle := nextHandle s; fireAt := clock s + 2000; callback := DebounceElapsed |}] /\
  List.filter (fun t => negb (isDebounce t)) (armed s') =
    List.filter (fun t => negb (isDebounce t)) (armed s).
Proof.
  intros [Hfresh Hdeb] Hnot. cbn zeta.
  destruct (queueOperation_fresh taskId priority s Hnot)
    as (s' & -> & _ & Ha & Hq & Hn & _).
  cbn [snd].
  set (kept := match queueProcessingTimer s with
               | Some old => filter (fun t => handle t ≠ old) (armed s)
               | None => armed s
               end) in *.
  assert (Hkept : forall t, In t kept -> In t (armed s) /\ isDebounce t = false).
  { intros t Hin. subst kept. destruct (queueProcessingTimer s) as [old |] eqn:Eo.
    - apply list_elem_of_In, list_elem_of_filter in Hin. destruct Hin as [Hne Hin].
      apply list_elem_of_In in Hin. split; [exact Hin |].
      destruct (isDebounce t) eqn:Ed; [| reflexivity].
      apply (Hdeb t Hin) in Ed. congruence.
    - split; [exact Hin |]. destruct (isDebounce t) eqn:Ed; [| reflexivity].
      apply (Hdeb t Hin) in Ed. congruence. }
  split; [| split].
  - split.
    + intros t Hin. rewrite Ha in Hin. rewrite Hn. apply in_app_or in Hin.
      destruct Hin as [Hin | [<- | []]]; [| cbn; lia].
      apply Hkept in Hin. destruct Hin as [Hin _]. specialize (Hfresh t Hin). lia.
    + intros t Hin. rewrite Ha in Hin. rewrite Hq. apply in_app_or in Hin.
      destruct Hin as [Hin | [<- | []]]; [| split; reflexivity].
      apply Hkept in Hin. destruct Hin as [Hin Hf]. specialize (Hfresh t Hin).
      split; [congruence |]. intros E. injection E as E. lia.
  - rewrite Ha, List.filter_app. cbn.
    rewrite (no_debounce_left kept); [reflexivity |].
    intros t Hin. apply Hkept. exact Hin.
  - rewrite Ha, List.filter_app. cbn. rewrite app_nil_r. subst kept.
    destruct (queueProcessingTimer s) as [old |] eqn:Eo; [| reflexivity].
    apply filter_cancelled. intros t Hin E. apply (Hdeb t Hin). congruence.
Qed.

Lemma queueOperation_rearms_debounce_example :
  List.filter isDebounce
    (armed (snd (queueOperation "evohome:scheduleRefresh" 3
                   (snd (queueOperation "evohome:zoneStatus" 1 twoTaskScheduler))))) =
    [{| handle := 3%nat; fireAt := wallClock 0 12 3 12 0; callback := DebounceElapsed |}] /\
  map callback
    (List.filter (fun t => negb (isDebounce t))
       (armed (snd (queueOperation "evohome:scheduleRefresh" 3
                      (snd (queueOperation "evohome:zoneStatus" 1 twoTaskScheduler)))))) =
    [TaskDue "evohome:zoneStatus"; TaskDue "evohome:scheduleRefresh"].
Proof.
  assert (Ea : armed twoTaskScheduler =
               [{| handle := 0%nat; fireAt := wallClock 0 12 5 1 0;
                   callback := TaskDue "evohome:zoneStatus" |};
                {| handle := 1%nat; fireAt := wallClock 0 12 30 1 0;
                   callback := TaskDue "evohome:scheduleRefresh" |}])
    by (vm_compute; reflexivity).
  assert (En : nextHandle twoTaskScheduler = 2%nat) by (vm_compute; reflexivity).
  assert (Et : queueProcessingTimer twoTaskScheduler = None) by (vm_compute; reflexivity).
  assert (Eq : queuedIds twoTaskScheduler = []) by (vm_compute; reflexivity).
  assert (H0 : timersConsistent twoTaskScheduler).
  { split; intros t Hin; rewrite Ea in Hin; rewrite ?En, ?Et;
      destruct Hin as [<- | [<- | []]]; cbn; try lia; split; discriminate. }
  destruct (queueOperation_rearms_debounce "evohome:zoneStatus" 1 twoTaskScheduler H0)
    as (H1 & _ & _).
  { rewrite Eq. intros []. }
  assert (Eq1 : queuedIds (snd (queueOperation "evohome:zoneStatus" 1 twoTaskScheduler))
                = ["evohome:zoneStatus"]) by (vm_compute; reflexivity).
  destruct (queueOperation_rearms_debounce "evohome:scheduleRefresh" 3 _ H1)
    as (_ & Hd & Ht).
  { rewrite Eq1. intros [E | []]. discriminate E. }
  rewrite Hd, Ht. split; vm_compute; reflexivity.
Defined.

End DebounceProps.

Section ProcessQueueProps.
Import JS Effects TaskScheduler Notions.
Variable handlers : nat -> M Scheduler unit.
Variable pause : Z -> M Scheduler unit.

Lemma insertByPriority_perm (x : QueuedOperation) (l : list QueuedOperation) :
  Permutation (insertByPriority x l) (x :: l).
Proof.
  induction l as [| y r IH]; cbn; [reflexivity |].
  destruct (op_priority x - op_priority y <=? 0); [reflexivity |].
  rewrite IH. apply perm_swap.
Qed.

Lemma sortQueue_perm (q : list QueuedOperation) : Permutation (sortQueue q) q.
Proof.
  induction q as [| x q IH]; cbn; [reflexivity |].
  rewrite insertByPriority_perm. constructor. exact IH.
Qed.

Lemma insertByPriority_sorted (x : QueuedOperation) (l : list QueuedOperation) :
  Sorted byPriority l -> Sorted byPriority (insertByPriority x l).
Proof.
  induction l as [| y r IH]; intros Hs; cbn.
  - repeat constructor.
  - destruct (Z.leb_spec (op_priority x - op_priority y) 0) as [Hle | Hgt].
    + constructor; [exact Hs |]. constructor. unfold byPriority. lia.
    + inversion Hs as [| ? ? Hr Hhd]; subst. constructor; [apply IH; exact Hr |].
      destruct r as [| z r']; cbn.
      * constructor. unfold byPriority. lia.
      * destruct (op_priority x - op_priority z <=? 0); constructor.
        -- unfold byPriority. lia.
        -- inversion Hhd; subst. assumption.
Qed.

Lemma sortQueue_sorted (q : list QueuedOperation) : Sorted byPriority (sortQueue q).
Proof.
  induction q as [| x q IH]; cbn; [constructor |].
  apply insertByPriority_sorted. exact IH.
Qed.

Lemma sortQueue_of_sorted (l : list QueuedOperation) :
  Sorted byPriority l -> sortQueue l = l.
Proof.
  induction l as [| x l IH]; intros Hs; [reflexivity |].
  inversion Hs as [| ? ? Hl Hhd]; subst.
  change (sortQueue (x :: l)) with (insertByPriority x (sortQueue l)).
  rewrite IH by exact Hl.
  destruct l as [| y r]; [reflexivity |]. cbn [insertByPriority].
  inversion Hhd as [| ? ? Hxy]; subst. unfold byPriority in Hxy.
  destruct (Z.leb_spec (op_priority x - op_priority y) 0); [reflexivity | lia].
Qed.

Lemma insertByPriority_stable (p : Z) (x : QueuedOperation) (l : list QueuedOperation) :
  List.filter (fun o => op_priority o =? p) (insertByPriority x l) =
  List.filter (fun o => op_priority o =? p) (x :: l).
Proof.
  induction l as [| y r IH]; [reflexivity |]. cbn [insertByPriority].
  destruct (Z.leb_spec (op_priority x - op_priority y) 0) as [Hle | Hgt]; [reflexivity |].
  cbn [List.filter] in *. rewrite IH.
  destruct (Z.eqb_spec (op_priority x) p) as [Ex | Nx];
    destruct (Z.eqb_spec (op_priority y) p) as [Ey | Ny]; try reflexivity. lia.
Qed.

(** Operations of equal priority keep their arrival order. *)
Lemma sortQueue_stable (p : Z) (q : list QueuedOperation) :
  List.filter (fun o => op_priority o =? p) (sortQueue q) =
  List.filter (fun o => op_priority o =? p) q.
Proof.
  induction q as [| x q IH]; [reflexivity |].
  change (sortQueue (x :: q)) with (insertByPriority x (sortQueue q)).
  rewrite insertByPriority_stable. cbn [List.filter]. rewrite IH. reflexivity.
Qed.

(** [executeTask] completes normally on every scheduler and task. *)
Lemma executeTask_completes (taskId : string) (s : Scheduler) :
  fst (executeTask handlers taskId s) = Normal tt.
Proof.
  unfold executeTask, bind, get.
  destruct (taskConfigs s !! taskId) as [config |]; [| reflexivity].
  destruct (taskStatuses s !! taskId) as [status |]; [| reflexivity].
  unfold onStatus, modify, tryCatchFinally.
  destruct (handlers (cfg_handler config) _) as [[[] | e] s2];
    unfold writeLog, scheduleNextRun, setTimeout, onStatus, bind, modify, get, ret;
    cbn -[alter insert];
    destruct (taskConfigs s2 !! taskId); try reflexivity;
    destruct (alter _ taskId _ !! taskId); reflexivity.
Qed.

Hypothesis handlers_leave_queue :
  forall h s, operationQueue (snd (handlers h s)) = operationQueue s.

Lemma executeTask_leaves_queue (taskId : string) (s : Scheduler) :
  operationQueue (snd (executeTask handlers taskId s)) = operationQueue s.
Proof.
  unfold executeTask, bind, get.
  destruct (taskConfigs s !! taskId) as [config |]; [| reflexivity].
  destruct (taskStatuses s !! taskId) as [status |]; [| reflexivity].
  unfold onStatus, modify, tryCatchFinally.
  match goal with |- context [handlers ?h ?st] =>
    pose proof (handlers_leave_queue h st) as Hq; destruct (handlers h st) as [[[] | e] s2]
  end; cbn [snd] in Hq; cbn [with_taskStatuses operationQueue] in Hq;
    unfold writeLog, scheduleNextRun, setTimeout, onStatus, bind, modify, get, ret;
    cbn -[alter insert];
    destruct (taskConfigs s2 !! taskId); try exact Hq;
    destruct (alter _ taskId _ !! taskId); exact Hq.
Qed.

Hypothesis pause_completes : forall ms s, fst (pause ms s) = Normal tt.
Hypothesis pause_leaves_queue :
  forall ms s, operationQueue (snd (pause ms s)) = operationQueue s.

Lemma processLoop_drains (fuel : nat) :
  forall s,
    (length (operationQueue s) < fuel)%nat ->
    processLoop handlers pause fuel s =
      (Normal true, snd (runInOrder handlers pause (sortQueue (operationQueue s)) s)).
Proof.
  induction fuel as [| fuel IH]; intros s Hlen; [lia |].
  cbn [processLoop]. unfold bind at 1, get at 1.
  destruct (operationQueue s) as [| x q] eqn:Eq; [reflexivity |].
  pose proof (sortQueue_sorted (x :: q)) as Hsorted.
  pose proof (Permutation_length (sortQueue_perm (x :: q))) as Hl.
  destruct (sortQueue (x :: q)) as [| item rest] eqn:Es; [discriminate Hl |].
  cbn [runInOrder].
  unfold bind, modify, get, ret, tryCatchFinally.
  cbn [with_operationQueue operationQueue]. rewrite Eq, Es.
  change (with_operationQueue (fun _ => rest) (with_operationQueue sortQueue s))
    with (with_operationQueue (fun _ => rest) s).
  set (st := with_operationQueue (fun _ => rest) s).
  pose proof (executeTask_completes (op_taskId item) st) as Hn.
  pose proof (executeTask_leaves_queue (op_taskId item) st) as Hq.
  destruct (executeTask handlers (op_taskId item) st) as [r s3].
  cbn [fst snd] in Hn, Hq. subst r. cbn [st with_operationQueue operationQueue] in Hq.
  rewrite Hq.
  assert (Hrest : sortQueue rest = rest).
  { apply sortQueue_of_sorted. inversion Hsorted; assumption. }
  cbn [length] in Hl, Hlen.
  destruct rest as [| y rest'].
  - rewrite (IH s3) by (rewrite Hq; cbn; lia). rewrite Hq. reflexivity.
  - pose proof (pause_completes QUEUE_DELAY_MS s3) as Hp.
    pose proof (pause_leaves_queue QUEUE_DELAY_MS s3) as Hpq.
    destruct (pause QUEUE_DELAY_MS s3) as [rp s4]. cbn [fst snd] in Hp, Hpq. subst rp.
    rewrite (IH s4) by (rewrite Hpq, Hq; cbn [length] in *; lia).
    rewrite Hpq, Hq, Hrest. reflexivity.
Qed.

(** X15. Priority order.  When neither the handlers nor what runs during the
    pauses touches the queue, a [processQueue] started on an idle queue
    drains it: the operations run one after the other, lowest priority
    number first and in arrival order among equals, with a pause between
    two of them; in the end the queue is empty and marked idle. *)
Theorem processQueue_runs_by_priority (fuel : nat) (s : Scheduler) :
  isProcessingQueue s = false ->
  (length (operationQueue s) < fuel)%nat ->
  exists order,
    Permutation order (operationQueue s) /\ Sorted byPriority order /\
    (forall p, List.filter (fun o => op_priority o =? p) order =
               List.filter (fun o => op_priority o =? p) (operationQueue s)) /\
    processQueue handlers pause fuel s =
      (Normal true,
       with_isProcessingQueue false
         (snd (runInOrder handlers pause order (with_isProcessingQueue true s)))).
Proof.
  intros Hidle Hlen. exists (sortQueue (operationQueue s)).
  split; [apply sortQueue_perm |]. split; [apply sortQueue_sorted |].
  split; [intros p; apply sortQueue_stable |].
  unfold processQueue. unfold bind at 1, get at 1. rewrite Hidle.
  unfold bind at 1, modify at 1. unfold bind at 1.
  rewrite (processLoop_drains fuel (with_isProcessingQueue true s)) by exact Hlen.
  reflexivity.
Qed.

End ProcessQueueProps.

Section ProcessQueueExamples.
Import JS Effects TaskScheduler Notions.

(** Queued with priorities 3, 1, 2, the three tasks run in the order of
    their priorities 1, 2, 3. *)
Lemma processQueue_runs_by_priority_example :
  map op_priority (operationQueue threeQueued) = [3; 1; 2] /\
  exists final,
    processQueue loggingHandler tick 4 threeQueued = (Normal true, final) /\
    map log_message
      (List.filter (fun e => String.eqb (log_source e) "test") (logged final))
      = ["handler 0"; "handler 1"; "handler 2"] /\
    operationQueue final = [] /\ isProcessingQueue final = false.
Proof.
  assert (Eq : operationQueue threeQueued =
               [{| op_taskId := "evohome:scheduleRefresh"; op_priority := 3 |};
                {| op_taskId := "evohome:zoneStatus"; op_priority := 1 |};
                {| op_taskId := "evohome:overrideReset"; op_priority := 2 |}])
    by (vm_compute; reflexivity).
  split; [rewrite Eq; reflexivity |].
  destruct (processQueue_runs_by_priority loggingHandler tick
              (fun h s => eq_refl) (fun ms s => eq_refl) (fun ms s => eq_refl)
              4 threeQueued)
    as (order & Hperm & Hsorted & _ & Hrun).
  - vm_compute. reflexivity.
  - rewrite Eq. cbn. lia.
  - assert (Eo : order = [{| op_taskId := "evohome:zoneStatus"; op_priority := 1 |};
                          {| op_taskId := "evohome:overrideReset"; op_priority := 2 |};
                          {| op_taskId := "evohome:scheduleRefresh"; op_priority := 3 |}]).
    { rewrite Eq in Hperm. clear Hrun.
      assert (Hlen := Permutation_length Hperm). cbn in Hlen.
      destruct order as [| a [| b [| c [| d order']]]]; try discriminate Hlen.
      assert (Ha : In a [a; b; c]) by (left; reflexivity).
      assert (Hb : In b [a; b; c]) by (right; left; reflexivity).
      assert (Hc : In c [a; b; c]) by (right; right; left; reflexivity).
      apply (Permutation_in _ Hperm) in Ha, Hb, Hc.
      inversion Hsorted as [| ? ? Hs1 Hh1]; subst.
      inversion Hs1 as [| ? ? Hs2 Hh2]; subst.
      inversion Hh1 as [| ? ? Hab]; subst. inversion Hh2 as [| ? ? Hbc]; subst.
      unfold byPriority in Hab, Hbc.
      assert (Hnd : List.NoDup [a; b; c]).
      { apply (Permutation_NoDup (Permutation_sym Hperm)).
        repeat constructor; cbn; intuition discriminate. }
      inversion Hnd as [| ? ? Hna Hnd']; subst. inversion Hnd' as [| ? ? Hnb _]; subst.
      cbn in Hna, Hnb.
      destruct Ha as [<- | [<- | [<- | []]]]; destruct Hb as [<- | [<- | [<- | []]]];
        destruct Hc as [<- | [<- | [<- | []]]]; cbn in Hab, Hbc;
        try lia; try reflexivity; exfalso; tauto. }
    subst order. eexists. split; [exact Hrun |].
    split; [vm_compute; reflexivity |]. split; vm_compute; reflexivity.
Defined.

End ProcessQueueExamples.

(** ** Sessions, tokens and backoff *)

Section MoreAuthProps.
Import JS Effects Auth Notions.
Variable remoteV2 : Date -> Credentials -> V2Response * Z.
Variable remoteV1 : Date -> Credentials -> V1Response * Z.
Variable lateness : Z.

Tactic Notation "run_auth'" "in" hyp(H) :=
  unfold sleep, tell, fetchV2, fetchV1, stat, emit, now, throw, bind, modify, get, ret in H;
  cbn [fst snd events with_events with_clock with_lastAuthFailure
       with_authFailureCount with_cachedV2Session with_cachedV1Token
       clock apiStatsTracker lastAuthFailure authFailureCount
       cachedV2Session cachedV1Token] in H.

(** The run of [getV2Session] when it has to authenticate: the answer of
    the service decides everything. *)
Lemma getV2Session_authenticating (config : Credentials) (logger : bool)
    (tempConfig : option Credentials) (a : AuthManager) :
  cachedV2Session a = None \/ tempConfig <> None ->
  let used := match tempConfig with Some c => c | None => config end in
  let sent := issueInstant lateness a in
  let answer := remoteV2 sent used in
  let back := sent + snd answer in
  exists r a' k,
    getV2Session remoteV2 lateness config logger tempConfig a = (r, a') /\
    events a' = (events a ++ k)%list /\
    List.filter (fun e => match e with AuthenticateV2 _ _ | AuthenticateV1 _ _ => true
                                  | _ => false end) k = [AuthenticateV2 sent used] /\
    clock a' = back /\ cachedV1Token a' = cachedV1Token a /\
    match fst answer with
    | V2NetworkError e =>
        r = Throw e /\ authFailureCount a' = authFailureCount a /\
        lastAuthFailure a' = lastAuthFailure a /\
        cachedV2Session a' = cachedV2Session a
    | V2NotOk status body =>
        r = Throw (ErrorObj (refusalMessage status body)) /\
        authFailureCount a' = authFailureCount a + 1 /\
        lastAuthFailure a' = Some back /\
        cachedV2Session a' = cachedV2Session a
    | V2Ok userID sid =>
        r = Normal {| userId := userID; sessionId := sid |} /\
        authFailureCount a' = 0 /\ lastAuthFailure a' = None /\
        cachedV2Session a' =
          match tempConfig with
          | None => Some {| userId := userID; sessionId := sid |}
          | Some _ => cachedV2Session a
          end
    end.
Proof using remoteV2 lateness.
  clear remoteV1. intros Hmust. cbn zeta.
  destruct (getV2Session remoteV2 lateness config logger tempConfig a) as [r a'] eqn:E.
  exists r, a'. unfold getV2Session in E. unfold bind at 1, get at 1 in E. cbv zeta in E.
  unfold issueInstant, refusalMessage.
  destruct (cachedV2Session a) as [session |] eqn:Ec;
    destruct tempConfig as [tc |]; try (destruct Hmust; congruence);
    destruct (0 <? getAuthRetryDelay a); destruct logger; run_auth' in E;
    match type of E with context [remoteV2 ?t ?c] =>
      destruct (remoteV2 t c) as [[e | st body | uid sid] took] end;
    run_auth' in E; destruct (apiStatsTracker a); run_auth' in E;
    injection E as <- <-; cbn; rewrite <- ?app_assoc, ?Ec;
    (eexists; split; [reflexivity |]); cbn; repeat split.
Qed.

(** X16. After [clearV2Session] the next [getV2Session] never reuses the old
    handle: it sends exactly one authentication request, with the
    configured credentials. *)
Theorem getV2Session_after_clear_authenticates
    (config : Credentials) (logger : bool) (a : AuthManager) :
  let a1 := snd (clearV2Session a) in
  exists r a2 k,
    getV2Session remoteV2 lateness config logger None a1 = (r, a2) /\
    events a2 = (events a1 ++ k)%list /\
    List.filter (fun e => match e with AuthenticateV2 _ _ | AuthenticateV1 _ _ => true
                                  | _ => false end) k
      = [AuthenticateV2 (issueInstant lateness a1) config].
Proof using remoteV2 lateness.
  cbn zeta.
  assert (Hnone : cachedV2Session (snd (clearV2Session a)) = None).
  { unfold clearV2Session, stat, emit, bind, modify, get, ret.
    destruct (cachedV2Session a); [destruct (apiStatsTracker a) |]; reflexivity. }
  destruct (getV2Session_authenticating config logger None _ (or_introl Hnone))
    as (r & a2 & k & E & Hev & Hk & _).
  exists r, a2, k. auto.
Qed.

(** X17. A granted session is cached and then served at any later instant
    without a request: a session does not expire by time. *)
Theorem getV2Session_granted_then_reused
    (config config' : Credentials) (logger logger' : bool) (a : AuthManager)
    (userID sid : string) (later : Date)
    (remoteV2' : Date -> Credentials -> V2Response * Z) (lateness' : Z) :
  cachedV2Session a = None ->
  fst (remoteV2 (issueInstant lateness a) config) = V2Ok userID sid ->
  let a1 := with_clock later (snd (getV2Session remoteV2 lateness config logger None a)) in
  fst (getV2Session remoteV2' lateness' config' logger' None a1)
    = Normal {| userId := userID; sessionId := sid |} /\
  authInstants (newEvents a1 (snd (getV2Session remoteV2' lateness' config' logger' None a1)))
    = [].
Proof using remoteV2 lateness.
  clear remoteV1. intros Hnone Hok. cbn zeta.
  destruct (getV2Session_authenticating config logger None a (or_introl Hnone))
    as (r & a' & k & E & _ & _ & _ & _ & Hans).
  cbn zeta in Hans. rewrite Hok in Hans. destruct Hans as (_ & _ & _ & Hc).
  rewrite E. cbn [snd].
  assert (Hrun : exists k,
            getV2Session remoteV2' lateness' config' logger' None (with_clock later a') =
              (Normal {| userId := userID; sessionId := sid |},
               with_events (fun l => (l ++ k)%list) (with_clock later a')) /\
            authInstants k = []).
  { unfold getV2Session. unfold bind at 1, get at 1.
    cbn [cachedV2Session with_clock]. rewrite Hc.
    destruct logger'; unfold tell, emit, bind, modify, ret.
    - exists [LoggerLine "🔑 Using cached session"]. split; reflexivity.
    - exists []. split; [| reflexivity]. f_equal. destruct a'.
      unfold with_events, with_clock. cbn. rewrite app_nil_r. reflexivity. }
  destruct Hrun as (k0 & -> & Hk0). cbn [fst snd]. split; [reflexivity |].
  rewrite (newEvents_app _ _ k0); [exact Hk0 | reflexivity].
Qed.

(** X18. A granted request clears the backoff: whatever failures came before,
    the next attempt is due at once. *)
Theorem getV2Session_granted_clears_backoff
    (config : Credentials) (logger : bool) (tempConfig : option Credentials)
    (a : AuthManager) (userID sid : string) (later : Date) :
  cachedV2Session a = None \/ tempConfig <> None ->
  fst (remoteV2 (issueInstant lateness a)
         (match tempConfig with Some c => c | None => config end)) = V2Ok userID sid ->
  let a' := snd (getV2Session remoteV2 lateness config logger tempConfig a) in
  authFailureCount a' = 0 /\ lastAuthFailure a' = None /\
  getAuthRetryDelay (with_clock later a') = 0.
Proof using remoteV2 lateness.
  clear remoteV1. intros Hmust Hok. cbn zeta.
  destruct (getV2Session_authenticating config logger tempConfig a Hmust)
    as (r & a' & k & E & _ & _ & _ & _ & Hans).
  cbn zeta in Hans. rewrite Hok in Hans. destruct Hans as (_ & Hcnt & Hlast & _).
  rewrite E. cbn [snd]. split; [exact Hcnt |]. split; [exact Hlast |].
  unfold getAuthRetryDelay. cbn [lastAuthFailure with_clock]. rewrite Hlast. reflexivity.
Qed.

(** X19. A refused request is thrown on with the service's message (or the
    status when it gives none), is counted, and stamps the instant of the
    refusal; the cached session is not touched, and the wait now due is the
    full delay for the new count. *)
Theorem getV2Session_refused_is_counted
    (config : Credentials) (logger : bool) (tempConfig : option Credentials)
    (a : AuthManager) (status : Z) (body : Completion (option string)) :
  cachedV2Session a = None \/ tempConfig <> None ->
  0 <= authFailureCount a ->
  fst (remoteV2 (issueInstant lateness a)
         (match tempConfig with Some c => c | None => config end)) = V2NotOk status body ->
  let run := getV2Session remoteV2 lateness config logger tempConfig a in
  fst run = Throw (ErrorObj (refusalMessage status body)) /\
  authFailureCount (snd run) = authFailureCount a + 1 /\
  lastAuthFailure (snd run) = Some (clock (snd run)) /\
  cachedV2Session (snd run) = cachedV2Session a /\
  getAuthRetryDelay (snd run) = requiredDelay (authFailureCount a + 1).
Proof using remoteV2 lateness.
  clear remoteV1. intros Hmust Hcount Hno. cbn zeta.
  destruct (getV2Session_authenticating config logger tempConfig a Hmust)
    as (r & a' & k & E & _ & _ & Hclock & _ & Hans).
  cbn zeta in Hans, Hclock. rewrite Hno in Hans. destruct Hans as (Hr & Hcnt & Hlast & Hc).
  rewrite E. cbn [fst snd]. rewrite Hclock.
  split; [exact Hr |]. split; [exact Hcnt |]. split; [exact Hlast |]. split; [exact Hc |].
  unfold getAuthRetryDelay. rewrite Hlast, Hclock, Hcnt, Z.sub_diag.
  assert (Hpos : 0 < requiredDelay (authFailureCount a + 1)).
  { unfold requiredDelay, MIN_AUTH_RETRY_DELAY.
    destruct (Z.leb_spec 0 (Z.min (authFailureCount a + 1 - 1) 3)) as [Hle | Hlt]; [| lia].
    assert (0 < 2 ^ Z.min (authFailureCount a + 1 - 1) 3)
      by (apply Z.pow_pos_nonneg; lia). nia. }
  destruct (Z.ltb_spec 0 (requiredDelay (authFailureCount a + 1))); lia.
Qed.

(** X20. With a test configuration the cached session is neither served nor
    replaced: the request goes out with the test credentials and the
    cache stays as it was. *)
Theorem getV2Session_tempConfig_bypasses_cache
    (config test : Credentials) (logger : bool) (a : AuthManager) :
  exists r a' k,
    getV2Session remoteV2 lateness config logger (Some test) a = (r, a') /\
    events a' = (events a ++ k)%list /\
    List.filter (fun e => match e with AuthenticateV2 _ _ | AuthenticateV1 _ _ => true
                                  | _ => false end) k
      = [AuthenticateV2 (issueInstant lateness a) test] /\
    cachedV2Session a' = cachedV2Session a /\ cachedV1Token a' = cachedV1Token a.
Proof using remoteV2 lateness.
  clear remoteV1.
  assert (Htest : cachedV2Session a = None \/ Some test <> None) by (right; discriminate).
  destruct (getV2Session_authenticating config logger (Some test) a Htest)
    as (r & a' & k & E & Hev & Hk & _ & Hv1 & Hans).
  exists r, a', k. repeat split; try assumption. cbn zeta in Hans.
  destruct (fst (remoteV2 (issueInstant lateness a) test));
    destruct Hans as (_ & _ & _ & Hc); exact Hc.
Qed.

(** X21. The failure bookkeeping stays consistent through [getV2Session]. *)
Theorem getV2Session_keeps_failures_consistent
    (config : Credentials) (logger : bool) (tempConfig : option Credentials)
    (a : AuthManager) :
  failuresConsistent a ->
  failuresConsistent (snd (getV2Session remoteV2 lateness config logger tempConfig a)).
Proof using remoteV2 lateness.
  clear remoteV1. intros [Hpos Hiff].
  destruct (cachedV2Session a) as [session |] eqn:Ec; [destruct tempConfig as [tc |] eqn:Et |].
  - assert (Htest : cachedV2Session a = None \/ Some tc <> None) by (right; discriminate).
    destruct (getV2Session_authenticating config logger (Some tc) a Htest)
      as (r & a' & k & E & _ & _ & _ & _ & Hans).
    rewrite E. cbn [snd]. cbn zeta in Hans. unfold failuresConsistent.
    destruct (fst (remoteV2 (issueInstant lateness a) tc));
      destruct Hans as (_ & Hcnt & Hlast & _); rewrite Hcnt, Hlast;
      try (split; [lia | split; [discriminate | lia]]); try (split; [lia | tauto]).
  - unfold getV2Session. unfold bind at 1, get at 1. rewrite Ec.
    destruct logger; unfold tell, emit, bind, modify, ret; cbn; split; assumption.
  - destruct (getV2Session_authenticating config logger tempConfig a (or_introl Ec))
      as (r & a' & k & E & _ & _ & _ & _ & Hans).
    rewrite E. cbn [snd]. cbn zeta in Hans. unfold failuresConsistent.
    destruct (fst (remoteV2 (issueInstant lateness a) _));
      destruct Hans as (_ & Hcnt & Hlast & _); rewrite Hcnt, Hlast;
      try (split; [lia | split; [discriminate | lia]]); try (split; [lia | tauto]).
Qed.

(** X22. When the token request is not granted, [getV1Token] throws and keeps
    the cached token and the failure bookkeeping as they were. *)
Theorem getV1Token_not_granted_keeps_cache (config : Credentials) (a : AuthManager) :
  ~ tokenUsable a ->
  (forall tok life, fst (remoteV1 (clock a) config) <> V1Ok tok life) ->
  let run := getV1Token remoteV1 config a in
  (exists e, fst run = Throw e) /\
  cachedV1Token (snd run) = cachedV1Token a /\
  cachedV2Session (snd run) = cachedV2Session a /\
  authFailureCount (snd run) = authFailureCount a /\
  lastAuthFailure (snd run) = lastAuthFailure a.
Proof using remoteV1.
  intros Hno Hnot. cbn zeta.
  destruct (getV1Token remoteV1 config a) as [r a'] eqn:E. cbn [fst snd].
  unfold getV1Token in E. unfold bind at 1, get at 1 in E.
  assert (Hmiss :
    match cachedV1Token a with
    | Some c => if clock a <? expiresAt c then Some (token c) else None
    | None => None
    end = None).
  { destruct (cachedV1Token a) as [c |] eqn:Ec; [| reflexivity].
    destruct (Z.ltb_spec (clock a) (expiresAt c)); [| reflexivity].
    exfalso. apply Hno. exists c. split; [exact Ec | assumption]. }
  rewrite Hmiss in E. run_auth' in E.
  destruct (remoteV1 (clock a) config) as [[e | st txt | tok life] took] eqn:Er;
    cbn [fst] in Hnot; [| | exfalso; apply (Hnot tok life); reflexivity];
    run_auth' in E; destruct (apiStatsTracker a); run_auth' in E;
    injection E as <- <-; cbn; repeat split; eauto.
Qed.

End MoreAuthProps.

Section BackoffProps.
Import JS Effects Auth Notions.

Lemma requiredDelay_capped (count : Z) : 4 <= count -> requiredDelay count = 240000.
Proof.
  intros H4. unfold requiredDelay, MIN_AUTH_RETRY_DELAY.
  rewrite Z.min_r by lia. reflexivity.
Qed.

Lemma requiredDelay_range (count : Z) :
  1 <= count -> 30000 <= requiredDelay count <= 240000.
Proof.
  intros Hc. destruct (Z.le_gt_cases 4 count) as [H4 | H4].
  - rewrite (requiredDelay_capped count H4). lia.
  - assert (count = 1 \/ count = 2 \/ count = 3) as [-> | [-> | ->]] by lia;
      vm_compute; split; discriminate.
Qed.

(** From the first failure on the required delay is 30 s, doubles with
    each further failure, and stays at 240 s from the fourth. *)
Theorem requiredDelay_doubles_until_cap (count : Z) :
  1 <= count ->
  30000 <= requiredDelay count <= 240000 /\
  (count <= 3 -> requiredDelay (count + 1) = 2 * requiredDelay count) /\
  (4 <= count -> requiredDelay count = 240000).
Proof.
  intros Hc. split; [apply requiredDelay_range; exact Hc |]. split.
  - intros H3.
    assert (count = 1 \/ count = 2 \/ count = 3) as [-> | [-> | ->]] by lia; reflexivity.
  - apply requiredDelay_capped.
Qed.

Lemma requiredDelay_doubles_until_cap_example :
  30000 <= requiredDelay 3 <= 240000 /\
  requiredDelay (3 + 1) = 2 * requiredDelay 3 /\
  requiredDelay 9 = 240000.
Proof.
  destruct (requiredDelay_doubles_until_cap 3 ltac:(lia)) as (Hr & H34 & _).
  destruct (requiredDelay_doubles_until_cap 9 ltac:(lia)) as (_ & _ & H9).
  split; [exact Hr |]. split; [apply H34; lia | apply H9; lia].
Defined.

(** X23. The wait before an attempt is what is left of the required delay
    since the last failure: never negative, never above 4 minutes, and
    over exactly when the delay has passed. *)
Theorem getAuthRetryDelay_is_the_remainder (a : AuthManager) (failure : Date) :
  failuresConsistent a ->
  lastAuthFailure a = Some failure ->
  failure <= clock a ->
  getAuthRetryDelay a = Z.max 0 (failure + requiredDelay (authFailureCount a) - clock a) /\
  0 <= getAuthRetryDelay a <= 240000.
Proof.
  intros [Hpos Hiff] Hf Hclock.
  assert (Hc : 1 <= authFailureCount a).
  { destruct (Z.eq_dec (authFailureCount a) 0) as [E | N]; [| lia].
    apply Hiff in E. congruence. }
  pose proof (requiredDelay_range _ Hc) as Hr.
  unfold getAuthRetryDelay. rewrite Hf.
  destruct (Z.ltb_spec (clock a - failure) (requiredDelay (authFailureCount a))); lia.
Qed.

End BackoffProps.

Section MoreAuthExamples.
Import JS Effects Auth Notions.

Lemma freshManager_consistent (tracker : bool) (now : Date) :
  failuresConsistent (freshManager tracker now).
Proof. split; [cbn; lia | split; reflexivity]. Qed.

Lemma getV2Session_granted_then_reused_example :
  fst (getV2Session refusingV2 0 sampleCredentials false None
         (with_clock (wallClock 365 0 0 0 0) holdingSession))
    = Normal {| userId := "user-1"; sessionId := "session-abcdef" |}.
Proof.
  apply (getV2Session_granted_then_reused grantingV2 0 sampleCredentials sampleCredentials
           false false (freshManager true 1000) "user-1" "session-abcdef"
           (wallClock 365 0 0 0 0) refusingV2 0 eq_refl eq_refl).
Defined.

Lemma getV2Session_granted_clears_backoff_example :
  getAuthRetryDelay afterThreeFailures = 120000 /\
  getAuthRetryDelay
    (with_clock 90401
       (snd (getV2Session grantingV2 0 sampleCredentials false None afterThreeFailures))) = 0.
Proof.
  split; [reflexivity |].
  apply (getV2Session_granted_clears_backoff grantingV2 0 sampleCredentials false None
           afterThreeFailures "user-1" "session-abcdef" 90401 (or_introl eq_refl) eq_refl).
Defined.

Lemma getV2Session_refused_is_counted_example :
  fst (getV2Session refusingV2 0 sampleCredentials false None afterThreeFailures)
    = Throw (ErrorObj "HTTP error! status: 401") /\
  authFailureCount
    (snd (getV2Session refusingV2 0 sampleCredentials false None afterThreeFailures)) = 4 /\
  getAuthRetryDelay
    (snd (getV2Session refusingV2 0 sampleCredentials false None afterThreeFailures)) = 240000.
Proof.
  assert (Hpos : 0 <= authFailureCount afterThreeFailures) by (vm_compute; discriminate).
  destruct (getV2Session_refused_is_counted refusingV2 0 sampleCredentials false None
              afterThreeFailures 401 (Normal None) (or_introl eq_refl)
              Hpos eq_refl) as (Hr & Hc & _ & _ & Hd).
  split; [exact Hr |]. split; [exact Hc | exact Hd].
Defined.

Lemma getV2Session_keeps_failures_consistent_example :
  failuresConsistent afterThreeFailures.
Proof.
  unfold afterThreeFailures.
  repeat apply getV2Session_keeps_failures_consistent.
  apply freshManager_consistent.
Defined.

Lemma getV1Token_not_granted_keeps_cache_example :
  cachedV1Token (snd (getV1Token refusingV1 sampleCredentials (holdingToken 5001 5001)))
    = Some {| token := "token-1"; expiresAt := 5001 |}.
Proof.
  apply (getV1Token_not_granted_keeps_cache refusingV1 sampleCredentials
           (holdingToken 5001 5001)).
  - intros (c & Hc & Hlt). injection Hc as <-. cbn in Hlt. lia.
  - intros tok life. discriminate.
Defined.

Lemma getAuthRetryDelay_is_the_remainder_example :
  getAuthRetryDelay (with_clock 150300 afterThreeFailures) = Z.max 0 (90300 + 120000 - 150300).
Proof.
  apply (getAuthRetryDelay_is_the_remainder (with_clock 150300 afterThreeFailures) 90300).
  - split; [vm_compute; discriminate | split; vm_compute; discriminate].
  - vm_compute. reflexivity.
  - vm_compute. discriminate.
Defined.

End MoreAuthExamples.


(** ** More on the device cache *)

Section MoreDeviceCacheProps.
Import JS Effects DeviceCache Notions.
Variable localeCompare : string -> string -> Z.

Lemma assignHeatSetpoint_keeps_rest (hs : HeatSetpoint) (d : Device) :
  withoutHeatSetpoint (assignHeatSetpoint hs d) = withoutHeatSetpoint d.
Proof. destruct d as [nm ty [[temp st [cv |]] |] id gw]; reflexivity. Qed.

Lemma sameId_eq (a b : option Z) : sameId a b = true <-> a = b.
Proof.
  destruct a as [x |], b as [y |]; cbn; split; intros H; try congruence.
  - apply Z.eqb_eq in H. congruence.
  - injection H as ->. apply Z.eqb_refl.
Qed.

Lemma mergeDevice_cases (now : Date) (cached : list Device) (d : Device) :
  mergeDevice now cached d = d \/
  exists e kept stamp,
    In e cached /\ deviceID e = deviceID d /\
    heatSetpointOf e = Some kept /\ heatSetpointOf d <> None /\
    hs_optimisticUpdateTime kept = Some stamp /\ now - stamp < 5000 /\
    mergeDevice now cached d = assignHeatSetpoint kept d.
Proof.
  unfold mergeDevice.
  destruct (List.find _ cached) as [e |] eqn:Hfind; [| left; reflexivity].
  apply find_some in Hfind. destruct Hfind as [Hin Hid]. apply sameId_eq in Hid.
  destruct (heatSetpointOf e) as [kept |] eqn:Hk; [| left; reflexivity].
  destruct (heatSetpointOf d) as [fresh |] eqn:Hf; [| left; reflexivity].
  destruct (negb _ && truthyTime _) eqn:Hc; [| left; reflexivity].
  apply andb_true_iff in Hc. destruct Hc as [_ Ht].
  destruct (hs_optimisticUpdateTime kept) as [stamp |] eqn:Hst; [| discriminate].
  cbn [default from_option]. unfold id.
  destruct (Z.ltb_spec (now - stamp) 5000) as [Hlt | _]; [| left; reflexivity].
  right. exists e, kept, stamp. repeat split; try assumption. discriminate.
Qed.

Lemma heatSetpointOf_assign (hs : HeatSetpoint) (d : Device) :
  heatSetpointOf d <> None -> heatSetpointOf (assignHeatSetpoint hs d) = Some hs.
Proof.
  destruct d as [nm ty [[temp st [cv |]] |] id gw]; cbn; intros H; congruence.
Qed.

(** X24. Whatever the cache holds, a snapshot is stored device by device in its
    own order, and nothing of an incoming device is changed but its heat
    setpoint, which is either the incoming one or one the cache held for
    the same device id under a marker less than 5 seconds old.  The cached
    schedules stay. *)
Theorem setDevices_changes_only_setpoints
    (now : Date) (devices : list Device) (c : DeviceCacheService) :
  exists merged,
    deviceCache (setDevices now devices c) = Some merged /\
    zoneSchedules (setDevices now devices c) = zoneSchedules c /\
    Forall2 (fun m d =>
               withoutHeatSetpoint m = withoutHeatSetpoint d /\
               (heatSetpointOf m = heatSetpointOf d \/
                keptFrom now (default [] (deviceCache c)) d m))
            merged devices.
Proof.
  unfold setDevices. destruct (deviceCache c) as [cached |] eqn:Hc.
  - eexists. split; [reflexivity |]. split; [reflexivity |].
    cbn [default from_option]. unfold id.
    induction devices as [| d l IH]; cbn [map]; constructor; [| exact IH].
    destruct (mergeDevice_cases now cached d)
      as [-> | (e & kept & stamp & Hin & Hid & Hk & Hf & Hst & Hlt & ->)].
    + split; [reflexivity | left; reflexivity].
    + split; [apply assignHeatSetpoint_keeps_rest |].
      right. exists e, kept, stamp. repeat split; try assumption.
      apply heatSetpointOf_assign. exact Hf.
  - exists devices. split; [reflexivity |]. split; [reflexivity |].
    induction devices as [| d l IH]; constructor; [| exact IH].
    split; [reflexivity | left; reflexivity].
Qed.

(** When no cached setpoint carries a marker younger than 5 seconds, the
    snapshot replaces the cached devices as it comes. *)
Theorem setDevices_replaces_settled_cache
    (now : Date) (devices : list Device) (c : DeviceCacheService) :
  (forall cached d, deviceCache c = Some cached -> In d cached -> settledDevice now d) ->
  setDevices now devices c = with_deviceCache (Some devices) c.
Proof.
  intros Hsettled. unfold setDevices.
  destruct (deviceCache c) as [cached |] eqn:Hc; [| reflexivity].
  f_equal. f_equal.
  induction devices as [| d l IH]; [reflexivity |]. cbn [map]. rewrite IH. f_equal.
  destruct (mergeDevice_cases now cached d)
    as [E | (e & kept & stamp & Hin & _ & Hk & _ & Hst & Hlt & _)]; [exact E |].
  pose proof (Hsettled cached e eq_refl Hin kept stamp Hk Hst). lia.
Qed.

End MoreDeviceCacheProps.


Section UpdateThenSnapshot.
Import JS Effects DeviceCache Notions.
Variable localeCompare : string -> string -> Z.

Lemma find_after_store (deviceId : Z) (devices : list Device) (i : nat)
    (device device' : Device) :
  list_find (fun d => deviceID d = Some deviceId) devices = Some (i, device) ->
  deviceID device' = Some deviceId ->
  List.find (fun d => sameId (deviceID d) (Some deviceId)) (<[i := device']> devices)
    = Some device' /\
  list_find (fun d => deviceID d = Some deviceId) (<[i := device']> devices)
    = Some (i, device').
Proof.
  revert i. induction devices as [| x l IH]; intros i Hfind Hid; [discriminate |].
  cbn [list_find] in Hfind.
  destruct (decide (deviceID x = Some deviceId)) as [Hx | Hx].
  - injection Hfind as <- <-. cbn.
    rewrite (proj2 (sameId_eq _ _) Hid).
    destruct (decide (deviceID device' = Some deviceId)); [| contradiction]. split; reflexivity.
  - destruct (list_find _ l) as [[j y] |] eqn:El; [| discriminate].
    cbn in Hfind. injection Hfind as <- <-.
    destruct (IH j eq_refl Hid) as [H1 H2].
    change (<[S j := device']> (x :: l)) with (x :: <[j := device']> l).
    cbn [List.find list_find].
    destruct (sameId (deviceID x) (Some deviceId)) eqn:Es.
    + apply sameId_eq in Es. contradiction.
    + destruct (decide (deviceID x = Some deviceId)); [contradiction |].
      rewrite H1, H2. split; reflexivity.
Qed.

Lemma deviceID_assign (hs : HeatSetpoint) (d : Device) :
  deviceID (assignHeatSetpoint hs d) = deviceID d.
Proof. destruct d as [nm ty [[temp st [cv |]] |] id gw]; reflexivity. Qed.

(** An explicit temperature is written with its status and the present
    instant, in place. *)
Lemma updateDeviceState_explicit
    (now : Date) (deviceId temperature : Z) (status : string)
    (c : DeviceCacheService) (devices : list Device) (i : nat) (device : Device) :
  deviceCache c = Some devices ->
  list_find (fun d => deviceID d = Some deviceId) devices = Some (i, device) ->
  changeableValuesOf device <> None ->
  temperature <> 0 ->
  updateDeviceState localeCompare now deviceId temperature status c =
    (Normal tt,
     with_deviceCache
       (Some (<[i := assignHeatSetpoint (boostSetpoint now temperature status) device]>
                devices)) c).
Proof.
  intros Hcache Hfind Hcv Hne.
  unfold updateDeviceState. unfold bind at 1, get at 1. rewrite Hcache, Hfind.
  destruct (Z.eqb_spec temperature 0) as [E | _]; [contradiction |]. cbn [andb].
  unfold changeableValuesOf in Hcv.
  destruct (thermostat device) as [t |] eqn:Et; [| contradiction].
  destruct (changeableValues t) as [cv |] eqn:Ecv; [| contradiction].
  unfold storeDevice, modify. rewrite Hcache. cbn [option_map].
  destruct (cv_heatSetpoint cv); reflexivity.
Qed.

(** X25. A temperature set through [updateDeviceState] outlives the snapshots
    that arrive less than 5 seconds later and still report another value
    for the device; a snapshot that reports the same value, or arrives 5
    seconds later or more, is stored for the device as it comes. *)
Theorem updateDeviceState_then_setDevices
    (now later : Date) (deviceId temperature : Z) (status : string)
    (c : DeviceCacheService) (devices : list Device) (i : nat) (device : Device)
    (snapshot : list Device) (j : nat) (incoming : Device) (fresh : HeatSetpoint) :
  deviceCache c = Some devices ->
  list_find (fun d => deviceID d = Some deviceId) devices = Some (i, device) ->
  changeableValuesOf device <> None ->
  temperature <> 0 ->
  now <> 0 ->
  snapshot !! j = Some incoming ->
  deviceID incoming = Some deviceId ->
  heatSetpointOf incoming = Some fresh ->
  let c' := snd (updateDeviceState localeCompare now deviceId temperature status c) in
  exists stored,
    deviceCache (setDevices later snapshot c') ≫= (.!! j) = Some stored /\
    withoutHeatSetpoint stored = withoutHeatSetpoint incoming /\
    (later - now < 5000 -> hs_value fresh <> temperature ->
       heatSetpointOf stored = Some (boostSetpoint now temperature status)) /\
    (hs_value fresh = temperature -> stored = incoming) /\
    (5000 <= later - now -> stored = incoming).
Proof.
  intros Hcache Hfind Hcv Hne Hnow Hj Hid Hfresh. cbn zeta.
  rewrite (updateDeviceState_explicit now deviceId temperature status c devices i device
             Hcache Hfind Hcv Hne). cbn [snd].
  set (device' := assignHeatSetpoint (boostSetpoint now temperature status) device).
  assert (Hid' : deviceID device' = Some deviceId).
  { unfold device'. rewrite deviceID_assign.
    apply list_find_Some in Hfind. tauto. }
  destruct (find_after_store deviceId devices i device device' Hfind Hid') as [Hf _].
  assert (Hhs' : heatSetpointOf device' = Some (boostSetpoint now temperature status)).
  { unfold device'. clear -Hcv.
    destruct device as [nm ty [[temp st [cv |]] |] id gw]; cbn in Hcv |- *; congruence. }
  exists (mergeDevice later (<[i := device']> devices) incoming).
  split; [| split; [| split; [| split]]].
  - unfold setDevices, with_deviceCache. cbn [deviceCache mbind option_bind].
    rewrite list_lookup_fmap, Hj. reflexivity.
  - destruct (mergeDevice_cases later (<[i := device']> devices) incoming)
      as [-> | (e & kept & stamp & _ & _ & _ & _ & _ & _ & ->)];
      [reflexivity | apply assignHeatSetpoint_keeps_rest].
  - intros Hrecent Hdiff.
    apply (mergeDevice_keeps_recent_setpoint later now _ device' incoming _ fresh).
    + rewrite Hid. exact Hf.
    + exact Hhs'.
    + exact Hfresh.
    + cbn. congruence.
    + reflexivity.
    + exact Hnow.
    + exact Hrecent.
  - intros Hsame. unfold mergeDevice. rewrite Hid, Hf, Hhs', Hfresh.
    cbn [hs_value boostSetpoint]. rewrite <- Hsame, Z.eqb_refl. reflexivity.
  - intros Hold.
    apply (mergeDevice_takes_incoming_after_5s later now _ device' incoming
             (boostSetpoint now temperature status)).
    + rewrite Hid. exact Hf.
    + exact Hhs'.
    + reflexivity.
    + exact Hold.
Qed.

(** Neither update does anything when the cache holds no device of the
    given id, and the hot-water update does nothing when the device it
    finds is not a hot-water device. *)
Theorem updates_ignore_other_devices
    (now : Date) (deviceId temperature : Z) (mode status : string)
    (c : DeviceCacheService) :
  (forall devices i device,
     deviceCache c = Some devices ->
     list_find (fun d => deviceID d = Some deviceId) devices = Some (i, device) ->
     thermostatModelType device <> "DOMESTIC_HOT_WATER") ->
  updateDHWState now deviceId mode status c = (Normal tt, c) /\
  ((forall devices, deviceCache c = Some devices ->
      Forall (fun d => deviceID d <> Some deviceId) devices) ->
   updateDeviceState localeCompare now deviceId temperature status c = (Normal tt, c)).
Proof.
  intros Hother. split.
  - unfold updateDHWState. unfold bind at 1, get at 1.
    destruct (deviceCache c) as [devices |] eqn:Hc; [| reflexivity].
    destruct (list_find _ devices) as [[i device] |] eqn:Hf; [| reflexivity].
    specialize (Hother devices i device eq_refl Hf).
    destruct (String.eqb_spec (thermostatModelType device) "DOMESTIC_HOT_WATER");
      [contradiction | reflexivity].
  - intros Hnone. unfold updateDeviceState. unfold bind at 1, get at 1.
    destruct (deviceCache c) as [devices |] eqn:Hc; [| reflexivity].
    destruct (list_find _ devices) as [[i device] |] eqn:Hf; [| reflexivity].
    exfalso. apply list_find_Some in Hf. destruct Hf as (Hi & Hid & _).
    specialize (Hnone devices eq_refl). rewrite Forall_lookup in Hnone.
    exact (Hnone i device Hi Hid).
Qed.

End UpdateThenSnapshot.


Section ScheduledTemperatureProps.
Import JS Effects DeviceCache Notions.
Variable localeCompare : string -> string -> Z.

Lemma insertSorted_In (x y : Switchpoint) (l : list Switchpoint) :
  In y (insertSorted localeCompare x l) <-> y = x \/ In y l.
Proof.
  induction l as [| z r IH]; cbn [insertSorted].
  - cbn. intuition congruence.
  - destruct (compareSwitchpoints localeCompare x z <=? 0); cbn [In] in *.
    + intuition congruence.
    + rewrite IH. intuition congruence.
Qed.

Lemma sortSwitchpoints_In (y : Switchpoint) (l : list Switchpoint) :
  In y (sortSwitchpoints localeCompare l) <-> In y l.
Proof.
  induction l as [| x r IH]; [reflexivity |].
  change (sortSwitchpoints localeCompare (x :: r))
    with (insertSorted localeCompare x (sortSwitchpoints localeCompare r)).
  rewrite insertSorted_In, IH. cbn [In]. intuition congruence.
Qed.

Lemma scanActive_from (currentTime : string) (acc : option Z)
    (l : list Switchpoint) (t : Z) :
  scanActive currentTime acc l = Some t ->
  acc = Some t \/ exists sp, In sp l /\ sp_heatSetpoint sp = Some t.
Proof.
  revert acc. induction l as [| sp r IH]; intros acc H; cbn [scanActive] in H.
  - left. exact H.
  - destruct (sp_heatSetpoint sp) as [h |] eqn:Eh; [| left; exact H].
    destruct (String.leb _ currentTime); [| left; exact H].
    destruct (IH _ H) as [E | (sp' & Hin & Hsp)].
    + right. exists sp. split; [left; reflexivity | congruence].
    + right. exists sp'. split; [right; exact Hin | exact Hsp].
Qed.

Lemma last_In (l : list Switchpoint) (d : Switchpoint) :
  l <> [] -> In (List.last l d) l.
Proof.
  induction l as [| x r IH]; [congruence |]. intros _.
  destruct r as [| y r']; [left; reflexivity |].
  right. apply IH. discriminate.
Qed.

(** X26. A scheduled temperature is never made up: it is the heat setpoint of
    a switchpoint that has a time and belongs to the daily schedule, for
    the day the date falls on, of a cached schedule of that zone. *)
Theorem getScheduledTemperature_from_schedule
    (zone : string) (date : Date) (c : DeviceCacheService) (t : Z) :
  getScheduledTemperature localeCompare zone date c = Some t ->
  exists schedule ds sps sp,
    In schedule (zoneSchedules c) /\ zoneId schedule = zone /\
    In ds (dailySchedules schedule) /\ dayMatches date ds /\
    switchpoints ds = Some sps /\ In sp sps /\
    timeValue sp <> None /\ sp_heatSetpoint sp = Some t.
Proof.
  unfold getScheduledTemperature. intros H.
  destruct (List.find _ (zoneSchedules c)) as [schedule |] eqn:Hs; [| discriminate].
  apply find_some in Hs. destruct Hs as [Hins Hzone]. apply String.eqb_eq in Hzone.
  cbv zeta in H.
  destruct (List.find _ (dailySchedules schedule)) as [ds |] eqn:Hd; [| discriminate].
  apply find_some in Hd. destruct Hd as [Hinds Hday].
  destruct (switchpoints ds) as [sps |] eqn:Hsps; [| discriminate].
  assert (Hsp : exists sp,
            In sp (sortSwitchpoints localeCompare
                     (List.filter (fun sp => if timeValue sp is Some _ then true else false)
                        sps)) /\
            sp_heatSetpoint sp = Some t).
  { destruct sps as [| s0 sps']; [discriminate |].
    set (sorted := sortSwitchpoints localeCompare _) in *.
    destruct sorted as [| x r] eqn:Esorted; [discriminate |].
    destruct (scanActive _ None (x :: r)) as [t' |] eqn:Escan.
    - injection H as ->.
      destruct (scanActive_from _ _ _ _ Escan) as [E | Hex]; [discriminate | exact Hex].
    - eexists. split; [| exact H]. apply last_In. discriminate. }
  destruct Hsp as (sp & Hin & Ht).
  apply (proj1 (sortSwitchpoints_In _ _)) in Hin. apply (proj1 (filter_In _ _ _)) in Hin. destruct Hin as [Hin Htime].
  exists schedule, ds, sps, sp. repeat split; try assumption.
  - unfold dayMatches. destruct (dayOfWeek ds) as [n | s].
    + apply Z.eqb_eq. exact Hday.
    + apply String.eqb_eq. exact Hday.
  - destruct (timeValue sp); [discriminate | discriminate].
Qed.

End ScheduledTemperatureProps.

Section MoreDeviceCacheExamples.
Import JS Effects DeviceCache Notions.

Lemma getScheduledTemperature_from_schedule_example :
  getScheduledTemperature codeCompare "101" noon scheduledCache = Some 2100 /\
  exists schedule ds sps sp,
    In schedule (zoneSchedules scheduledCache) /\ zoneId schedule = "101" /\
    In ds (dailySchedules schedule) /\ dayMatches noon ds /\
    switchpoints ds = Some sps /\ In sp sps /\
    timeValue sp <> None /\ sp_heatSetpoint sp = Some 2100.
Proof.
  assert (H : getScheduledTemperature codeCompare "101" noon scheduledCache = Some 2100)
    by (vm_compute; reflexivity).
  split; [exact H |].
  exact (getScheduledTemperature_from_schedule codeCompare "101" noon scheduledCache 2100 H).
Defined.

(** A boost of zone 101 to 25 degrees at noon, and the snapshots that
    still report 23.5 degrees one second and five seconds later. *)
Lemma updateDeviceState_then_setDevices_example :
  let c' := snd (updateDeviceState codeCompare noon 101 2500 "Temporary" zoneCache) in
  (heatSetpointOf <$>
     (deviceCache (setDevices (noon + 1000) [zone 101 2350 "Temporary"] c') ≫= (.!! 0%nat)))
    = Some (Some (boostSetpoint noon 2500 "Temporary")) /\
  deviceCache (setDevices (noon + 5000) [zone 101 2350 "Temporary"] c') ≫= (.!! 0%nat)
    = Some (zone 101 2350 "Temporary").
Proof.
  assert (Hcache : deviceCache zoneCache
                   = Some [hotWater "DHWOff" "Scheduled"; zone 101 2350 "Temporary"])
    by reflexivity.
  assert (Hfind : list_find (fun d => deviceID d = Some 101)
                    [hotWater "DHWOff" "Scheduled"; zone 101 2350 "Temporary"]
                  = Some (1%nat, zone 101 2350 "Temporary")) by reflexivity.
  assert (Hcv : changeableValuesOf (zone 101 2350 "Temporary") <> None) by discriminate.
  assert (Hne : 2500 <> 0) by discriminate.
  assert (Hnow : noon <> 0) by discriminate.
  pose proof (fun later =>
    updateDeviceState_then_setDevices codeCompare noon later 101 2500 "Temporary"
      zoneCache _ 1%nat _ [zone 101 2350 "Temporary"] 0%nat (zone 101 2350 "Temporary")
      _ Hcache Hfind Hcv Hne Hnow eq_refl eq_refl eq_refl) as H.
  cbv zeta in H |- *. split.
  - destruct (H (noon + 1000)) as (stored & Hst & _ & Hkeep & _).
    rewrite Hst. cbn [fmap option_fmap option_map]. f_equal.
    apply Hkeep; [lia | discriminate].
  - destruct (H (noon + 5000)) as (stored & Hst & _ & _ & _ & Hold).
    rewrite (Hold ltac:(lia)) in Hst. exact Hst.
Defined.

Lemma setDevices_replaces_settled_cache_example :
  let c' := snd (updateDeviceState codeCompare noon 101 2500 "Temporary" zoneCache) in
  setDevices (noon + 5000) [zone 101 2350 "Temporary"] c'
    = with_deviceCache (Some [zone 101 2350 "Temporary"]) c'.
Proof.
  cbv zeta. apply setDevices_replaces_settled_cache.
  intros cached d Hc Hin hs stamp Hhs Hst.
  vm_compute in Hc. injection Hc as <-.
  destruct Hin as [<- | [<- | []]].
  - discriminate.
  - vm_compute in Hhs. injection Hhs as <-. injection Hst as <-. vm_compute. discriminate.
Defined.

Lemma updates_ignore_other_devices_example :
  updateDHWState noon 101 "DHWOn" "Temporary" zoneCache = (Normal tt, zoneCache) /\
  updateDeviceState codeCompare noon 7 2500 "Temporary" zoneCache = (Normal tt, zoneCache).
Proof.
  destruct (updates_ignore_other_devices codeCompare noon 101 2500 "DHWOn" "Temporary"
              zoneCache) as [Hdhw _].
  { intros devices i device Hc Hf. injection Hc as <-.
    vm_compute in Hf. injection Hf as _ <-. discriminate. }
  destruct (updates_ignore_other_devices codeCompare noon 7 2500 "DHWOn" "Temporary"
              zoneCache) as [_ Hzone].
  { intros devices i device Hc Hf. injection Hc as <-. vm_compute in Hf. discriminate. }
  split; [exact Hdhw |]. apply Hzone.
  intros devices Hc. injection Hc as <-.
  repeat constructor; discriminate.
Defined.

End MoreDeviceCacheExamples.


(** ** Device details from the cache *)

Section DeviceStateProps.
Import JS Effects DeviceCache ZoneService Notions.
Variable localeCompare : string -> string -> Z.
Variable overrideRules : list OverrideRule.
Variable dhwSetTemp : Z.

Lemma orString_nonempty (s fallback : string) : s <> "" -> orString (Some s) fallback = s.
Proof.
  intros H. unfold orString. destruct (String.eqb_spec s ""); [contradiction | reflexivity].
Qed.

(** X27. What [getDeviceState] shows of a zone right after [updateDeviceState]
    set an explicit temperature is what it showed before, with the new
    target temperature and status. *)
Theorem getDeviceState_after_updateDeviceState
    (now later : Date) (deviceId temperature : Z) (status : string)
    (c : DeviceCacheService) (devices : list Device) (i : nat) (device : Device) :
  deviceCache c = Some devices ->
  list_find (fun d => deviceID d = Some deviceId) devices = Some (i, device) ->
  changeableValuesOf device <> None ->
  thermostatModelType device <> "DOMESTIC_HOT_WATER" ->
  temperature <> 0 ->
  status <> "" ->
  let details := getDeviceDetails overrideRules dhwSetTemp later in
  let c' := snd (updateDeviceState localeCompare now deviceId temperature status c) in
  exists before,
    getDeviceState deviceId details c = Normal (Some before) /\
    getDeviceState deviceId details c' = Normal (Some (withTarget temperature status before)).
Proof.
  intros Hcache Hfind Hcv Hty Hne Hst. cbn zeta.
  rewrite (updateDeviceState_explicit localeCompare now deviceId temperature status c
             devices i device Hcache Hfind Hcv Hne). cbn [snd].
  set (device' := assignHeatSetpoint (boostSetpoint now temperature status) device).
  assert (Hid' : deviceID device' = Some deviceId).
  { unfold device'. rewrite deviceID_assign. apply list_find_Some in Hfind. tauto. }
  destruct (find_after_store deviceId devices i device device' Hfind Hid') as [_ Hf].
  unfold getDeviceState. cbn [deviceCache with_deviceCache]. rewrite Hcache, Hfind, Hf.
  unfold device'. clear -Hcv Hty Hst.
  destruct device as [nm ty [[temp tst [cv |]] |] id gw]; cbn in Hcv, Hty; try contradiction.
  unfold getDeviceDetails, assignHeatSetpoint.
  cbn [thermostat changeableValues thermostatModelType with_thermostat
       with_changeableValues with_heatSetpoint name deviceID cv_heatSetpoint
       indoorTemperature indoorTemperatureStatus].
  destruct (String.eqb_spec ty "DOMESTIC_HOT_WATER"); [contradiction |].
  eexists. split; [reflexivity |].
  unfold withTarget. cbn [option_map boostSetpoint hs_value hs_status dd_deviceID
    dd_thermostatModelType dd_name dd_curTemp dd_dhwState dd_isFailed dd_isOverrideAllowed].
  rewrite (orString_nonempty status "N/A" Hst). reflexivity.
Qed.

(** X28. What [getDeviceState] shows of the hot water right after
    [updateDHWState] is what it showed before, in the new state and
    status. *)
Theorem getDeviceState_after_updateDHWState
    (now later : Date) (deviceId : Z) (mode status : string)
    (c : DeviceCacheService) (devices : list Device) (i : nat) (device : Device) :
  deviceCache c = Some devices ->
  list_find (fun d => deviceID d = Some deviceId) devices = Some (i, device) ->
  changeableValuesOf device <> None ->
  thermostatModelType device = "DOMESTIC_HOT_WATER" ->
  mode <> "" ->
  status <> "" ->
  let details := getDeviceDetails overrideRules dhwSetTemp later in
  let c' := snd (updateDHWState now deviceId mode status c) in
  exists before,
    getDeviceState deviceId details c = Normal (Some before) /\
    getDeviceState deviceId details c'
      = Normal (Some (withHotWaterState mode status before)).
Proof.
  intros Hcache Hfind Hcv Hty Hmode Hst. cbn zeta.
  pose proof Hfind as Hfind0. apply list_find_Some in Hfind0. destruct Hfind0 as (_ & Hid & _).
  unfold updateDHWState. unfold bind at 1, get at 1. rewrite Hcache, Hfind, Hty.
  cbn [String.eqb Ascii.eqb Bool.eqb negb].
  change (negb ("DOMESTIC_HOT_WATER" =? "DOMESTIC_HOT_WATER")%string) with false.
  cbv iota.
  unfold changeableValuesOf in Hcv.
  destruct (thermostat device) as [t |] eqn:Et; [| contradiction].
  destruct (changeableValues t) as [cv |] eqn:Ecv; [| contradiction].
  unfold storeDevice, modify. cbn [snd]. rewrite Hcache. cbn [option_map].
  match goal with |- context [<[i := ?d]> devices] => set (device' := d) end.
  assert (Hid' : deviceID device' = Some deviceId) by exact Hid.
  destruct (find_after_store deviceId devices i device device' Hfind Hid') as [_ Hf].
  unfold getDeviceState. cbn [deviceCache with_deviceCache]. rewrite Hcache, Hfind, Hf.
  unfold device', getDeviceDetails.
  cbn [thermostat changeableValues thermostatModelType with_thermostat
       with_changeableValues name deviceID cv_mode cv_status
       indoorTemperature indoorTemperatureStatus].
  rewrite Et, Ecv, Hty.
  change ("DOMESTIC_HOT_WATER" =? "DOMESTIC_HOT_WATER")%string with true. cbv iota.
  eexists. split; [reflexivity |].
  unfold withHotWaterState. cbn [dd_deviceID dd_thermostatModelType dd_name dd_curTemp
    dd_setTemp dd_isFailed dd_isOverrideAllowed].
  rewrite (orString_nonempty mode "N/A" Hmode), (orString_nonempty status "Scheduled" Hst).
  reflexivity.
Qed.

End DeviceStateProps.


Section DeviceStateExamples.
Import JS Effects DeviceCache ZoneService Notions.

Lemma getDeviceState_after_updateDeviceState_example :
  let details := getDeviceDetails sampleRules 5000 (noon + 1000) in
  let c' := snd (updateDeviceState codeCompare noon 101 2500 "Temporary" zoneCache) in
  exists before,
    getDeviceState 101 details zoneCache = Normal (Some before) /\
    dd_name before = "Living Room" /\ dd_setTemp before = Some 2350 /\
    getDeviceState 101 details c' = Normal (Some (withTarget 2500 "Temporary" before)).
Proof.
  cbv zeta.
  assert (Hcv : changeableValuesOf (zone 101 2350 "Temporary") <> None) by discriminate.
  assert (Hty : thermostatModelType (zone 101 2350 "Temporary") <> "DOMESTIC_HOT_WATER")
    by discriminate.
  assert (Hne : 2500 <> 0) by discriminate.
  assert (Hst : "Temporary" <> "") by discriminate.
  destruct (getDeviceState_after_updateDeviceState codeCompare sampleRules 5000
              noon (noon + 1000) 101 2500 "Temporary" zoneCache _ 1%nat _
              eq_refl eq_refl Hcv Hty Hne Hst) as (before & Hb & Ha).
  exists before. split; [exact Hb |].
  assert (E : getDeviceState 101 (getDeviceDetails sampleRules 5000 (noon + 1000)) zoneCache
              = Normal (Some (withTarget 2350 "Temporary"
                   {| dd_deviceID := Some 101; dd_thermostatModelType := "EMEA_ZONE";
                      dd_name := "Living Room"; dd_curTemp := Some 1950;
                      dd_setTemp := None; dd_status := ""; dd_dhwState := None;
                      dd_isFailed := false;
                      dd_isOverrideAllowed :=
                        Some (isOverrideAllowed sampleRules "Living Room" (noon + 1000)) |})))
    by reflexivity.
  rewrite E in Hb. injection Hb as <-.
  split; [reflexivity |]. split; [reflexivity | exact Ha].
Defined.

Lemma getDeviceState_after_updateDHWState_example :
  let details := getDeviceDetails sampleRules 5000 (noon + 1000) in
  let c' := snd (updateDHWState noon 2 "DHWOn" "Temporary" zoneCache) in
  exists before,
    getDeviceState 2 details zoneCache = Normal (Some before) /\
    dd_dhwState before = Some "DHWOff" /\ dd_status before = "Scheduled" /\
    getDeviceState 2 details c' = Normal (Some (withHotWaterState "DHWOn" "Temporary" before)).
Proof.
  cbv zeta.
  assert (Hcv : changeableValuesOf (hotWater "DHWOff" "Scheduled") <> None) by discriminate.
  assert (Hm : "DHWOn" <> "") by discriminate.
  assert (Hst : "Temporary" <> "") by discriminate.
  destruct (getDeviceState_after_updateDHWState sampleRules 5000
              noon (noon + 1000) 2 "DHWOn" "Temporary" zoneCache _ 0%nat _
              eq_refl eq_refl Hcv eq_refl Hm Hst) as (before & Hb & Ha).
  exists before. split; [exact Hb |].
  assert (E : getDeviceState 2 (getDeviceDetails sampleRules 5000 (noon + 1000)) zoneCache
              = Normal (Some (withHotWaterState "DHWOff" "Scheduled"
                   {| dd_deviceID := Some 2; dd_thermostatModelType := "DOMESTIC_HOT_WATER";
                      dd_name := "Domestic Hot Water"; dd_curTemp := Some 5500;
                      dd_setTemp := Some 5000; dd_status := ""; dd_dhwState := None;
                      dd_isFailed := false; dd_isOverrideAllowed := None |})))
    by reflexivity.
  rewrite E in Hb. injection Hb as <-.
  split; [reflexivity |]. split; [reflexivity | exact Ha].
Defined.

End DeviceStateExamples.


(** ** The statistics tracker *)

Section TrackerProps.
Import JS ApiStatsTracker Notions.

Lemma increment_below (n : Z) : n < 2 ^ 53 -> increment n = n + 1.
Proof.
  intros H. unfold increment. destruct (Z.ltb_spec n (2 ^ 53)); [reflexivity | lia].
Qed.

Lemma statsConsistent_empty (bound : Z) : 0 <= bound -> statsConsistent bound createEmptyStats.
Proof.
  intros H. unfold statsConsistent, authConsistent, requestsConsistent, stamped. cbn.
  repeat split; try lia; try reflexivity.
Qed.

Lemma statsConsistent_mono (n m : Z) (s : ApiStats) :
  n <= m -> statsConsistent n s -> statsConsistent m s.
Proof.
  unfold statsConsistent, authConsistent, requestsConsistent. intros Hle H.
  decompose [and] H. repeat match goal with |- _ /\ _ => split end; try assumption; lia.
Qed.

Lemma succeeded_consistent (n : Z) (t : Date) (r : RequestStats) :
  n < 2 ^ 53 -> requestsConsistent n r -> requestsConsistent (n + 1) (succeeded t r).
Proof.
  unfold requestsConsistent, stamped. intros Hn (Hs & Hf & Hss & Hsf). cbn.
  rewrite increment_below by lia.
  repeat split; try lia; try discriminate; try tauto.
Qed.

Lemma failedAt_consistent (n : Z) (t : Date) (r : RequestStats) :
  n < 2 ^ 53 -> requestsConsistent n r -> requestsConsistent (n + 1) (failedAt t r).
Proof.
  unfold requestsConsistent, stamped. intros Hn (Hs & Hf & Hss & Hsf). cbn.
  rewrite increment_below by lia.
  repeat split; try lia; try discriminate; try tauto.
Qed.

Lemma requestsConsistent_mono (n m : Z) (r : RequestStats) :
  n <= m -> requestsConsistent n r -> requestsConsistent m r.
Proof.
  unfold requestsConsistent. intros Hle H.
  decompose [and] H. repeat match goal with |- _ /\ _ => split end; try assumption; lia.
Qed.

Lemma authConsistent_mono (n m : Z) (a : AuthStats) :
  n <= m -> authConsistent n a -> authConsistent m a.
Proof.
  unfold authConsistent. intros Hle H.
  decompose [and] H. repeat match goal with |- _ /\ _ => split end; try assumption; lia.
Qed.

Lemma perform_on_api (n : Z) (call : TrackerCall) (s : ApiStats) (f : ApiStats -> ApiStats) :
  statsConsistent (n + 1) (f s) ->
  forall st api api',
    statsConsistent n (statsOf api' st) ->
    s = statsOf api st ->
    statsConsistent (n + 1) (statsOf api' (onApi api f st)).
Proof.
  intros Hf st api api' Hc ->.
  destruct api, api'; cbn; try exact Hf; apply (statsConsistent_mono n); (lia || exact Hc).
Qed.

Lemma perform_consistent (n : Z) (call : TrackerCall) (st : ApiStatistics) :
  0 <= n < 2 ^ 53 ->
  (forall api, statsConsistent n (statsOf api st)) ->
  forall api, statsConsistent (n + 1) (statsOf api (perform st call)).
Proof.
  intros Hn Hst api'.
  assert (Hstep : forall api f,
            statsConsistent (n + 1) (f (statsOf api st)) ->
            statsConsistent (n + 1) (statsOf api' (onApi api f st))).
  { intros api f Hf. apply (perform_on_api n call (statsOf api st)); auto. }
  destruct call as [api t | api t | api t | api t | api t | api t | api t | | api];
    cbn [perform].
  - apply Hstep. destruct (Hst api) as ((Hsum & Hs & Hf & Hr & He & S1 & S2 & S3) & Hg & Hp).
    split; [| split; apply (requestsConsistent_mono n); (lia || assumption)].
    unfold authConsistent, stamped in *. cbn.
    rewrite !increment_below by lia.
    repeat split; try lia; try discriminate; try tauto.
  - apply Hstep. destruct (Hst api) as ((Hsum & Hs & Hf & Hr & He & S1 & S2 & S3) & Hg & Hp).
    split; [| split; apply (requestsConsistent_mono n); (lia || assumption)].
    unfold authConsistent, stamped in *. cbn.
    rewrite !increment_below by lia.
    repeat split; try lia; try discriminate; try tauto.
  - apply Hstep. destruct (Hst api) as ((Hsum & Hs & Hf & Hr & He & S1 & S2 & S3) & Hg & Hp).
    split; [| split; apply (requestsConsistent_mono n); (lia || assumption)].
    unfold authConsistent, stamped in *. cbn.
    rewrite !increment_below by lia.
    repeat split; try lia; try discriminate; try tauto.
  - apply Hstep. destruct (Hst api) as (Ha & Hg & Hp).
    split; [apply (authConsistent_mono n); (lia || assumption) |].
    split; [apply succeeded_consistent; (lia || assumption) |].
    apply (requestsConsistent_mono n); (lia || assumption).
  - apply Hstep. destruct (Hst api) as (Ha & Hg & Hp).
    split; [apply (authConsistent_mono n); (lia || assumption) |].
    split; [apply failedAt_consistent; (lia || assumption) |].
    apply (requestsConsistent_mono n); (lia || assumption).
  - apply Hstep. destruct (Hst api) as (Ha & Hg & Hp).
    split; [apply (authConsistent_mono n); (lia || assumption) |].
    split; [apply (requestsConsistent_mono n); (lia || assumption) |].
    apply succeeded_consistent; (lia || assumption).
  - apply Hstep. destruct (Hst api) as (Ha & Hg & Hp).
    split; [apply (authConsistent_mono n); (lia || assumption) |].
    split; [apply (requestsConsistent_mono n); (lia || assumption) |].
    apply failedAt_consistent; (lia || assumption).
  - destruct api'; apply statsConsistent_empty; lia.
  - apply Hstep. apply statsConsistent_empty. lia.
Qed.

Lemma fold_perform_consistent (calls : list TrackerCall) (n : Z) (st : ApiStatistics) :
  0 <= n ->
  n + Z.of_nat (length calls) <= 2 ^ 53 ->
  (forall api, statsConsistent n (statsOf api st)) ->
  forall api,
    statsConsistent (n + Z.of_nat (length calls)) (statsOf api (fold_left perform calls st)).
Proof.
  revert n st. induction calls as [| call calls IH]; intros n st Hn Hlen Hst api.
  - cbn. rewrite Z.add_0_r. apply Hst.
  - cbn [fold_left length] in Hlen |- *. rewrite Nat2Z.inj_succ in Hlen |- *.
    replace (n + Z.succ (Z.of_nat (length calls)))
      with ((n + 1) + Z.of_nat (length calls)) by lia.
    apply IH; [lia | lia |].
    apply perform_consistent; [lia | exact Hst].
Qed.

(** X29. Whatever is recorded or reset on a new tracker, in up to 2^53 calls:
    for each API the authentication requests are the successes plus the
    failures, no counter is negative or above the number of calls, and a
    counter is 0 exactly while its timestamp is unset. *)
Theorem tracker_stays_consistent (calls : list TrackerCall) (api : Auth.Api) :
  Z.of_nat (length calls) <= 2 ^ 53 ->
  statsConsistent (Z.of_nat (length calls)) (statsOf api (getStats (afterCalls calls))).
Proof.
  intros Hlen. unfold getStats, afterCalls.
  apply (fold_perform_consistent calls 0 newTracker); [lia | lia |].
  intros []; apply statsConsistent_empty; lia.
Qed.

Lemma tracker_stays_consistent_example :
  statsConsistent 4
    (statsOf Auth.v2
       (afterCalls [CallRecordAuthFailure Auth.v2 1000; CallRecordAuth Auth.v2 31000;
                    CallRecordGetSuccess Auth.v2 31500; CallRecordAuthExpired Auth.v1 40000])) /\
  totalRequests
    (auth (statsOf Auth.v2
       (afterCalls [CallRecordAuthFailure Auth.v2 1000; CallRecordAuth Auth.v2 31000;
                    CallRecordGetSuccess Auth.v2 31500; CallRecordAuthExpired Auth.v1 40000])))
    = 2.
Proof.
  split; [| reflexivity].
  apply (tracker_stays_consistent
           [CallRecordAuthFailure Auth.v2 1000; CallRecordAuth Auth.v2 31000;
            CallRecordGetSuccess Auth.v2 31500; CallRecordAuthExpired Auth.v1 40000] Auth.v2).
  cbn. lia.
Defined.

End TrackerProps.

(** ** Override end times *)

Section OverrideEndProps.
Import JS Effects JSDate Http Notions.
Variable LocalTZA : Z -> bool -> Z.

Lemma TimeClip_valid (t : Z) : Z.abs t <= 8640000000000000 -> TimeClip t = Some t.
Proof.
  intros H. unfold TimeClip.
  destruct (Z.leb_spec (Z.abs t) 8640000000000000); [reflexivity | lia].
Qed.

Lemma TimeClip_invalid (t : Z) : 8640000000000000 < Z.abs t -> TimeClip t = None.
Proof.
  intros H. unfold TimeClip.
  destruct (Z.leb_spec (Z.abs t) 8640000000000000); [lia | reflexivity].
Qed.

Lemma MakeDate_minutes (t m : Z) :
  MakeDate (Day t) (MakeTime (HourFromTime t) m (SecFromTime t) (msFromTime t))
    = t - MinFromTime t * 60000 + m * 60000.
Proof.
  unfold MakeDate, MakeTime, Day, HourFromTime, MinFromTime, SecFromTime, msFromTime.
  Z.div_mod_to_equations. lia.
Qed.

Lemma MakeDate_seconds (t sec : Z) :
  MakeDate (Day t) (MakeTime (HourFromTime t) (MinFromTime t) sec (msFromTime t))
    = t - SecFromTime t * 1000 + sec * 1000.
Proof.
  unfold MakeDate, MakeTime, Day, HourFromTime, MinFromTime, SecFromTime, msFromTime.
  Z.div_mod_to_equations. lia.
Qed.

Lemma MakeDate_milliseconds (t ms : Z) :
  MakeDate (Day t) (MakeTime (HourFromTime t) (MinFromTime t) (SecFromTime t) ms)
    = t - msFromTime t + ms.
Proof.
  unfold MakeDate, MakeTime, Day, HourFromTime, MinFromTime, SecFromTime, msFromTime.
  Z.div_mod_to_equations. lia.
Qed.

(** The three steps on a local time [t]: the minutes rounded up to a
    multiple of 5, then the seconds and the milliseconds dropped. *)
Lemma rounded_local_time (t : Z) :
  let m := MinFromTime t in
  let t1 := t - m * 60000 + ceilDiv m 5 * 5 * 60000 in
  let t2 := t1 - SecFromTime t1 * 1000 in
  let t3 := t2 - msFromTime t2 in
  t <= t1 < t + fiveMinutes /\ t - 60000 < t2 <= t1 /\ t - 60000 < t3 <= t2 /\
  t3 mod fiveMinutes = 0 /\
  (m mod 5 = 0 -> t3 = t - t mod 60000) /\
  (m mod 5 <> 0 -> t < t3).
Proof.
  cbv zeta. unfold fiveMinutes.
  set (q := t / 60000). set (r := t mod 60000).
  assert (He : t = 60000 * q + r) by (apply Z.div_mod; lia).
  assert (Hr : 0 <= r < 60000) by (apply Z.mod_pos_bound; lia).
  set (m := MinFromTime t). assert (Hm : m = q mod 60) by reflexivity.
  set (r5 := ceilDiv m 5 * 5).
  assert (Hm60 : 0 <= m < 60) by (rewrite Hm; apply Z.mod_pos_bound; lia).
  assert (Hr5 : m <= r5 < m + 5 /\ r5 mod 5 = 0 /\ (m mod 5 = 0 -> r5 = m)).
  { unfold r5, ceilDiv. split; [| split].
    - pose proof (Z.div_mod (- m) 5 ltac:(lia)). pose proof (Z.mod_pos_bound (- m) 5 ltac:(lia)).
      lia.
    - apply Z.mod_mul. lia.
    - intros H5. pose proof (Z.div_mod m 5 ltac:(lia)) as Hd. rewrite H5 in Hd.
      replace (- m) with ((- (m / 5)) * 5) by lia. rewrite Z.div_mul by lia. lia. }
  destruct Hr5 as (Hr5a & Hr5b & Hr5c).
  set (k := q - m + r5).
  assert (Hd1 : t - m * 60000 + r5 * 60000 = 60000 * k + r) by (unfold k; lia).
  rewrite Hd1.
  assert (Hs : SecFromTime (60000 * k + r) = r / 1000).
  { unfold SecFromTime.
    replace (60000 * k + r) with (r + (60 * k) * 1000) by lia.
    rewrite Z.div_add by lia.
    replace (r / 1000 + 60 * k) with (r / 1000 + k * 60) by lia.
    rewrite Z.mod_add by lia. apply Z.mod_small.
    split; [apply Z.div_pos; lia | apply Z.div_lt_upper_bound; lia]. }
  rewrite Hs.
  pose proof (Z.div_mod r 1000 ltac:(lia)) as Hr1000.
  pose proof (Z.mod_pos_bound r 1000 ltac:(lia)) as Hrm.
  assert (Hd2 : 60000 * k + r - r / 1000 * 1000 = 60000 * k + r mod 1000) by lia.
  rewrite Hd2.
  assert (Hms : msFromTime (60000 * k + r mod 1000) = r mod 1000).
  { unfold msFromTime.
    replace (60000 * k + r mod 1000) with (r mod 1000 + (60 * k) * 1000) by lia.
    rewrite Z.mod_add by lia. apply Z.mod_small. exact Hrm. }
  rewrite Hms.
  replace (60000 * k + r mod 1000 - r mod 1000) with (60000 * k) by lia.
  assert (Hq : q - m = 60 * (q / 60)).
  { rewrite Hm. pose proof (Z.div_mod q 60 ltac:(lia)). lia. }
  split; [unfold k; lia |]. split; [unfold k; lia |]. split; [unfold k; lia |].
  split; [| split].
  - pose proof (Z.div_mod r5 5 ltac:(lia)) as H5. rewrite Hr5b in H5.
    replace (60000 * k) with ((12 * (q / 60) + r5 / 5) * (5 * 60 * 1000)) by (unfold k; lia).
    apply Z.mod_mul. lia.
  - intros H0. unfold k. rewrite (Hr5c H0). lia.
  - intros Hn. assert (m < r5).
    { destruct (Z.eq_dec m r5) as [E | N]; [| lia]. rewrite E in Hn. contradiction. }
    unfold k. lia.
Qed.

(** X30. For a whole number of minutes and a valid [Date.now()]: when the
    exact end is no valid time value the call throws a [RangeError].
    When it is one (with room for the rounding) and the zone keeps one
    offset around it, the call returns an instant whose local time lies
    on a 5-minute mark: the start of the exact end's minute when that
    minute is a multiple of 5, and otherwise the next 5-minute mark, less
    than 5 minutes after the exact end. *)
Theorem calculateOverrideEndTime_on_five_minute_mark (now durationMinutes offset : Z) :
  let exact := now + durationMinutes * 60000 in
  Z.abs now <= 8640000000000000 ->
  (8640000000000000 < Z.abs exact ->
   calculateOverrideEndTime LocalTZA now durationMinutes
     = Throw (ErrorObj "Invalid time value")) /\
  (- 8640000000000000 + 60000 <= exact <= 8640000000000000 - fiveMinutes ->
   steadyZone LocalTZA offset (exact - 60000) (exact + fiveMinutes) ->
   exists result,
     calculateOverrideEndTime LocalTZA now durationMinutes = Normal result /\
     LocalTime LocalTZA result mod fiveMinutes = 0 /\
     (MinFromTime (LocalTime LocalTZA exact) mod 5 = 0 ->
        result = exact - LocalTime LocalTZA exact mod 60000) /\
     (MinFromTime (LocalTime LocalTZA exact) mod 5 <> 0 ->
        exact < result < exact + fiveMinutes)).
Proof.
  cbv zeta. intros _. unfold calculateOverrideEndTime.
  replace (now + durationMinutes * 60 * 1000) with (now + durationMinutes * 60000) by lia.
  set (e := now + durationMinutes * 60000). split.
  - intros Hout. rewrite (TimeClip_invalid e Hout). reflexivity.
  - unfold fiveMinutes. intros Hrange (Hoff & Hzone).
    rewrite (TimeClip_valid e) by lia.
    assert (Hloc : forall t, e - 60000 <= t <= e + 5 * 60 * 1000 ->
              LocalTime LocalTZA t = t + offset).
    { intros t Ht. unfold LocalTime. rewrite (proj1 (Hzone t Ht)). reflexivity. }
    assert (Hutc : forall tl, e - 60000 <= tl - offset <= e + 5 * 60 * 1000 ->
              UTC LocalTZA tl = tl - offset).
    { intros tl Ht. unfold UTC.
      pose proof (proj2 (Hzone (tl - offset) Ht)) as E.
      replace (tl - offset + offset) with tl in E by lia. rewrite E. reflexivity. }
    assert (Hback : forall tl, e - 60000 <= tl - offset <= e + 5 * 60 * 1000 ->
              LocalTime LocalTZA (tl - offset) = tl).
    { intros tl Ht. rewrite (Hloc _ Ht). lia. }
    pose proof (rounded_local_time (e + offset)) as Hround. cbv zeta in Hround.
    unfold fiveMinutes in Hround.
    set (m := MinFromTime (e + offset)) in *.
    set (t1 := e + offset - m * 60000 + ceilDiv m 5 * 5 * 60000) in *.
    set (t2 := t1 - SecFromTime t1 * 1000) in *.
    set (t3 := t2 - msFromTime t2) in *.
    destruct Hround as (H1 & H2 & H3 & Hmark & Hzero & Hnext).
    cbn [getMinutes option_map]. rewrite (Hloc e) by lia. fold m.
    cbn [setMinutes]. rewrite (Hloc e) by lia. rewrite MakeDate_minutes. fold m. fold t1.
    rewrite (Hutc t1) by lia. rewrite (TimeClip_valid (t1 - offset)) by lia.
    cbn [setSeconds]. rewrite (Hback t1) by lia.
    rewrite MakeDate_seconds. replace (t1 - SecFromTime t1 * 1000 + 0 * 1000) with t2
      by (unfold t2; lia).
    rewrite (Hutc t2) by lia. rewrite (TimeClip_valid (t2 - offset)) by lia.
    cbn [setMilliseconds]. rewrite (Hback t2) by lia.
    rewrite MakeDate_milliseconds. replace (t2 - msFromTime t2 + 0) with t3
      by (unfold t3; lia).
    rewrite (Hutc t3) by lia. rewrite (TimeClip_valid (t3 - offset)) by lia.
    exists (t3 - offset). split; [reflexivity |].
    rewrite (Hback t3) by lia.
    split; [exact Hmark |]. split.
    + intros H0. rewrite (Hzero H0). lia.
    + intros Hn. specialize (Hnext Hn). lia.
Qed.

End OverrideEndProps.

Section OverrideEndExamples.
Import JS Effects JSDate Http Notions.

(** An hour's override asked for at 14:32:00 ends at 15:35:00; one asked
    for so far ahead that the end is no date throws. *)
Lemma calculateOverrideEndTime_on_five_minute_mark_example :
  calculateOverrideEndTime autumnZone 1730817120000 60
    = Normal (1730817120000 + 63 * 60000) /\
  calculateOverrideEndTime autumnZone 1730817120000 144000000000000
    = Throw (ErrorObj "Invalid time value").
Proof.
  assert (Hnow : Z.abs 1730817120000 <= 8640000000000000) by (vm_compute; discriminate).
  destruct (calculateOverrideEndTime_on_five_minute_mark autumnZone
              1730817120000 144000000000000 0 Hnow)
    as [Hthrow _].
  destruct (calculateOverrideEndTime_on_five_minute_mark autumnZone
              1730817120000 60 0 Hnow)
    as [_ Hmark].
  cbv zeta in Hthrow, Hmark. split.
  - destruct Hmark as (result & Hrun & Hmod & _ & Hnext).
    + unfold fiveMinutes. lia.
    + split; [vm_compute; reflexivity |].
      intros t Ht. unfold fiveMinutes in Ht. unfold autumnZone.
      destruct (Z.ltb_spec t 1729990800000); [lia |].
      destruct (Z.ltb_spec (t + 0) (1729990800000 + 3600000)); [lia |]. split; reflexivity.
    + rewrite Hrun. f_equal.
      assert (Hloc : LocalTime autumnZone result = result).
      { assert (Hn : MinFromTime (LocalTime autumnZone (1730817120000 + 60 * 60000)) mod 5 <> 0)
          by (vm_compute; discriminate).
        specialize (Hnext Hn). unfold LocalTime, autumnZone.
        destruct (Z.ltb_spec result 1729990800000); lia. }
      rewrite Hloc in Hmod.
      assert (Hn : MinFromTime (LocalTime autumnZone (1730817120000 + 60 * 60000)) mod 5 <> 0)
        by (vm_compute; discriminate).
      specialize (Hnext Hn). unfold fiveMinutes in *.
      Z.div_mod_to_equations. lia.
  - apply Hthrow. vm_compute. reflexivity.
Defined.

(** In the local hour that occurs twice the rounded local time is read
    as its earlier instant: asked at 2024-10-27T01:32:10Z for an override
    of 0 minutes, the code answers 00:35:00Z, before the exact end. *)
Lemma calculateOverrideEndTime_in_repeated_hour :
  calculateOverrideEndTime autumnZone 1729992730000 0 = Normal 1729989300000 /\
  1729989300000 < 1729992730000.
Proof. split; reflexivity. Qed.

End OverrideEndExamples.
